(** * Fingerprint synthesis and browser-session management

    A shallow embedding of [backend/models/Fingerprint.js]
    ([generateFingerprint], [createForLead] and the user-agent helpers) and of
    [backend/services/sessionManagementService.js] (the session store and its
    lifecycle operations), with the properties the specification states about
    them.

    Conventions of the embedding.
    - A JavaScript [Number] is a rational [Q]; rounding of doubles, [NaN] and
      the infinities are outside the model.
    - [Math.random()] reads the next element of a stream [random : nat -> Q];
      the position in the stream is threaded through the code.  A real stream
      satisfies [0 <= random i < 1].
    - An optional property ([undefined] / [null] / absent) is an [option].
    - [new Date()] and [Date.now()] read the clock value [now], in
      milliseconds since the epoch, handed to each operation.  A [Date] is
      its time value; an Invalid Date is [None].  The process runs in UTC
      (the container sets no time zone), so local time is UTC. *)

From Stdlib Require Import ZArith QArith Qround Qminmax String Ascii List Lia Lqa Bool DecimalString.
From stdpp Require Import gmap strings list fin_maps.

Local Open Scope Q_scope.

(** ** JavaScript primitives used by both files *)

Module Js.

(** [x || d] on a number: the default is taken when [x] is absent or 0. *)
Definition orNum (x : option Q) (d : Q) : Q :=
  match x with
  | Some q => if Qeq_bool q 0 then d else q
  | None => d
  end.

(** [x || d] on a string: the default is taken when [x] is absent or empty. *)
Definition orStr (x : option string) (d : string) : string :=
  match x with
  | Some EmptyString => d
  | Some s => s
  | None => d
  end.

(** [x || []] on an array. *)
Definition orNil {A} (x : option (list A)) : list A :=
  match x with Some l => l | None => [] end.

(** [Math.floor(r * n)] *)
Definition floorMul (r n : Q) : Z := Qfloor (r * n).

(** [arr[Math.floor(r * arr.length)]].  With [0 <= r < 1] the index is in
    range; [d] stands for the [undefined] JavaScript reads out of range. *)
Definition pick {A} (d : A) (arr : list A) (r : Q) : A :=
  nth (Z.to_nat (floorMul r (inject_Z (Z.of_nat (length arr))))) arr d.

(** [Math.floor(r * (max - min + 1)) + min] *)
Definition randomInt (r lo hi : Q) : Q :=
  inject_Z (floorMul r (hi - lo + 1)) + lo.

(** [Math.max(a, b)] *)
Definition Math_max (a b : Q) : Q := if Qle_bool a b then b else a.

(** Template-literal rendering of an integer. *)
Definition showZ (z : Z) : string := NilZero.string_of_int (Z.to_int z).

(** No character of [s] is [c]. *)
Fixpoint lacks (c : ascii) (s : string) : bool :=
  match s with
  | EmptyString => true
  | String a rest => negb (Ascii.eqb a c) && lacks c rest
  end.

(** *** [Date]

    The abstract operations of ECMA-262 behind [getDate] and [setDate], on
    time values in milliseconds since the epoch. *)

Definition msPerDay : Z := 86400000.

(** [Day(t)] and [TimeWithinDay(t)] *)
Definition Day (t : Z) : Z := (t / msPerDay)%Z.

(** [DateFromTime(t)]: the day of the month, from 1, of the day [Day(t)]
    in the proleptic Gregorian calendar.  The day number is counted from
    1 March 0000, in eras of 400 years ([146097] days); [doe] is the day of
    the era, [yoe] the year of the era, [doy] the day of the year that
    starts on 1 March, [mp] its month. *)
Definition DateFromTime (t : Z) : Z :=
  (let z := Day t + 719468 in
   let era := z / 146097 in
   let doe := z - era * 146097 in
   let yoe := (doe - doe / 1460 + doe / 36524 - doe / 146096) / 365 in
   let doy := doe - (365 * yoe + yoe / 4 - yoe / 100) in
   let mp := (5 * doy + 2) / 153 in
   doy - (153 * mp + 2) / 5 + 1)%Z.







(** [s.substr(start, len)] *)
Definition substr (start len : nat) (s : string) : string :=
  substring start (Nat.min len (String.length s - start)) s.

(** Position of the first occurrence of [pat] in [s]. *)
Fixpoint indexOf (pat s : string) : option nat :=
  if String.prefix pat s then Some 0%nat
  else match s with
       | EmptyString => None
       | String _ rest => S <$> indexOf pat rest
       end.

(** Expansion of the [$$], [$&], [$`] and [$'] patterns of a replacement
    string; with a string pattern there are no capture groups, so any
    other [$] sequence is literal. *)
Fixpoint expandReplacement (matched before after repl : string) : string :=
  match repl with
  | EmptyString => EmptyString
  | String "$" (String "$" rest) =>
      String "$" (expandReplacement matched before after rest)
  | String "$" (String "&" rest) =>
      matched +:+ expandReplacement matched before after rest
  | String "$" (String "`" rest) =>
      before +:+ expandReplacement matched before after rest
  | String "$" (String "'" rest) =>
      after +:+ expandReplacement matched before after rest
  | String c rest => String c (expandReplacement matched before after rest)
  end.

(** [s.replace(pat, repl)] with a string pattern: first occurrence only. *)
Definition replace (pat repl s : string) : string :=
  match indexOf pat s with
  | None => s
  | Some i =>
      let before := substring 0 i s in
      let after :=
        substring (i + String.length pat)
                  (String.length s - (i + String.length pat)) s in
      before +:+ expandReplacement pat before after repl +:+ after
  end.

(** [s.replace(/\./g, '_')] *)
Fixpoint dotsToUnderscores (s : string) : string :=
  match s with
  | EmptyString => EmptyString
  | String c rest =>
      String (if Ascii.eqb c "." then "_"%char else c) (dotsToUnderscores rest)
  end.

Definition isUpper (c : ascii) : bool :=
  let n := nat_of_ascii c in (65 <=? n)%nat && (n <=? 90)%nat.

Definition isUpperOrDigit (c : ascii) : bool :=
  let n := nat_of_ascii c in isUpper c || ((48 <=? n)%nat && (n <=? 57)%nat).

(** Length of the longest prefix of [s] made of [A-Z0-9]. *)
Fixpoint spanUpperOrDigit (s : string) : nat :=
  match s with
  | String c rest => if isUpperOrDigit c then S (spanUpperOrDigit rest) else 0%nat
  | EmptyString => 0%nat
  end.

(** Length of the match of [/[A-Z]{2}-[A-Z0-9]+/] at the head of [s]. *)
Definition matchModelAt (s : string) : option nat :=
  match s with
  | String a (String b (String "-" rest)) =>
      if isUpper a && isUpper b then
        match spanUpperOrDigit rest with
        | O => None
        | n => Some (3 + n)%nat
        end
      else None
  | _ => None
  end.

(** [s.replace(/[A-Z]{2}-[A-Z0-9]+/g, model)]: every match, left to right;
    [skip] counts the characters of the current match still to drop. *)
Fixpoint replaceModels (model s : string) (skip : nat) : string :=
  match s with
  | EmptyString => EmptyString
  | String c rest =>
      match skip with
      | S k => replaceModels model rest k
      | O =>
          match matchModelAt s with
          | Some n => model +:+ replaceModels model rest (n - 1)
          | None => String c (replaceModels model rest 0)
          end
      end
  end.

(** How a call completes: normally with a value, or by throwing. *)
Inductive Completion (E A : Type) :=
| Normal (a : A)
| Throw (e : E).
Arguments Normal {E A} a.
Arguments Throw {E A} e.

End Js.

(** ** [backend/models/Fingerprint.js] *)

Module Fingerprint.
Import Js.
Local Open Scope string_scope.

(** *** Device configurations ([deviceConfigs]) *)

Record Screen := mkScreen {
  sc_width : Q;
  sc_height : Q;
  sc_availWidth : Q;
  sc_availHeight : Q;
  sc_colorDepth : option Q;
  sc_pixelDepth : option Q;
  sc_devicePixelRatio : Q }.

Record Navigator := mkNavigator {
  nav_userAgent : string;
  nav_platform : string;
  nav_hardwareConcurrency : Q;
  nav_deviceMemory : Q;
  nav_maxTouchPoints : Q }.

Record Mobile := mkMobile { isMobile : bool; isTablet : bool }.

Record Browser := mkBrowser { br_name : string; br_version : string }.

Record DeviceConfig := mkConfig {
  screen : Screen;
  navigator : Navigator;
  mobile : Mobile;
  browser : Browser }.

Definition windowsConfig : DeviceConfig :=
  mkConfig
    (mkScreen 1920 1080 1920 1040 None None 1)
    (mkNavigator
       "Mozilla/5.0 (Windows NT 10.0; Win64; x64) AppleWebKit/537.36 (KHTML, like Gecko) Chrome/120.0.0.0 Safari/537.36"
       "Win32" 8 8 0)
    (mkMobile false false)
    (mkBrowser "chrome" "120.0.0.0").

Definition androidConfig : DeviceConfig :=
  mkConfig
    (mkScreen 428 926 428 926 None None 3)
    (mkNavigator
       "Mozilla/5.0 (Linux; Android 14; SM-G998B) AppleWebKit/537.36 (KHTML, like Gecko) Chrome/120.0.0.0 Mobile Safari/537.36"
       "Linux armv8l" 8 8 10)
    (mkMobile true false)
    (mkBrowser "chrome" "120.0.0.0").

Definition iosConfig : DeviceConfig :=
  mkConfig
    (mkScreen 428 926 428 926 None None 3)
    (mkNavigator
       "Mozilla/5.0 (iPhone; CPU iPhone OS 17_0 like Mac OS X) AppleWebKit/605.1.15 (KHTML, like Gecko) Version/17.0 Mobile/15E148 Safari/604.1"
       "iPhone" 6 6 5)
    (mkMobile true false)
    (mkBrowser "safari" "17.0").

Definition macConfig : DeviceConfig :=
  mkConfig
    (mkScreen 2560 1440 2560 1400 None None 2)
    (mkNavigator
       "Mozilla/5.0 (Macintosh; Intel Mac OS X 10_15_7) AppleWebKit/537.36 (KHTML, like Gecko) Chrome/120.0.0.0 Safari/537.36"
       "MacIntel" 8 16 0)
    (mkMobile false false)
    (mkBrowser "chrome" "120.0.0.0").

(** The value of [deviceConfigs[deviceType]]: one of the four own entries,
    a member inherited from [Object.prototype] (a truthy value that is not
    a configuration), or [undefined]. *)
Inductive ConfigEntry :=
| Own (c : DeviceConfig)
| Inherited
| Undefined.

Definition objectPrototypeKeys : list string :=
  [ "constructor"; "__defineGetter__"; "__defineSetter__"; "hasOwnProperty";
    "__lookupGetter__"; "__lookupSetter__"; "isPrototypeOf";
    "propertyIsEnumerable"; "toString"; "valueOf"; "__proto__";
    "toLocaleString" ].

Definition isPrototypeKey (k : string) : bool :=
  existsb (String.eqb k) objectPrototypeKeys.

Definition deviceConfigs (deviceType : string) : ConfigEntry :=
  if String.eqb deviceType "windows" then Own windowsConfig
  else if String.eqb deviceType "android" then Own androidConfig
  else if String.eqb deviceType "ios" then Own iosConfig
  else if String.eqb deviceType "mac" then Own macConfig
  else if isPrototypeKey deviceType then Inherited
  else Undefined.

(** [let finalConfig = { ...(deviceConfigs[deviceType] || deviceConfigs.windows) }].
    Spreading an inherited member copies no property: [finalConfig] is then
    [{}], written [None]. *)
Definition initialConfig (deviceType : string) : option DeviceConfig :=
  match deviceConfigs deviceType with
  | Own c => Some c
  | Inherited => None
  | Undefined => Some windowsConfig
  end.

(** *** Device specifications ([deviceSpecs], as declared in the Order schema) *)

Record Range := mkRange { r_min : option Q; r_max : option Q }.

Record MemorySpec := mkMemorySpec {
  mem_min : option Q;
  mem_max : option Q;
  mem_preferred : option (list Q) }.

Record CpuSpec := mkCpuSpec { cpu_cores : option Range }.

Record HardwareSpec := mkHardwareSpec {
  hw_memory : option MemorySpec;
  hw_cpu : option CpuSpec }.

Record ResolutionSpec := mkResolutionSpec {
  res_width : option Range;
  res_height : option Range }.

Record DisplaySpec := mkDisplaySpec {
  dp_resolution : option ResolutionSpec;
  dp_pixelRatio : option Range;
  dp_colorDepth : option (list Q) }.

Record VersionRange := mkVersionRange {
  v_min : option string;
  v_max : option string }.

Record BrowserSpec := mkBrowserSpec {
  bs_types : option (list string);
  bs_versions : option (list (string * VersionRange)) }.

Record OsSpec := mkOsSpec {
  os_versions : option (list string);
  os_manufacturers : option (list string) }.

Record Characteristics := mkCharacteristics { touchSupport : option string }.

Record DeviceSpecs := mkDeviceSpecs {
  hardware : option HardwareSpec;
  display : option DisplaySpec;
  browserSpec : option BrowserSpec;
  operatingSystem : option (list (string * OsSpec));
  characteristics : option Characteristics }.

(** Property lookup in an object written as an association list. *)
Fixpoint getProp {A} (k : string) (o : list (string * A)) : option A :=
  match o with
  | [] => None
  | (k', v) :: rest => if String.eqb k k' then Some v else getProp k rest
  end.

(** *** The synthesized document *)

Record FpScreen := mkFpScreen {
  width : Q;
  height : Q;
  availWidth : Q;
  availHeight : Q;
  colorDepth : Q;
  pixelDepth : Q;
  devicePixelRatio : Q }.

Record FpNavigator := mkFpNavigator {
  userAgent : string;
  platform : string;
  language : string;
  languages : list string;
  vendor : string;
  product : string;
  hardwareConcurrency : Q;
  deviceMemory : Q;
  maxTouchPoints : Q }.

Record Webgl := mkWebgl {
  wg_vendor : string;
  wg_renderer : string;
  wg_version : string;
  shadingLanguageVersion : string }.

Record Plugin := mkPlugin {
  pl_name : string;
  pl_filename : string;
  pl_description : string;
  pl_version : string }.

Record Additional := mkAdditional {
  cookieEnabled : bool;
  doNotTrack : option string;
  ad_localStorage : bool;
  ad_sessionStorage : bool;
  indexedDB : bool }.

Record Fingerprint := mkFingerprint {
  deviceId : string;
  deviceType : string;
  fp_browser : Browser;
  fp_screen : FpScreen;
  fp_navigator : FpNavigator;
  webgl : Webgl;
  canvasFingerprint : string;
  audioFingerprint : string;
  timezone : string;
  plugins : list Plugin;
  fp_mobile : Mobile;
  additional : Additional;
  createdBy : string;
  lastUsedAt : Z;
  leadId : option string }.

(** *** User-agent helpers *)

(** [generateUserAgent]: the template of the device type and browser type,
    else the device type's chrome template, else the windows chrome one.
    The tables are read by their own keys: a name that is no key of a
    table is absent.  For the names inherited from [Object.prototype]
    ([isPrototypeKey]) the JavaScript lookup yields the inherited member
    instead; the statements about names outside the tables exclude them.
    The fourth parameter is not used. *)
Definition generateUserAgent (deviceType browserType browserVersion : string)
    (deviceSpecs : DeviceSpecs) : string :=
  let v := browserVersion in
  let winChrome :=
    "Mozilla/5.0 (Windows NT 10.0; Win64; x64) AppleWebKit/537.36 (KHTML, like Gecko) Chrome/" +:+ v +:+ " Safari/537.36" in
  let baseUserAgents : list (string * list (string * string)) :=
    [ ("windows",
        [ ("chrome", winChrome);
          ("firefox", "Mozilla/5.0 (Windows NT 10.0; Win64; x64; rv:" +:+ v +:+ ") Gecko/20100101 Firefox/" +:+ v);
          ("edge", "Mozilla/5.0 (Windows NT 10.0; Win64; x64) AppleWebKit/537.36 (KHTML, like Gecko) Chrome/" +:+ v +:+ " Edg/" +:+ v) ]);
      ("android",
        [ ("chrome", "Mozilla/5.0 (Linux; Android 14; SM-G998B) AppleWebKit/537.36 (KHTML, like Gecko) Chrome/" +:+ v +:+ " Mobile Safari/537.36");
          ("firefox", "Mozilla/5.0 (Mobile; rv:" +:+ v +:+ ") Gecko/" +:+ v +:+ " Firefox/" +:+ v) ]);
      ("ios",
        [ ("safari", "Mozilla/5.0 (iPhone; CPU iPhone OS 17_0 like Mac OS X) AppleWebKit/605.1.15 (KHTML, like Gecko) Version/" +:+ v +:+ " Mobile/15E148 Safari/604.1");
          ("chrome", "Mozilla/5.0 (iPhone; CPU iPhone OS 17_0 like Mac OS X) AppleWebKit/605.1.15 (KHTML, like Gecko) CriOS/" +:+ v +:+ " Mobile/15E148 Safari/604.1") ]);
      ("mac",
        [ ("chrome", "Mozilla/5.0 (Macintosh; Intel Mac OS X 10_15_7) AppleWebKit/537.36 (KHTML, like Gecko) Chrome/" +:+ v +:+ " Safari/537.36");
          ("safari", "Mozilla/5.0 (Macintosh; Intel Mac OS X 10_15_7) AppleWebKit/605.1.15 (KHTML, like Gecko) Version/" +:+ v +:+ " Safari/605.1.15");
          ("firefox", "Mozilla/5.0 (Macintosh; Intel Mac OS X 10.15; rv:" +:+ v +:+ ") Gecko/20100101 Firefox/" +:+ v) ]) ] in
  let forDevice := getProp deviceType baseUserAgents in
  orStr (forDevice ≫= getProp browserType)
    (orStr (forDevice ≫= getProp "chrome") winChrome).

(** [updateUserAgentWithOS] *)
Definition updateUserAgentWithOS (userAgent deviceType osVersion : string) : string :=
  if String.eqb deviceType "windows" then
    if String.eqb osVersion "Windows 11"
    then replace "Windows NT 10.0" "Windows NT 10.0" userAgent
    else userAgent
  else if String.eqb deviceType "android" then
    replace "Android 14" ("Android " +:+ osVersion) userAgent
  else if String.eqb deviceType "ios" then
    let iosVersionFormatted := dotsToUnderscores osVersion in
    replace "17_0" iosVersionFormatted userAgent
  else if String.eqb deviceType "mac" then
    replace "10_15_7" "10_15_7" userAgent
  else userAgent.

(** [updateUserAgentWithManufacturer]; the table is read by its own keys,
    as in [generateUserAgent], with the same exclusion of the names
    inherited from [Object.prototype]. *)
Definition updateUserAgentWithManufacturer (userAgent manufacturer : string) : string :=
  let deviceModels :=
    [ ("Samsung", "SM-G998B"); ("Google", "Pixel 6"); ("Xiaomi", "Mi 11");
      ("OnePlus", "OnePlus 9"); ("Huawei", "P50 Pro"); ("LG", "LG-H870");
      ("Sony", "SO-01M") ] in
  let model := orStr (getProp manufacturer deviceModels) "SM-G998B" in
  replaceModels model userAgent 0.

(** *** [generateFingerprint] *)

Inductive Exception :=
| TypeError
| Error (message : string).

Definition setScreen (f : Screen -> Screen) (c : DeviceConfig) : DeviceConfig :=
  mkConfig (f (screen c)) (navigator c) (mobile c) (browser c).

Definition setNavigator (f : Navigator -> Navigator) (c : DeviceConfig) : DeviceConfig :=
  mkConfig (screen c) (f (navigator c)) (mobile c) (browser c).

Definition setBrowser (f : Browser -> Browser) (c : DeviceConfig) : DeviceConfig :=
  mkConfig (screen c) (navigator c) (mobile c) (f (browser c)).

Definition setWidth (w : Q) (s : Screen) : Screen :=
  mkScreen w (sc_height s) (sc_availWidth s) (sc_availHeight s)
           (sc_colorDepth s) (sc_pixelDepth s) (sc_devicePixelRatio s).

Definition setHeight (h : Q) (s : Screen) : Screen :=
  mkScreen (sc_width s) h (sc_availWidth s) (sc_availHeight s)
           (sc_colorDepth s) (sc_pixelDepth s) (sc_devicePixelRatio s).

Definition setAvailWidth (w : Q) (s : Screen) : Screen :=
  mkScreen (sc_width s) (sc_height s) w (sc_availHeight s)
           (sc_colorDepth s) (sc_pixelDepth s) (sc_devicePixelRatio s).

Definition setAvailHeight (h : Q) (s : Screen) : Screen :=
  mkScreen (sc_width s) (sc_height s) (sc_availWidth s) h
           (sc_colorDepth s) (sc_pixelDepth s) (sc_devicePixelRatio s).

Definition setPixelRatio (x : Q) (s : Screen) : Screen :=
  mkScreen (sc_width s) (sc_height s) (sc_availWidth s) (sc_availHeight s)
           (sc_colorDepth s) (sc_pixelDepth s) x.

Definition setColorDepth (x : Q) (s : Screen) : Screen :=
  mkScreen (sc_width s) (sc_height s) (sc_availWidth s) (sc_availHeight s)
           (Some x) (Some x) (sc_devicePixelRatio s).

Definition setUserAgent (ua : string) (n : Navigator) : Navigator :=
  mkNavigator ua (nav_platform n) (nav_hardwareConcurrency n)
              (nav_deviceMemory n) (nav_maxTouchPoints n).

Definition setHardwareConcurrency (x : Q) (n : Navigator) : Navigator :=
  mkNavigator (nav_userAgent n) (nav_platform n) x
              (nav_deviceMemory n) (nav_maxTouchPoints n).

Definition setDeviceMemory (x : Q) (n : Navigator) : Navigator :=
  mkNavigator (nav_userAgent n) (nav_platform n) (nav_hardwareConcurrency n)
              x (nav_maxTouchPoints n).

Definition setMaxTouchPoints (x : Q) (n : Navigator) : Navigator :=
  mkNavigator (nav_userAgent n) (nav_platform n) (nav_hardwareConcurrency n)
              (nav_deviceMemory n) x.

Section Synthesis.

(** The stream behind [Math.random()] and the rendering
    [x.toString(36)] of a number in base 36. *)
Variable random : nat -> Q.
Variable toString36 : Q -> string.

(** Computations that draw random numbers: the state is the position in
    the stream. *)
Definition Rand (A : Type) : Type := nat -> A * nat.

Definition ret {A} (a : A) : Rand A := fun i => (a, i).

Definition bind {A B} (m : Rand A) (k : A -> Rand B) : Rand B :=
  fun i => let (a, j) := m i in k a j.

Notation "'let*' x := m 'in' k" := (bind m (fun x => k))
  (at level 10, x name, m at level 100, k at level 200).

Definition Math_random : Rand Q := fun i => (random i, S i).

(** Lines 306-317: memory. *)
Definition applyMemory (hw : HardwareSpec) (cfg : DeviceConfig) : Rand DeviceConfig :=
  match hw_memory hw with
  | Some memory =>
      let memoryMin := orNum (mem_min memory) 4 in
      let memoryMax := orNum (mem_max memory) 16 in
      let preferredMemory := orNil (mem_preferred memory) in
      if (0 <? length preferredMemory)%nat then
        let* r := Math_random in
        ret (setNavigator (setDeviceMemory (pick 0 preferredMemory r)) cfg)
      else
        let* r := Math_random in
        ret (setNavigator (setDeviceMemory (randomInt r memoryMin memoryMax)) cfg)
  | None => ret cfg
  end.

(** Lines 319-324: CPU cores. *)
Definition applyCpu (hw : HardwareSpec) (cfg : DeviceConfig) : Rand DeviceConfig :=
  match hw_cpu hw ≫= cpu_cores with
  | Some cores =>
      let coresMin := orNum (r_min cores) 2 in
      let coresMax := orNum (r_max cores) 8 in
      let* r := Math_random in
      ret (setNavigator (setHardwareConcurrency (randomInt r coresMin coresMax)) cfg)
  | None => ret cfg
  end.

(** Lines 302-325: hardware. *)
Definition applyHardware (specs : DeviceSpecs) (cfg : DeviceConfig) : Rand DeviceConfig :=
  match hardware specs with
  | Some hw =>
      let* cfg := applyMemory hw cfg in
      applyCpu hw cfg
  | None => ret cfg
  end.

(** Lines 333-338: resolution width. *)
Definition applyWidth (res : ResolutionSpec) (cfg : DeviceConfig) : Rand DeviceConfig :=
  match res_width res with
  | Some w =>
      let widthMin := orNum (r_min w) 1280 in
      let widthMax := orNum (r_max w) 1920 in
      let* r := Math_random in
      let cfg := setScreen (setWidth (randomInt r widthMin widthMax)) cfg in
      ret (setScreen (setAvailWidth (sc_width (screen cfg))) cfg)
  | None => ret cfg
  end.

(** Lines 340-345: resolution height. *)
Definition applyHeight (res : ResolutionSpec) (cfg : DeviceConfig) : Rand DeviceConfig :=
  match res_height res with
  | Some h =>
      let heightMin := orNum (r_min h) 720 in
      let heightMax := orNum (r_max h) 1080 in
      let* r := Math_random in
      let cfg := setScreen (setHeight (randomInt r heightMin heightMax)) cfg in
      ret (setScreen (setAvailHeight (sc_height (screen cfg) - 40)) cfg)
  | None => ret cfg
  end.

(** Lines 349-353: pixel ratio. *)
Definition applyPixelRatio (dp : DisplaySpec) (cfg : DeviceConfig) : Rand DeviceConfig :=
  match dp_pixelRatio dp with
  | Some pr =>
      let ratioMin := orNum (r_min pr) 1 in
      let ratioMax := orNum (r_max pr) 2 in
      let* r := Math_random in
      ret (setScreen (setPixelRatio (r * (ratioMax - ratioMin) + ratioMin)) cfg)
  | None => ret cfg
  end.

(** Lines 356-359: colour depth. *)
Definition applyColorDepth (dp : DisplaySpec) (cfg : DeviceConfig) : Rand DeviceConfig :=
  match dp_colorDepth dp with
  | Some depths =>
      if (0 <? length depths)%nat then
        let* r := Math_random in
        ret (setScreen (setColorDepth (pick 0 depths r)) cfg)
      else ret cfg
  | None => ret cfg
  end.

(** Lines 328-360: display. *)
Definition applyDisplay (specs : DeviceSpecs) (cfg : DeviceConfig) : Rand DeviceConfig :=
  match display specs with
  | Some dp =>
      let* cfg :=
        match dp_resolution dp with
        | Some res =>
            let* cfg := applyWidth res cfg in
            applyHeight res cfg
        | None => ret cfg
        end in
      let* cfg := applyPixelRatio dp cfg in
      applyColorDepth dp cfg
  | None => ret cfg
  end.

(** Lines 363-376: browser. *)
Definition applyBrowser (deviceType : string) (specs : DeviceSpecs)
    (cfg : DeviceConfig) : Rand DeviceConfig :=
  match browserSpec specs with
  | Some bs =>
      match bs_types bs with
      | Some types =>
          if (0 <? length types)%nat then
            let* r := Math_random in
            let browserType := pick "" types r in
            let cfg := setBrowser (fun b => mkBrowser browserType (br_version b)) cfg in
            let cfg :=
              match bs_versions bs ≫= getProp browserType with
              | Some versionRange =>
                  setBrowser (fun b =>
                    mkBrowser (br_name b)
                              (orStr (v_max versionRange) (br_version b))) cfg
              | None => cfg
              end in
            ret (setNavigator
                   (setUserAgent
                      (generateUserAgent deviceType browserType
                         (br_version (browser cfg)) specs)) cfg)
          else ret cfg
      | None => ret cfg
      end
  | None => ret cfg
  end.

(** Lines 379-393: operating system. *)
Definition applyOperatingSystem (deviceType : string) (specs : DeviceSpecs)
    (cfg : DeviceConfig) : Rand DeviceConfig :=
  match operatingSystem specs ≫= getProp deviceType with
  | Some osSpecs =>
      let* cfg :=
        match os_versions osSpecs with
        | Some versions =>
            if (0 <? length versions)%nat then
              let* r := Math_random in
              let selectedVersion := pick "" versions r in
              ret (setNavigator (fun n =>
                     setUserAgent
                       (updateUserAgentWithOS (nav_userAgent n) deviceType
                          selectedVersion) n) cfg)
            else ret cfg
        | None => ret cfg
        end in
      match os_manufacturers osSpecs with
      | Some manufacturers =>
          if String.eqb deviceType "android" && (0 <? length manufacturers)%nat then
            let* r := Math_random in
            let manufacturer := pick "" manufacturers r in
            ret (setNavigator (fun n =>
                   setUserAgent
                     (updateUserAgentWithManufacturer (nav_userAgent n)
                        manufacturer) n) cfg)
          else ret cfg
      | None => ret cfg
      end
  | None => ret cfg
  end.

(** Lines 396-406: device characteristics. *)
Definition applyCharacteristics (specs : DeviceSpecs) (cfg : DeviceConfig) : DeviceConfig :=
  match characteristics specs with
  | Some chars =>
      match touchSupport chars with
      | Some ts =>
          if String.eqb ts "required" then
            setNavigator (fun n =>
              setMaxTouchPoints (Math_max 1 (nav_maxTouchPoints n)) n) cfg
          else if String.eqb ts "disabled" then
            setNavigator (setMaxTouchPoints 0) cfg
          else cfg
      | None => cfg
      end
  | None => cfg
  end.

(** Lines 301-407: the whole [if (deviceSpecs)] block, which resolves the
    specification into concrete values. *)
Definition applyDeviceSpecs (deviceType : string) (deviceSpecs : option DeviceSpecs)
    (cfg : DeviceConfig) : Rand DeviceConfig :=
  match deviceSpecs with
  | Some specs =>
      let* cfg := applyHardware specs cfg in
      let* cfg := applyDisplay specs cfg in
      let* cfg := applyBrowser deviceType specs cfg in
      let* cfg := applyOperatingSystem deviceType specs cfg in
      ret (applyCharacteristics specs cfg)
  | None => ret cfg
  end.

(** Lines 410-420. *)
Definition screenWidthVariations : list Q := [-2; -1; 0; 1; 2].
Definition screenHeightVariations : list Q := [-2; -1; 0; 1; 2].
Definition hardwareConcurrencyVariations (deviceType : string) : list Q :=
  if String.eqb deviceType "android" || String.eqb deviceType "ios"
  then [0; 1; -1] else [0; 1; -1; 2; -2].
Definition deviceMemoryVariations : list Q := [0; 1; -1].

Definition randomVariation (base : Q) (variations : list Q) : Rand Q :=
  let* r := Math_random in
  let variation := pick 0 variations r in
  ret (Math_max 1 (base + variation)).

(** The three guards of lines 423, 430 and 434. *)
Definition resolutionGiven (deviceSpecs : option DeviceSpecs) : bool :=
  bool_decide (is_Some ((deviceSpecs ≫= display) ≫= dp_resolution)).
Definition cpuGiven (deviceSpecs : option DeviceSpecs) : bool :=
  bool_decide (is_Some ((deviceSpecs ≫= hardware) ≫= hw_cpu)).
Definition memoryGiven (deviceSpecs : option DeviceSpecs) : bool :=
  bool_decide (is_Some ((deviceSpecs ≫= hardware) ≫= hw_memory)).

(** Lines 422-436: the random variations. *)
Definition applyVariations (deviceType : string) (deviceSpecs : option DeviceSpecs)
    (cfg : DeviceConfig) : Rand DeviceConfig :=
  let* cfg :=
    if negb (resolutionGiven deviceSpecs) then
      let* w := randomVariation (sc_width (screen cfg)) screenWidthVariations in
      let cfg := setScreen (setWidth w) cfg in
      let* h := randomVariation (sc_height (screen cfg)) screenHeightVariations in
      let cfg := setScreen (setHeight h) cfg in
      let cfg := setScreen (setAvailWidth (sc_width (screen cfg))) cfg in
      ret (setScreen (setAvailHeight (sc_height (screen cfg) - 40)) cfg)
    else ret cfg in
  let* cfg :=
    if negb (cpuGiven deviceSpecs) then
      let* c := randomVariation (nav_hardwareConcurrency (navigator cfg))
                  (hardwareConcurrencyVariations deviceType) in
      ret (setNavigator (setHardwareConcurrency c) cfg)
    else ret cfg in
  if negb (memoryGiven deviceSpecs) then
    let* m := randomVariation (nav_deviceMemory (navigator cfg))
                deviceMemoryVariations in
    ret (setNavigator (setDeviceMemory m) cfg)
  else ret cfg.

Definition chromePdfPlugin : Plugin :=
  mkPlugin "Chrome PDF Plugin" "internal-pdf-viewer" "Portable Document Format" "1.0".

(** Lines 438-489: the returned object. *)
Definition buildFingerprint (deviceId deviceType createdBy : string) (now : Z)
    (finalConfig : DeviceConfig) : Rand Fingerprint :=
  let* canvas := Math_random in
  let* audio := Math_random in
  let s := screen finalConfig in
  let n := navigator finalConfig in
  ret {| deviceId := deviceId;
         deviceType := deviceType;
         fp_browser := browser finalConfig;
         fp_screen :=
           {| width := sc_width s;
              height := sc_height s;
              availWidth := sc_availWidth s;
              availHeight := sc_availHeight s;
              colorDepth := orNum (sc_colorDepth s) 24;
              pixelDepth := orNum (sc_pixelDepth s) 24;
              devicePixelRatio := sc_devicePixelRatio s |};
         fp_navigator :=
           {| userAgent := nav_userAgent n;
              platform := nav_platform n;
              language := "en-US";
              languages := ["en-US"; "en"];
              vendor := if String.eqb (br_name (browser finalConfig)) "chrome"
                        then "Google Inc." else "";
              product := "Gecko";
              hardwareConcurrency := nav_hardwareConcurrency n;
              deviceMemory := nav_deviceMemory n;
              maxTouchPoints := nav_maxTouchPoints n |};
         webgl := mkWebgl "WebKit" "WebKit WebGL" "WebGL 1.0" "WebGL GLSL ES 1.0";
         canvasFingerprint := substr 2 16 (toString36 canvas);
         audioFingerprint := substr 2 16 (toString36 audio);
         timezone := "America/New_York";
         plugins := if String.eqb deviceType "windows" || String.eqb deviceType "mac"
                    then [chromePdfPlugin] else [];
         fp_mobile := mobile finalConfig;
         additional := mkAdditional true None true true true;
         createdBy := createdBy;
         lastUsedAt := now;
         leadId := None |}.

(** [generateFingerprint(deviceType, createdBy, deviceSpecs)], started at
    position [i] of the random stream.  When [finalConfig] is [{}] the
    read of [finalConfig.screen.width] in the returned object (at the
    latest) throws a [TypeError]. *)
Definition generateFingerprint (deviceType createdBy : string)
    (deviceSpecs : option DeviceSpecs) (now : Z) (i : nat)
    : Completion Exception (Fingerprint * nat) :=
  let config := initialConfig deviceType in
  let (token, i) := Math_random i in
  let deviceId :=
    deviceType +:+ "_" +:+ showZ now +:+ "_" +:+ substr 2 9 (toString36 token) in
  match config with
  | None => Throw TypeError
  | Some finalConfig =>
      Normal
        ((let* finalConfig := applyDeviceSpecs deviceType deviceSpecs finalConfig in
          let* finalConfig := applyVariations deviceType deviceSpecs finalConfig in
          buildFingerprint deviceId deviceType createdBy now finalConfig) i)
  end.

(** *** [createForLead] *)

(** The Fingerprint collection behind the mongoose model: its documents,
    and [fault], the message of the error every operation throws while
    the store is unreachable. *)
Record Collection := mkCollection {
  docs : list Fingerprint;
  fault : option string }.

(** [this.findOne({ leadId })] *)
Definition findOne (leadId' : string) (db : Collection)
    : Completion Exception (option Fingerprint) :=
  match fault db with
  | Some msg => Throw (Error msg)
  | None =>
      Normal (find (fun d => bool_decide (leadId d = Some leadId')) (docs db))
  end.

(** [this.create(doc)]: the schema declares unique indexes on [deviceId]
    and (sparse) on [leadId]. *)
Definition create (doc : Fingerprint) (db : Collection)
    : Completion Exception Fingerprint * Collection :=
  match fault db with
  | Some msg => (Throw (Error msg), db)
  | None =>
      if existsb (fun d => String.eqb (deviceId d) (deviceId doc)) (docs db) then
        (Throw (Error "E11000 duplicate key error index: deviceId_1"), db)
      else if existsb (fun d => bool_decide (is_Some (leadId doc))
                                && bool_decide (leadId d = leadId doc)) (docs db) then
        (Throw (Error "E11000 duplicate key error index: leadId_1"), db)
      else (Normal doc, mkCollection (docs db ++ [doc]) (fault db))
  end.

Definition validDeviceTypes : list string := ["windows"; "android"; "ios"; "mac"].

Definition includes (x : string) (l : list string) : bool :=
  existsb (String.eqb x) l.

Definition withLeadId (l : string) (d : Fingerprint) : Fingerprint :=
  {| deviceId := deviceId d; deviceType := deviceType d;
     fp_browser := fp_browser d; fp_screen := fp_screen d;
     fp_navigator := fp_navigator d; webgl := webgl d;
     canvasFingerprint := canvasFingerprint d;
     audioFingerprint := audioFingerprint d; timezone := timezone d;
     plugins := plugins d; fp_mobile := fp_mobile d;
     additional := additional d; createdBy := createdBy d;
     lastUsedAt := lastUsedAt d; leadId := Some l |}.

(** [createForLead(leadId, deviceType, createdBy, deviceSpecs)]; an
    argument that is not passed is the empty string, which [!x] rejects
    like [undefined]. *)
Definition createForLead (leadId' deviceType' createdBy' : string)
    (deviceSpecs : option DeviceSpecs) (now : Z) (i : nat) (db : Collection)
    : Completion Exception Fingerprint * Collection :=
  if String.eqb leadId' "" then (Throw (Error "leadId is required"), db)
  else if String.eqb deviceType' "" then (Throw (Error "deviceType is required"), db)
  else if String.eqb createdBy' "" then (Throw (Error "createdBy is required"), db)
  else if negb (includes deviceType' validDeviceTypes) then
    (Throw (Error ("Invalid deviceType: " +:+ deviceType' +:+ ". Must be one of: "
                   +:+ String.concat ", " validDeviceTypes)), db)
  else
    match findOne leadId' db with
    | Throw e => (Throw e, db)
    | Normal (Some existing) =>
        (Throw (Error "Fingerprint already exists for this lead"), db)
    | Normal None =>
        match generateFingerprint deviceType' createdBy' deviceSpecs now i with
        | Throw e => (Throw e, db)
        | Normal (fingerprintData, _) =>
            create (withLeadId leadId' fingerprintData) db
        end
    end.

End Synthesis.

End Fingerprint.

(** ** [backend/services/sessionManagementService.js] *)

Module SessionManagementService.
Import Js.
Local Open Scope string_scope.
Local Open Scope Z_scope.

(** *** Data *)

(** A JSON value, as the capture script hands it over. *)
#[local] Set Warnings "-register-all".
Inductive Json :=
| JNull
| JBool (b : bool)
| JNum (q : Q)
| JStr (s : string)
| JArr (items : list Json)
| JObj (props : list (string * Json)).

Definition truthy (j : Json) : bool :=
  match j with
  | JNull => false
  | JBool b => b
  | JNum q => negb (Qeq_bool q 0)
  | JStr s => negb (String.eqb s "")
  | JArr _ | JObj _ => true
  end.

(** [x || d] on a property that may be absent. *)
Definition orJson (x : option Json) (d : Json) : Json :=
  match x with
  | Some j => if truthy j then j else d
  | None => d
  end.

(** The [sessionData] argument of [storeSession]. *)
Record SessionInput := mkSessionInput {
  in_cookies : option Json;
  in_localStorage : option Json;
  in_sessionStorage : option Json;
  in_userAgent : option Json;
  in_viewport : option Json;
  in_deviceFingerprint : option Json;
  in_finalDomain : option Json }.

Record SessionData := mkSessionData {
  cookies : Json;
  localStorage : Json;
  sessionStorage : Json;
  userAgent : Json;
  viewport : Json;
  deviceFingerprint : Json;
  finalDomain : Json }.

Record SessionRecord := mkSessionRecord {
  sessionId : string;
  leadId : string;
  orderId : string;
  createdAt : Z;
  sessionData : SessionData;
  status : string;
  lastUsed : Z;
  assignedAgent : option string;
  assignedAt : option Z }.

(** The text of a session file: the JSON of a record, as [storeSession]
    writes it, or text that [JSON.parse] rejects; files holding any other
    JSON value are not modelled.  Under the Node 18 runtime of the Dockerfile the
    message of that [SyntaxError] is ["Unexpected "] followed by a detail
    (a token and position, or [end of JSON input]). *)
Inductive Text :=
| RecordJson (r : SessionRecord)
| Garbage (detail : string).

(** An entry of the sessions directory: a file whose text can be read, or
    one that exists but cannot be opened for reading. *)
Inductive File :=
| Readable (t : Text)
| Unreadable.

(** The [sessionData] sub-document of a lead. *)
Record LeadSession := mkLeadSession {
  ls_sessionId : option string;
  ls_sessionPath : option string;
  ls_createdAt : option Z;
  ls_status : option string;
  ls_assignedAgent : option string;
  ls_assignedAt : option Z;
  ls_lastUsed : option Z }.

Record Lead := mkLead {
  firstName : option string;
  lastName : option string;
  newEmail : option string;
  newPhone : option string;
  phone : option string;
  country : option string;
  assignedTo : option string;
  lead_assignedAt : option Z;
  isAssigned : bool;
  lead_sessionData : option LeadSession }.

Record LeadInfo := mkLeadInfo {
  li_firstName : option string;
  li_lastName : option string;
  li_email : option string;
  li_phone : option string;
  li_country : option string }.

(** The document handed to the launcher script. *)
Record BrowserLaunchData := mkBrowserLaunchData {
  bl_leadId : string;
  bl_agentId : string;
  bl_sessionData : SessionData;
  bl_leadInfo : LeadInfo }.

(** The state the service works on: the Lead collection, the message of
    the error thrown by every collection operation while the store is
    unreachable ([dbFault]), the sessions directory by file name, and the
    launcher processes spawned so far. *)
Record World := mkWorld {
  leads : gmap string Lead;
  dbFault : option string;
  files : gmap string File;
  spawned : list BrowserLaunchData }.

(** *** The monad of the service: state, and exceptions named by their
    message.  A throw keeps the effects made before it. *)

Definition M (A : Type) : Type := World -> Completion string A * World.

Definition ret {A} (a : A) : M A := fun w => (Normal a, w).

Definition throw {A} (message : string) : M A := fun w => (Throw message, w).

Definition bind {A B} (m : M A) (k : A -> M B) : M B :=
  fun w =>
    match m w with
    | (Normal a, w') => k a w'
    | (Throw e, w') => (Throw e, w')
    end.

(** [try { m } catch (error) { h(error.message) }] *)
Definition tryCatch {A} (m : M A) (h : string -> M A) : M A :=
  fun w =>
    match m w with
    | (Normal a, w') => (Normal a, w')
    | (Throw e, w') => h e w'
    end.

Notation "'let*' x := m 'in' k" := (bind m (fun x => k))
  (at level 10, x name, m at level 100, k at level 200).
Notation "m ;;; k" := (bind m (fun _ => k))
  (at level 100, k at level 200, right associativity).

(** *** The Lead collection *)

Definition findById (id : string) : M (option Lead) :=
  fun w =>
    match dbFault w with
    | Some msg => (Throw msg, w)
    | None => (Normal (leads w !! id), w)
    end.

(** [findByIdAndUpdate(id, update)]: applies the update to the document
    with this id, if there is one.  The value is the updated document, as
    with [{ new: true }], or [null]; the callers that do not pass that
    option ignore the value. *)
Definition findByIdAndUpdate (id : string) (update : Lead -> Lead) : M (option Lead) :=
  fun w =>
    match dbFault w with
    | Some msg => (Throw msg, w)
    | None =>
        match leads w !! id with
        | Some l =>
            (Normal (Some (update l)),
             mkWorld (<[id := update l]> (leads w)) (dbFault w) (files w) (spawned w))
        | None => (Normal None, w)
        end
    end.

Definition emptyLeadSession : LeadSession :=
  mkLeadSession None None None None None None None.

Definition updateLeadSession (f : LeadSession -> LeadSession) (l : Lead) : Lead :=
  mkLead (firstName l) (lastName l) (newEmail l) (newPhone l) (phone l)
         (country l) (assignedTo l) (lead_assignedAt l) (isAssigned l)
         (Some (f (default emptyLeadSession (lead_sessionData l)))).

(** [$set] of the four [sessionData.*] paths written by [storeSession]. *)
Definition setSessionReference (sid path : string) (now : Z) (l : Lead) : Lead :=
  updateLeadSession (fun s =>
    mkLeadSession (Some sid) (Some path) (Some now) (Some "active")
                  (ls_assignedAgent s) (ls_assignedAt s) (ls_lastUsed s)) l.

(** [$set] of the assignment written by [assignSessionToAgent]. *)
Definition setAssignment (agentId : string) (now : Z) (l : Lead) : Lead :=
  updateLeadSession (fun s =>
    mkLeadSession (ls_sessionId s) (ls_sessionPath s) (ls_createdAt s)
                  (ls_status s) (Some agentId) (Some now) (ls_lastUsed s))
    (mkLead (firstName l) (lastName l) (newEmail l) (newPhone l) (phone l)
            (country l) (Some agentId) (Some now) true (lead_sessionData l)).


(** *** The sessions directory *)

Definition sessionsDir : string := "backend/browser_sessions".

(** [path.join(dir, file)].  For a [file] of one segment the joined path is
    [dir/file] as it stands.  A [file] with a [/] in it names a nested path
    or, through [..] segments, a path outside the directory; it is joined
    the same way here, without the normalisation of [.] and [..], and the
    flat directory below holds no entry for it. *)
Definition path_join (dir file : string) : string := dir +:+ "/" +:+ file.

(** A name an entry of the sessions directory can have: one path segment,
    so without [/] and NUL and different from [.] and [..], of at most 255
    bytes ([NAME_MAX]). *)
Definition isFileName (name : string) : bool :=
  lacks "/" name && lacks "000" name
  && negb (String.eqb name "") && negb (String.eqb name ".")
  && negb (String.eqb name "..")
  && (String.length name <=? 255)%nat.

Fixpoint stripPrefix (p s : string) : option string :=
  match p with
  | EmptyString => Some s
  | String a p' =>
      match s with
      | String b s' => if Ascii.eqb a b then stripPrefix p' s' else None
      | EmptyString => None
      end
  end.

(** The name under which a path lies in the sessions directory; paths
    elsewhere name no file. *)
Definition fileName (path : string) : option string :=
  stripPrefix (sessionsDir +:+ "/") path.

Definition lookupFile (path : option string) (w : World) : option File :=
  (path ≫= fileName) ≫= (fun n => files w !! n).

Definition showPath (path : option string) : string := default "undefined" path.

(** [fs.access(path)] *)
Definition access (path : option string) : M unit :=
  fun w =>
    match lookupFile path w with
    | Some _ => (Normal tt, w)
    | None => (Throw ("ENOENT: no such file or directory, access '"
                      +:+ showPath path +:+ "'"), w)
    end.

(** [fs.readFile(path, 'utf8')] *)
Definition readFile (path : option string) : M Text :=
  fun w =>
    match lookupFile path w with
    | Some (Readable t) => (Normal t, w)
    | Some Unreadable =>
        (Throw ("EACCES: permission denied, open '" +:+ showPath path +:+ "'"), w)
    | None =>
        (Throw ("ENOENT: no such file or directory, open '"
                +:+ showPath path +:+ "'"), w)
    end.

(** [fs.writeFile(path, text)]: replaces the file of the directory the
    path names, or creates one when the name is one an entry can have.  An
    entry that cannot be opened is not written.  Every other path is
    refused; the error is the one of the common case, a name with a [/],
    whose parent directory does not exist. *)
Definition writeFile (path : option string) (t : Text) : M unit :=
  fun w =>
    match path ≫= fileName with
    | Some n =>
        let written :=
          mkWorld (leads w) (dbFault w) (<[n := Readable t]> (files w)) (spawned w) in
        match files w !! n with
        | Some (Readable _) => (Normal tt, written)
        | Some Unreadable =>
            (Throw ("EACCES: permission denied, open '"
                    +:+ showPath path +:+ "'"), w)
        | None =>
            if isFileName n then (Normal tt, written)
            else (Throw ("ENOENT: no such file or directory, open '"
                         +:+ showPath path +:+ "'"), w)
        end
    | None =>
        (Throw ("ENOENT: no such file or directory, open '"
                +:+ showPath path +:+ "'"), w)
    end.



Definition JSON_stringify (r : SessionRecord) : Text := RecordJson r.

Definition JSON_parse (t : Text) : M SessionRecord :=
  match t with
  | RecordJson r => ret r
  | Garbage detail => throw ("Unexpected " +:+ detail)
  end.

(** [child_process.spawn('python', [scriptPath, JSON.stringify(data)], ...)]:
    the launcher is started and recorded.  A spawn that fails at once (an
    argument list beyond the system's limit) is outside the model. *)
Definition spawn (data : BrowserLaunchData) : M unit :=
  fun w => (Normal tt, mkWorld (leads w) (dbFault w) (files w) (spawned w ++ [data])).

(** *** Operations *)

(** [generateSessionId]; [randomHex] is [crypto.randomBytes(8).toString('hex')]. *)
Definition generateSessionId (leadId orderId : string) (now : Z) (randomHex : string)
    : string :=
  "session_" +:+ leadId +:+ "_" +:+ orderId +:+ "_" +:+ showZ now +:+ "_" +:+ randomHex.

Record StoreResult := mkStoreResult {
  st_success : bool;
  st_sessionId : string;
  st_sessionPath : string;
  st_message : string }.

(** [storeSession(leadId, orderId, sessionData)] *)
Definition storeSession (leadId orderId : string) (sessionData : SessionInput)
    (now : Z) (randomHex : string) : M StoreResult :=
  tryCatch
    (let sessionId := generateSessionId leadId orderId now randomHex in
     let sessionPath := path_join sessionsDir (sessionId +:+ ".json") in
     let sessionRecord :=
       {| sessionId := sessionId;
          leadId := leadId;
          orderId := orderId;
          createdAt := now;
          sessionData :=
            {| cookies := orJson (in_cookies sessionData) (JArr []);
               localStorage := orJson (in_localStorage sessionData) (JObj []);
               sessionStorage := orJson (in_sessionStorage sessionData) (JObj []);
               userAgent := orJson (in_userAgent sessionData) JNull;
               viewport := orJson (in_viewport sessionData) JNull;
               deviceFingerprint := orJson (in_deviceFingerprint sessionData) JNull;
               finalDomain := orJson (in_finalDomain sessionData) JNull |};
          status := "active";
          lastUsed := now;
          assignedAgent := None;
          assignedAt := None |} in
     writeFile (Some sessionPath) (JSON_stringify sessionRecord) ;;;
     findByIdAndUpdate leadId (setSessionReference sessionId sessionPath now) ;;;
     ret (mkStoreResult true sessionId sessionPath "Session stored successfully"))
    (fun message => throw ("Failed to store session: " +:+ message)).

Record RetrieveResult := mkRetrieveResult {
  rr_success : bool;
  rr_sessionData : SessionData;
  rr_sessionId : string;
  rr_createdAt : Z;
  rr_lastUsed : Z }.

Definition withLastUsed (t : Z) (r : SessionRecord) : SessionRecord :=
  mkSessionRecord (sessionId r) (leadId r) (orderId r) (createdAt r)
                  (sessionData r) (status r) t (assignedAgent r) (assignedAt r).

Definition withAssignment (agentId : string) (t : Z) (r : SessionRecord) : SessionRecord :=
  mkSessionRecord (sessionId r) (leadId r) (orderId r) (createdAt r)
                  (sessionData r) (status r) (lastUsed r) (Some agentId) (Some t).

(** The guard [!lead || !lead.sessionData || !lead.sessionData.sessionId]:
    the lead's session reference when all three are present. *)
Definition sessionReference (lead : option Lead) : option LeadSession :=
  match lead with
  | Some l =>
      match lead_sessionData l with
      | Some sd =>
          match ls_sessionId sd with
          | Some sid => if String.eqb sid "" then None else Some sd
          | None => None
          end
      | None => None
      end
  | None => None
  end.

(** [retrieveSession(leadId)] *)
Definition retrieveSession (leadId : string) (now : Z) : M RetrieveResult :=
  tryCatch
    (let* lead := findById leadId in
     match sessionReference lead with
     | None => throw "No session data found for this lead"
     | Some sd =>
         let sessionPath := ls_sessionPath sd in
         tryCatch (access sessionPath)
           (fun _ => throw "Session file not found or inaccessible") ;;;
         let* sessionFileContent := readFile sessionPath in
         let* sessionRecord := JSON_parse sessionFileContent in
         let sessionRecord := withLastUsed now sessionRecord in
         writeFile sessionPath (JSON_stringify sessionRecord) ;;;
         ret (mkRetrieveResult true (sessionData sessionRecord)
                (sessionId sessionRecord) (createdAt sessionRecord)
                (lastUsed sessionRecord))
     end)
    (fun message => throw ("Failed to retrieve session: " +:+ message)).

(** [hasActiveSession(leadId)] *)
Definition hasActiveSession (leadId : string) : M bool :=
  tryCatch
    (let* lead := findById leadId in
     match sessionReference lead with
     | None => ret false
     | Some sd =>
         tryCatch
           (access (ls_sessionPath sd) ;;;
            ret (bool_decide (ls_status sd = Some "active")))
           (fun _ => ret false)
     end)
    (fun _ => ret false).

Record AssignResult := mkAssignResult {
  as_success : bool;
  as_message : string;
  as_leadId : string;
  as_agentId : string;
  as_sessionId : option string }.

(** [assignSessionToAgent(leadId, agentId)] *)
Definition assignSessionToAgent (leadId agentId : string) (now : Z) : M AssignResult :=
  tryCatch
    (let* lead := findByIdAndUpdate leadId (setAssignment agentId now) in
     match lead with
     | None => throw "Lead not found"
     | Some lead =>
         match lead_sessionData lead ≫= ls_sessionPath with
         | Some sessionPath =>
             if String.eqb sessionPath "" then ret tt
             else
               tryCatch
                 (let* sessionFileContent := readFile (Some sessionPath) in
                  let* sessionRecord := JSON_parse sessionFileContent in
                  writeFile (Some sessionPath)
                    (JSON_stringify (withAssignment agentId now sessionRecord)))
                 (fun _ => ret tt)
         | None => ret tt
         end ;;;
         ret (mkAssignResult true "Session assigned to agent successfully"
                leadId agentId (lead_sessionData lead ≫= ls_sessionId))
     end)
    (fun message => throw ("Failed to assign session to agent: " +:+ message)).

Record LaunchResult := mkLaunchResult {
  lr_success : bool;
  lr_message : string;
  lr_browserLaunchData : BrowserLaunchData }.

(** [!lead.assignedTo || lead.assignedTo.toString() !== agentId] *)
Definition notAssignedTo (lead : Lead) (agentId : string) : bool :=
  match assignedTo lead with
  | Some a => String.eqb a "" || negb (String.eqb a agentId)
  | None => true
  end.

(** [a || b] on two optional strings. *)
Definition orOpt (a b : option string) : option string :=
  match a with
  | Some EmptyString | None => b
  | Some _ => a
  end.

(** [launchAgentBrowser(leadId, agentId)] *)
Definition launchAgentBrowser (leadId agentId : string) (now : Z) : M LaunchResult :=
  tryCatch
    (let* lead := findById leadId in
     match lead with
     | None => throw "Lead not found"
     | Some lead =>
         if notAssignedTo lead agentId then
           throw "Lead is not assigned to this agent"
         else
           let* sessionResult := retrieveSession leadId now in
           if negb (rr_success sessionResult) then
             throw "Failed to retrieve session data"
           else
             let browserLaunchData :=
               {| bl_leadId := leadId;
                  bl_agentId := agentId;
                  bl_sessionData := rr_sessionData sessionResult;
                  bl_leadInfo :=
                    {| li_firstName := firstName lead;
                       li_lastName := lastName lead;
                       li_email := newEmail lead;
                       li_phone := orOpt (newPhone lead) (phone lead);
                       li_country := country lead |} |} in
             spawn browserLaunchData ;;;
             ret (mkLaunchResult true
                    "Agent browser launched successfully. Browser should open shortly."
                    browserLaunchData)
     end)
    (fun message => throw ("Failed to launch agent browser: " +:+ message)).





End SessionManagementService.

(** ** [getSessionStats] of [sessionManagementService.js] *)

Module SessionStatistics.
Import Js SessionManagementService.
Local Open Scope string_scope.
Local Open Scope Z_scope.







End SessionStatistics.

(** ** The Order model: virtuals and the pre-save hook *)

Module Order.
Local Open Scope string_scope.

Record Counts := mkCounts {
  ftd : Q;
  filler : Q;
  cold : Q;
  live : Q }.

Record Order := mkOrder {
  status : string;
  requests : Counts;
  fulfilled : Counts;
  completedAt : option Z;
  cancelledAt : option Z }.

(** Virtual [totalRequested] *)
Definition totalRequested (o : Order) : Q :=
  ftd (requests o) + filler (requests o) + cold (requests o) + live (requests o).

(** Virtual [totalFulfilled] *)
Definition totalFulfilled (o : Order) : Q :=
  ftd (fulfilled o) + filler (fulfilled o) + cold (fulfilled o) + live (fulfilled o).

(** [Math.round(x)]: the nearest integer, halves upwards. *)
Definition Math_round (x : Q) : Z := Qfloor (x + (1 # 2)).

(** Virtual [completionPercentage] *)
Definition completionPercentage (o : Order) : Q :=
  let total := totalRequested o in
  if Qeq_bool total 0 then 0
  else inject_Z (Math_round ((totalFulfilled o / total) * 100)).

(** The [pre("save")] hook; [statusModified] is [this.isModified("status")]. *)
Definition preSave (statusModified : bool) (now : Z) (o : Order) : Order :=
  if statusModified then
    if String.eqb (status o) "fulfilled" && negb (bool_decide (is_Some (completedAt o)))
    then mkOrder (status o) (requests o) (fulfilled o) (Some now) (cancelledAt o)
    else if String.eqb (status o) "cancelled"
            && negb (bool_decide (is_Some (cancelledAt o)))
    then mkOrder (status o) (requests o) (fulfilled o) (completedAt o) (Some now)
    else o
  else o.

End Order.

(** ** Vocabulary of the statements about [generateFingerprint] *)

Module FingerprintSpec.
Import Js Fingerprint.
Local Open Scope string_scope.

Abbreviation W c := (sc_width (screen c)).
Abbreviation H c := (sc_height (screen c)).
Abbreviation AW c := (sc_availWidth (screen c)).
Abbreviation AH c := (sc_availHeight (screen c)).
Abbreviation DPR c := (sc_devicePixelRatio (screen c)).
Abbreviation HC c := (nav_hardwareConcurrency (navigator c)).
Abbreviation DM c := (nav_deviceMemory (navigator c)).

(** The parts of a specification that constrain a numeric field. *)
Definition memorySpecOf (specs : option DeviceSpecs) : option MemorySpec :=
  (specs ≫= hardware) ≫= hw_memory.
Definition coresSpecOf (specs : option DeviceSpecs) : option Range :=
  ((specs ≫= hardware) ≫= hw_cpu) ≫= cpu_cores.
Definition resolutionSpecOf (specs : option DeviceSpecs) : option ResolutionSpec :=
  (specs ≫= display) ≫= dp_resolution.
Definition widthSpecOf (specs : option DeviceSpecs) : option Range :=
  resolutionSpecOf specs ≫= res_width.
Definition heightSpecOf (specs : option DeviceSpecs) : option Range :=
  resolutionSpecOf specs ≫= res_height.
Definition pixelRatioSpecOf (specs : option DeviceSpecs) : option Range :=
  (specs ≫= display) ≫= dp_pixelRatio.

(** The value a memory constraint resolves to on the draw [r]. *)
Definition resolvedMemory (m : MemorySpec) (r : Q) : Q :=
  if (0 <? length (orNil (mem_preferred m)))%nat
  then pick 0 (orNil (mem_preferred m)) r
  else randomInt r (orNum (mem_min m) 4) (orNum (mem_max m) 16).

Section Outcomes.
Variable random : nat -> Q.

(** What a block of [generateFingerprint] leaves in a field, from the
    configuration [c] before it to [c'] after it. *)
Definition memoryOutcome (specs : option DeviceSpecs) (c c' : DeviceConfig) : Prop :=
  match memorySpecOf specs with
  | Some m => exists k, DM c' = resolvedMemory m (random k)
  | None => DM c' = DM c
  end.

Definition coresOutcome (specs : option DeviceSpecs) (c c' : DeviceConfig) : Prop :=
  match coresSpecOf specs with
  | Some r =>
      exists k, HC c' = randomInt (random k) (orNum (r_min r) 2) (orNum (r_max r) 8)
  | None => HC c' = HC c
  end.

Definition widthOutcome (specs : option DeviceSpecs) (c c' : DeviceConfig) : Prop :=
  match widthSpecOf specs with
  | Some r =>
      (exists k, W c' = randomInt (random k) (orNum (r_min r) 1280) (orNum (r_max r) 1920))
      /\ AW c' = W c'
  | None => W c' = W c /\ AW c' = AW c
  end.

Definition heightOutcome (specs : option DeviceSpecs) (c c' : DeviceConfig) : Prop :=
  match heightSpecOf specs with
  | Some r =>
      (exists k, H c' = randomInt (random k) (orNum (r_min r) 720) (orNum (r_max r) 1080))
      /\ AH c' = H c' - 40
  | None => H c' = H c /\ AH c' = AH c
  end.

Definition pixelRatioOutcome (specs : option DeviceSpecs) (c c' : DeviceConfig) : Prop :=
  match pixelRatioSpecOf specs with
  | Some r =>
      exists k, DPR c' = random k * (orNum (r_max r) 2 - orNum (r_min r) 1)
                         + orNum (r_min r) 1
  | None => DPR c' = DPR c
  end.

(** A jittered value: [randomVariation base variations] on some draw. *)
Definition jittered (base : Q) (variations : list Q) (x : Q) : Prop :=
  exists k, x = Math_max 1 (base + pick 0 variations (random k)).

End Outcomes.

(** The jitter bound of the core count for a device type. *)
Definition coresJitter (deviceType : string) : Q :=
  if String.eqb deviceType "android" || String.eqb deviceType "ios" then 1 else 2.

(** [availWidth <= width] and [availHeight <= height]. *)
Definition screenConsistent (s : FpScreen) : Prop :=
  availWidth s <= width s /\ availHeight s <= height s.

(** Mobile device types carry no plugin; only desktop ones may. *)
Definition pluginsConsistent (fp : Fingerprint) : Prop :=
  (deviceType fp = "android" \/ deviceType fp = "ios" -> plugins fp = [])
  /\ (plugins fp <> [] -> deviceType fp = "windows" \/ deviceType fp = "mac").

(** A stream as [Math.random()] produces it. *)
Definition unitStream (random : nat -> Q) : Prop :=
  forall i, 0 <= random i /\ random i < 1.

(** Sample inputs: the stream whose every draw is 1/2. *)
Definition halves : nat -> Q := fun _ => 1 # 2.
(** [(0.5).toString(36)] is ["0.i"]; every draw of [halves] is 1/2. *)
Definition renderHalf : Q -> string := fun _ => "0.i".

Definition invertedMemory : DeviceSpecs :=
  mkDeviceSpecs
    (Some (mkHardwareSpec (Some (mkMemorySpec (Some 16) (Some 4) None)) None))
    None None None None.

Definition emptyCollection : Collection := mkCollection [] None.

End FingerprintSpec.

(** ** Vocabulary of the statements about the session service *)

Module SessionSpec.
Import Js SessionManagementService.
Local Open Scope string_scope.
Local Open Scope Z_scope.

(** The lead [leadId] refers to the session file [name], which holds the
    record [r]. *)
Definition hasSessionAt (w : World) (leadId name : string) (r : SessionRecord) : Prop :=
  exists lead sd path,
    leads w !! leadId = Some lead
    /\ sessionReference (Some lead) = Some sd
    /\ ls_sessionPath sd = Some path
    /\ fileName path = Some name
    /\ files w !! name = Some (Readable (RecordJson r)).

(** Two records that differ at most in [lastUsed]. *)
Definition sameExceptLastUsed (r r' : SessionRecord) : Prop :=
  sessionId r' = sessionId r /\ leadId r' = leadId r /\ orderId r' = orderId r
  /\ createdAt r' = createdAt r /\ sessionData r' = sessionData r
  /\ status r' = status r /\ assignedAgent r' = assignedAgent r
  /\ assignedAt r' = assignedAt r.

(** The messages of the errors [retrieveSession] and [launchAgentBrowser]
    throw. *)
Definition noSessionError : string :=
  "Failed to retrieve session: No session data found for this lead".
Definition sessionUnavailableError : string :=
  "Failed to retrieve session: Session file not found or inaccessible".
Definition accessDeniedError : string :=
  "Failed to launch agent browser: Lead is not assigned to this agent".






(** The ids, the clock value and the random suffix of a capture give a
    session file name the directory can hold: no [/] and no NUL in it, at
    most 255 bytes. *)
Definition plainIds (leadId orderId : string) (now : Z) (randomHex : string) : Prop :=
  isFileName (generateSessionId leadId orderId now randomHex +:+ ".json") = true.

(** The capture's file can be written: its name is one the directory can
    hold, and the directory has no entry of that name that cannot be
    opened. *)
Definition storable (w : World) (leadId orderId : string) (now : Z)
    (randomHex : string) : Prop :=
  plainIds leadId orderId now randomHex
  /\ files w !! (generateSessionId leadId orderId now randomHex +:+ ".json")
     <> Some Unreadable.



(** Sample data. *)
Definition samplePayload : SessionData :=
  mkSessionData (JArr [JObj [("name", JStr "sid"); ("value", JStr "abc")]])
                (JObj [("token", JStr "t1")]) (JObj []) (JStr "Mozilla/5.0")
                (JObj [("width", JNum 1280%Q); ("height", JNum 720%Q)]) JNull
                (JStr "example.com").

Definition sampleRecord : SessionRecord :=
  mkSessionRecord "session_L1_O1_1000_00ff00ff00ff00ff" "L1" "O1" 1000 samplePayload "active"
                  1000 None None.

Definition samplePath : string := "backend/browser_sessions/session_L1_O1_1000_00ff00ff00ff00ff.json".

Definition sampleLead : Lead :=
  mkLead (Some "Ada") (Some "Lovelace") (Some "ada@example.com") None
         (Some "555") (Some "UK") None None false
         (Some (mkLeadSession (Some "session_L1_O1_1000_00ff00ff00ff00ff") (Some samplePath)
                              (Some 1000) (Some "active") None None None)).

Definition sampleWorld : World :=
  mkWorld {[ "L1" := sampleLead ]} None
          {[ "session_L1_O1_1000_00ff00ff00ff00ff.json" := Readable (RecordJson sampleRecord) ]} [].







Definition sampleInput : SessionInput :=
  mkSessionInput (Some (JArr [])) None None (Some (JStr "Mozilla/5.0")) None None None.

End SessionSpec.

(** ** Further vocabulary: fields of the fingerprint outside the claims *)

Module FingerprintMoreSpec.
Import Js Fingerprint FingerprintSpec.
Local Open Scope string_scope.

Abbreviation MTP c := (nav_maxTouchPoints (navigator c)).
Abbreviation CD c := (sc_colorDepth (screen c)).
Abbreviation PD c := (sc_pixelDepth (screen c)).

Definition colorDepthSpecOf (specs : option DeviceSpecs) : option (list Q) :=
  (specs ≫= display) ≫= dp_colorDepth.
Definition browserTypesOf (specs : option DeviceSpecs) : option (list string) :=
  (specs ≫= browserSpec) ≫= bs_types.
Definition touchSupportOf (specs : option DeviceSpecs) : option string :=
  (specs ≫= characteristics) ≫= touchSupport.

(** The browser types for which [generateUserAgent] has a template of the
    device type. *)
Definition templateBrowsers (deviceType : string) : list string :=
  if String.eqb deviceType "windows" then ["chrome"; "firefox"; "edge"]
  else if String.eqb deviceType "android" then ["chrome"; "firefox"]
  else if String.eqb deviceType "ios" then ["safari"; "chrome"]
  else if String.eqb deviceType "mac" then ["chrome"; "safari"; "firefox"]
  else [].

(** The platform string of a device type; windows for any other name. *)
Definition platformOf (deviceType : string) : string :=
  if String.eqb deviceType "android" then "Linux armv8l"
  else if String.eqb deviceType "ios" then "iPhone"
  else if String.eqb deviceType "mac" then "MacIntel"
  else "Win32".

(** The device model [updateUserAgentWithManufacturer] writes for a
    manufacturer; Samsung's for a name that is not in its table. *)
Definition modelOf (manufacturer : string) : string :=
  if String.eqb manufacturer "Google" then "Pixel 6"
  else if String.eqb manufacturer "Xiaomi" then "Mi 11"
  else if String.eqb manufacturer "OnePlus" then "OnePlus 9"
  else if String.eqb manufacturer "Huawei" then "P50 Pro"
  else if String.eqb manufacturer "LG" then "LG-H870"
  else if String.eqb manufacturer "Sony" then "SO-01M"
  else "SM-G998B".

(** No two documents of the collection share a device id, and no two share
    a lead. *)
Definition uniqueKeys (db : Collection) : Prop :=
  NoDup (map deviceId (docs db))
  /\ NoDup (omap leadId (docs db)).

Definition rangedMemory : DeviceSpecs :=
  mkDeviceSpecs
    (Some (mkHardwareSpec (Some (mkMemorySpec (Some 4) (Some 16) None)) None))
    None None None None.

Definition preferredMemory : DeviceSpecs :=
  mkDeviceSpecs
    (Some (mkHardwareSpec (Some (mkMemorySpec (Some 4) (Some 16) (Some [8; 32]))) None))
    None None None None.

Definition touchRequired : DeviceSpecs :=
  mkDeviceSpecs None None None None (Some (mkCharacteristics (Some "required"))).

Definition firefoxOnly : DeviceSpecs :=
  mkDeviceSpecs None None (Some (mkBrowserSpec (Some ["firefox"]) None)) None None.

End FingerprintMoreSpec.

(** ** Further vocabulary: the session service outside the claims *)

Module SessionMoreSpec.
Import Js SessionManagementService SessionStatistics SessionSpec.
Local Open Scope string_scope.
Local Open Scope Z_scope.

(** The payload [storeSession] keeps of its argument. *)
Definition capturedPayload (input : SessionInput) : SessionData :=
  {| cookies := orJson (in_cookies input) (JArr []);
     localStorage := orJson (in_localStorage input) (JObj []);
     sessionStorage := orJson (in_sessionStorage input) (JObj []);
     userAgent := orJson (in_userAgent input) JNull;
     viewport := orJson (in_viewport input) JNull;
     deviceFingerprint := orJson (in_deviceFingerprint input) JNull;
     finalDomain := orJson (in_finalDomain input) JNull |}.

(** The record [storeSession] writes. *)
Definition capturedRecord (lead order : string) (input : SessionInput) (now : Z)
    (hex : string) : SessionRecord :=
  mkSessionRecord (generateSessionId lead order now hex) lead order now
                  (capturedPayload input) "active" now None None.

Definition capturedName (lead order : string) (now : Z) (hex : string) : string :=
  generateSessionId lead order now hex +:+ ".json".



(** The errors of [storeSession], [assignSessionToAgent] and
    [launchAgentBrowser]. *)
Definition storeFailed (message : string) : string :=
  "Failed to store session: " +:+ message.
Definition assignFailed (message : string) : string :=
  "Failed to assign session to agent: " +:+ message.
Definition launchFailed (message : string) : string :=
  "Failed to launch agent browser: " +:+ message.

(** Sample data: a store that does not answer and a lead without a
    session. *)
Definition faultyWorld : World :=
  mkWorld (leads sampleWorld) (Some "connection refused") (files sampleWorld) [].

Definition bareLead : Lead :=
  mkLead (Some "Bo") None None None None None None None false None.

Definition bareWorld : World := mkWorld {[ "L9" := bareLead ]} None ∅ [].


End SessionMoreSpec.

(** ** Sample orders *)

Module OrderSpec.
Import Order.
Local Open Scope string_scope.
Local Open Scope Q_scope.

Definition halfDone : Order :=
  mkOrder "pending" (mkCounts 2 3 0 1) (mkCounts 1 1 0 1) None None.

Definition allDone : Order :=
  mkOrder "fulfilled" (mkCounts 2 3 0 1) (mkCounts 1 3 1 1) None None.

Definition overDone : Order :=
  mkOrder "fulfilled" (mkCounts 2 3 0 1) (mkCounts 3 3 2 1) None None.

End OrderSpec.

(** ** Facts about strings *)

Module StringFacts.
Import Js.
Local Open Scope string_scope.

Lemma append_cons c s t : String c s +:+ t = String c (s +:+ t).
Proof. reflexivity. Qed.

Lemma length_append a b :
  String.length (a +:+ b) = (String.length a + String.length b)%nat.
Proof.
  induction a as [|c a IH]; [reflexivity|].
  rewrite append_cons. simpl. now rewrite IH.
Qed.

Lemma lacks_append c a b :
  lacks c (a +:+ b) = lacks c a && lacks c b.
Proof.
  induction a as [|x a IH]; [reflexivity|].
  rewrite append_cons. simpl. rewrite IH. now rewrite andb_assoc.
Qed.

(** The decimal rendering of an integer consists of digits and a sign. *)
Lemma lacks_string_of_uint c d :
  (nat_of_ascii c < 48)%nat -> lacks c (NilZero.string_of_uint d) = true.
Proof.
  intros Hc.
  assert (Hd : forall a, (48 <= nat_of_ascii a)%nat -> Ascii.eqb a c = false).
  { intros a Ha. destruct (Ascii.eqb a c) eqn:E; [|reflexivity].
    apply Ascii.eqb_eq in E. subst. lia. }
  assert (He : lacks c (NilEmpty.string_of_uint d) = true).
  { induction d; cbn [NilEmpty.string_of_uint lacks]; [reflexivity|..];
      (rewrite Hd by (vm_compute; lia)); exact IHd. }
  destruct d; try exact He.
  cbn [NilZero.string_of_uint lacks]. rewrite Hd by (vm_compute; lia). reflexivity.
Qed.

Lemma lacks_showZ c z :
  (nat_of_ascii c < 48)%nat -> c <> "-"%char -> lacks c (showZ z) = true.
Proof.
  intros Hc Hm. unfold showZ.
  destruct (Z.to_int z) as [d|d]; cbn [NilZero.string_of_int lacks].
  - now apply lacks_string_of_uint.
  - rewrite lacks_string_of_uint by exact Hc. rewrite andb_true_r.
    destruct (Ascii.eqb "-" c) eqn:E; [|reflexivity].
    apply Ascii.eqb_eq in E. congruence.
Qed.

End StringFacts.


(** ** Properties of [generateFingerprint] and [createForLead] *)

Module FingerprintProperties.
Import Js Fingerprint FingerprintSpec FingerprintMoreSpec.
Local Open Scope string_scope.

Section Steps.
Variable random : nat -> Q.

Ltac run := unfold bind, ret, Math_random in *; simpl in *.

Lemma applyHardware_spec specs c i c' j :
  applyHardware random specs c i = (c', j) ->
  screen c' = screen c
  /\ memoryOutcome random (Some specs) c c'
  /\ coresOutcome random (Some specs) c c'.
Proof.
  unfold applyHardware, memoryOutcome, coresOutcome, memorySpecOf, coresSpecOf.
  simpl. destruct (hardware specs) as [hw|]; simpl.
  2:{ intros [= <- <-]. auto. }
  unfold applyMemory, applyCpu, resolvedMemory.
  destruct (hw_memory hw) as [m|]; destruct (hw_cpu hw) as [cpu|]; simpl;
    try destruct (cpu_cores cpu) as [cr|]; simpl;
    try destruct (0 <? length (orNil (mem_preferred m)))%nat; run;
    intros [= <- <-]; simpl; eauto.
Qed.

Lemma applyDisplay_spec specs c i c' j :
  applyDisplay random specs c i = (c', j) ->
  navigator c' = navigator c
  /\ widthOutcome random (Some specs) c c'
  /\ heightOutcome random (Some specs) c c'
  /\ pixelRatioOutcome random (Some specs) c c'.
Proof.
  unfold applyDisplay, widthOutcome, heightOutcome, pixelRatioOutcome,
    widthSpecOf, heightSpecOf, pixelRatioSpecOf, resolutionSpecOf.
  simpl. destruct (display specs) as [dp|]; simpl.
  2:{ intros [= <- <-]. auto. }
  unfold applyWidth, applyHeight, applyPixelRatio, applyColorDepth.
  destruct (dp_resolution dp) as [res|]; simpl;
    try destruct (res_width res) as [rw|]; try destruct (res_height res) as [rh|];
    destruct (dp_pixelRatio dp) as [pr|];
    destruct (dp_colorDepth dp) as [cd|]; simpl;
    try destruct (0 <? length cd)%nat; run;
    intros [= <- <-]; simpl; eauto 10.
Qed.

Lemma applyBrowser_frame dt specs c i c' j :
  applyBrowser random dt specs c i = (c', j) ->
  screen c' = screen c /\ DM c' = DM c /\ HC c' = HC c.
Proof.
  unfold applyBrowser.
  destruct (browserSpec specs) as [bs|]; [|intros [= <- <-]; auto].
  destruct (bs_types bs) as [ts|]; [|intros [= <- <-]; auto].
  destruct (0 <? length ts)%nat; [|intros [= <- <-]; auto].
  run. destruct (bs_versions bs ≫= _); intros [= <- <-]; auto.
Qed.

Lemma applyOperatingSystem_frame dt specs c i c' j :
  applyOperatingSystem random dt specs c i = (c', j) ->
  screen c' = screen c /\ DM c' = DM c /\ HC c' = HC c.
Proof.
  unfold applyOperatingSystem.
  destruct (operatingSystem specs ≫= _) as [os|]; [|intros [= <- <-]; auto].
  destruct (os_versions os) as [vs|]; destruct (os_manufacturers os) as [ms|];
    try destruct (0 <? length vs)%nat;
    try destruct (String.eqb dt "android" && (0 <? length ms)%nat);
    run; intros [= <- <-]; auto.
Qed.

Lemma applyCharacteristics_frame specs c :
  screen (applyCharacteristics specs c) = screen c
  /\ DM (applyCharacteristics specs c) = DM c
  /\ HC (applyCharacteristics specs c) = HC c.
Proof.
  unfold applyCharacteristics.
  destruct (characteristics specs) as [ch|]; auto.
  destruct (touchSupport ch) as [ts|]; auto.
  destruct (String.eqb ts "required"); auto.
  destruct (String.eqb ts "disabled"); auto.
Qed.

(** The [if (deviceSpecs)] block resolves each constrained field from a
    draw and leaves every other numeric field as it was. *)
Lemma applyDeviceSpecs_spec dt specs c i c' j :
  applyDeviceSpecs random dt specs c i = (c', j) ->
  memoryOutcome random specs c c'
  /\ coresOutcome random specs c c'
  /\ widthOutcome random specs c c'
  /\ heightOutcome random specs c c'
  /\ pixelRatioOutcome random specs c c'.
Proof.
  destruct specs as [specs|]; simpl.
  2:{ intros [= <- <-]. repeat split. }
  unfold bind, ret.
  destruct (applyHardware random specs c i) as [c1 i1] eqn:E1.
  destruct (applyDisplay random specs c1 i1) as [c2 i2] eqn:E2.
  destruct (applyBrowser random dt specs c2 i2) as [c3 i3] eqn:E3.
  destruct (applyOperatingSystem random dt specs c3 i3) as [c4 i4] eqn:E4.
  intros [= <- <-].
  apply applyHardware_spec in E1 as (S1 & M1 & C1).
  apply applyDisplay_spec in E2 as (N2 & W2 & H2 & P2).
  apply applyBrowser_frame in E3 as (S3 & M3 & C3).
  apply applyOperatingSystem_frame in E4 as (S4 & M4 & C4).
  destruct (applyCharacteristics_frame specs c4) as (S5 & M5 & C5).
  assert (SS : screen (applyCharacteristics specs c4) = screen c2) by congruence.
  assert (NN : navigator c2 = navigator c1) by exact N2.
  unfold memoryOutcome, coresOutcome, widthOutcome, heightOutcome,
    pixelRatioOutcome in *.
  rewrite SS, M5, M4, M3, C5, C4, C3, NN. rewrite <- S1.
  repeat split; assumption.
Qed.

(** The variation block touches a field exactly when its guard is open. *)
Lemma applyVariations_spec dt specs c i c' j :
  applyVariations random dt specs c i = (c', j) ->
  (if resolutionGiven specs then screen c' = screen c
   else jittered random (W c) screenWidthVariations (W c')
        /\ jittered random (H c) screenHeightVariations (H c')
        /\ AW c' = W c' /\ AH c' = H c' - 40 /\ DPR c' = DPR c)
  /\ (if cpuGiven specs then HC c' = HC c
      else jittered random (HC c) (hardwareConcurrencyVariations dt) (HC c'))
  /\ (if memoryGiven specs then DM c' = DM c
      else jittered random (DM c) deviceMemoryVariations (DM c')).
Proof.
  unfold applyVariations, jittered, randomVariation.
  destruct (resolutionGiven specs), (cpuGiven specs), (memoryGiven specs);
    run; intros [= <- <-]; simpl; eauto 12.
Qed.

End Steps.

(** *** Arithmetic of the draws *)

Lemma Qfloor_nonpos x : x < 1 -> (Qfloor x <= 0)%Z.
Proof.
  intros Hx. destruct (Z_le_gt_dec (Qfloor x) 0) as [|Hgt]; [assumption|].
  exfalso. assert (Hle : (1 <= Qfloor x)%Z) by lia.
  pose proof (Qfloor_le x) as Hf.
  assert (H1 : inject_Z 1 <= inject_Z (Qfloor x)) by (rewrite <- Zle_Qle; exact Hle).
  change (inject_Z 1) with 1 in H1. lra.
Qed.

Lemma Qfloor_above x (z : Z) : inject_Z z <= x -> (z <= Qfloor x)%Z.
Proof.
  intros Hx. pose proof (Qlt_floor x) as Hlt.
  assert (Hq : inject_Z z < inject_Z (Qfloor x + 1)) by lra.
  rewrite <- Zlt_Qlt in Hq. lia.
Qed.

(** A draw from an inverted range lands strictly above [hi] and at most at
    [lo]. *)
Lemma randomInt_inverted r lo hi :
  0 <= r -> r < 1 -> hi < lo ->
  hi < randomInt r lo hi /\ randomInt r lo hi <= lo.
Proof.
  intros H0 H1 Hinv. unfold randomInt, floorMul.
  set (d := hi - lo + 1). set (x := r * d).
  assert (Hd : d < 1) by (unfold d; lra).
  assert (Hx1 : x < 1).
  { unfold x. destruct (Qlt_le_dec 0 d); [nra|nra]. }
  pose proof (Qfloor_nonpos x Hx1) as Hup.
  assert (Hup' : inject_Z (Qfloor x) <= 0).
  { change 0 with (inject_Z 0). rewrite <- Zle_Qle. exact Hup. }
  split; [|lra].
  destruct (Qlt_le_dec 0 d) as [Hpos|Hneg].
  - assert (Hx0 : inject_Z 0 <= x) by (change (inject_Z 0) with 0; unfold x; nra).
    apply Qfloor_above in Hx0.
    assert (Hq : inject_Z 0 <= inject_Z (Qfloor x)) by (rewrite <- Zle_Qle; exact Hx0).
    change (inject_Z 0) with 0 in Hq. lra.
  - pose proof (Qlt_floor x) as Hlt.
    rewrite inject_Z_plus in Hlt. change (inject_Z 1) with 1 in Hlt.
    assert (Hxd : d <= x) by (unfold x; nra).
    unfold d in Hxd. lra.
Qed.

Lemma ratio_inverted r lo hi :
  0 <= r -> r < 1 -> hi < lo ->
  hi < r * (hi - lo) + lo /\ r * (hi - lo) + lo <= lo.
Proof. intros H0 H1 Hinv. split; nra. Qed.

Lemma pick_Forall {A} (P : A -> Prop) d l r :
  P d -> Forall P l -> P (pick d l r).
Proof.
  intros Hd Hl. unfold pick.
  generalize (Z.to_nat (floorMul r (inject_Z (Z.of_nat (length l))))) as n.
  induction Hl as [|x l Hx Hl IH]; intros [|n]; simpl; auto.
Qed.

Lemma Math_max_one x : 1 <= x -> Math_max 1 x = x.
Proof.
  intros Hx. unfold Math_max.
  destruct (Qle_bool 1 x) eqn:E; [reflexivity|].
  apply Qle_bool_iff in Hx. congruence.
Qed.

(** A jittered value stays within the bound [b] of the variations, for a
    base of at least 3 (every default is). *)
Lemma jittered_bound random base vars b x :
  jittered random base vars x ->
  Forall (fun v => - b <= v /\ v <= b) vars -> 0 <= b -> b <= 2 -> 3 <= base ->
  base - b <= x /\ x <= base + b.
Proof.
  intros [k ->] Hvars Hb0 Hb2 Hbase.
  assert (Hv : - b <= pick 0 vars (random k) /\ pick 0 vars (random k) <= b).
  { apply (pick_Forall (fun v => - b <= v /\ v <= b)); [lra|assumption]. }
  rewrite Math_max_one by lra. lra.
Qed.

Lemma initialConfig_cases dt base :
  initialConfig dt = Some base ->
  base = windowsConfig \/ base = androidConfig \/ base = iosConfig \/ base = macConfig.
Proof.
  unfold initialConfig, deviceConfigs.
  repeat (destruct (String.eqb dt _)); try destruct (isPrototypeKey dt);
    intros [= <-]; auto.
Qed.

Lemma initialConfig_Some dt :
  isPrototypeKey dt = false -> exists base, initialConfig dt = Some base.
Proof.
  unfold initialConfig, deviceConfigs. intros ->.
  repeat (destruct (String.eqb dt _)); eauto.
Qed.

Lemma initialConfig_None dt : initialConfig dt = None -> isPrototypeKey dt = true.
Proof.
  unfold initialConfig, deviceConfigs.
  repeat (destruct (String.eqb dt _)); try discriminate.
  destruct (isPrototypeKey dt); [reflexivity|discriminate].
Qed.

(** The shape of a successful run: resolution, then variations, then the
    document, whose numeric fields are those of the final configuration. *)
Lemma generateFingerprint_run random toString36 dt who specs now i base :
  initialConfig dt = Some base ->
  exists resolved k final k' fp j,
    applyDeviceSpecs random dt specs base (S i) = (resolved, k)
    /\ applyVariations random dt specs resolved k = (final, k')
    /\ generateFingerprint random toString36 dt who specs now i = Normal (fp, j)
    /\ width (fp_screen fp) = W final /\ height (fp_screen fp) = H final
    /\ availWidth (fp_screen fp) = AW final /\ availHeight (fp_screen fp) = AH final
    /\ devicePixelRatio (fp_screen fp) = DPR final
    /\ hardwareConcurrency (fp_navigator fp) = HC final
    /\ deviceMemory (fp_navigator fp) = DM final
    /\ deviceType fp = dt
    /\ plugins fp = (if String.eqb dt "windows" || String.eqb dt "mac"
                     then [chromePdfPlugin] else []).
Proof.
  intros Hbase.
  destruct (applyDeviceSpecs random dt specs base (S i)) as [resolved k] eqn:E1.
  destruct (applyVariations random dt specs resolved k) as [final k'] eqn:E2.
  exists resolved, k, final, k'. do 2 eexists.
  split; [first [exact E1 | reflexivity]|].
  split; [first [exact E2 | reflexivity]|]. split.
  { unfold generateFingerprint. rewrite Hbase.
    unfold Math_random at 1. cbv beta iota zeta.
    unfold bind at 1. rewrite E1. unfold bind at 1. rewrite E2.
    unfold buildFingerprint, bind, ret, Math_random. reflexivity. }
  simpl. repeat split; reflexivity.
Qed.

Lemma base_defaults dt base :
  initialConfig dt = Some base ->
  AW base <= W base /\ AH base <= H base
  /\ 3 <= W base /\ 3 <= H base /\ 3 <= HC base /\ 3 <= DM base.
Proof.
  intros Hb. apply initialConfig_cases in Hb as [-> | [-> | [-> | ->]]];
    repeat split; vm_compute; discriminate.
Qed.

Lemma resolutionGiven_of_width specs r :
  widthSpecOf specs = Some r -> resolutionGiven specs = true.
Proof.
  unfold widthSpecOf, resolutionGiven, resolutionSpecOf.
  destruct ((specs ≫= display) ≫= dp_resolution); [|discriminate].
  intros _. apply bool_decide_eq_true. eauto.
Qed.

Lemma resolutionGiven_of_height specs r :
  heightSpecOf specs = Some r -> resolutionGiven specs = true.
Proof.
  unfold heightSpecOf, resolutionGiven, resolutionSpecOf.
  destruct ((specs ≫= display) ≫= dp_resolution); [|discriminate].
  intros _. apply bool_decide_eq_true. eauto.
Qed.

Lemma cpuGiven_of_cores specs r :
  coresSpecOf specs = Some r -> cpuGiven specs = true.
Proof.
  unfold coresSpecOf, cpuGiven.
  destruct ((specs ≫= hardware) ≫= hw_cpu); [|discriminate].
  intros _. apply bool_decide_eq_true. eauto.
Qed.

Lemma memoryGiven_iff specs :
  memoryGiven specs = bool_decide (is_Some (memorySpecOf specs)).
Proof. reflexivity. Qed.

Lemma memoryGiven_of_memory specs m :
  memorySpecOf specs = Some m -> memoryGiven specs = true.
Proof.
  intros Hm. rewrite memoryGiven_iff, Hm. apply bool_decide_eq_true. eauto.
Qed.

Lemma memoryGiven_none specs :
  memorySpecOf specs = None -> memoryGiven specs = false.
Proof.
  intros Hm. rewrite memoryGiven_iff, Hm. apply bool_decide_eq_false.
  intros [? [=]].
Qed.

Lemma coresVariations_bound dt :
  Forall (fun v => - coresJitter dt <= v /\ v <= coresJitter dt)
         (hardwareConcurrencyVariations dt)
  /\ 0 <= coresJitter dt /\ coresJitter dt <= 2.
Proof.
  unfold coresJitter, hardwareConcurrencyVariations.
  destruct (String.eqb dt "android" || String.eqb dt "ios");
    (split; [repeat constructor; vm_compute; discriminate
            | split; vm_compute; discriminate]).
Qed.

Lemma screenVariations_bound :
  Forall (fun v => - 2 <= v /\ v <= 2) screenWidthVariations
  /\ Forall (fun v => - 2 <= v /\ v <= 2) screenHeightVariations
  /\ Forall (fun v => - 1 <= v /\ v <= 1) deviceMemoryVariations.
Proof. repeat split; repeat constructor; vm_compute; discriminate. Qed.

(** C5.  Every fingerprint [generateFingerprint] returns has
    [availWidth <= width] and [availHeight <= height], carries no plugin
    when its device type is android or ios, and carries plugins only when
    it is windows or mac.  The call returns a fingerprint for every device
    type except the names inherited from [Object.prototype]. *)
Theorem generated_fingerprint_consistent random toString36 dt who specs now i :
  match generateFingerprint random toString36 dt who specs now i with
  | Normal (fp, _) => screenConsistent (fp_screen fp) /\ pluginsConsistent fp
  | Throw _ => isPrototypeKey dt = true
  end.
Proof.
  destruct (initialConfig dt) as [base|] eqn:Hi.
  - destruct (generateFingerprint_run random toString36 dt who specs now i base Hi)
      as (resolved & k & final & k' & fp & j & E1 & E2 & G
          & Hw & Hh & Haw & Hah & _ & _ & _ & Hdt & Hpl).
    rewrite G. split.
    + unfold screenConsistent. rewrite Hw, Hh, Haw, Hah.
      destruct (base_defaults dt base Hi) as (B1 & B2 & _).
      apply applyDeviceSpecs_spec in E1 as (_ & _ & Wd & Ht & _).
      apply applyVariations_spec in E2 as (Sc & _ & _).
      destruct (resolutionGiven specs).
      * rewrite Sc. unfold widthOutcome, heightOutcome in *.
        destruct (widthSpecOf specs), (heightSpecOf specs);
          destruct Wd as [Wd1 Wd2]; destruct Ht as [Ht1 Ht2];
          rewrite ?Wd2, ?Ht2, ?Wd1, ?Ht1; split; lra.
      * destruct Sc as (_ & _ & -> & -> & _). split; lra.
    + unfold pluginsConsistent. rewrite Hdt, Hpl. split.
      * intros [-> | ->]; reflexivity.
      * destruct (String.eqb dt "windows") eqn:Ew.
        { apply String.eqb_eq in Ew. auto. }
        destruct (String.eqb dt "mac") eqn:Em.
        { apply String.eqb_eq in Em. auto. }
        simpl. congruence.
  - unfold generateFingerprint. rewrite Hi. simpl.
    apply initialConfig_None. exact Hi.
Qed.

(** C4.  For a device type with a configuration [base], let [resolved] be
    the profile the specification resolves to (a constrained field drawn
    from its constraint, any other field as in [base]).  The synthesized
    width, height, core count and memory equal the resolved value exactly
    when the specification constrains the field, and otherwise stay within
    the default plus or minus the jitter bound (2 for width and height, 1
    or 2 for cores by device type, 1 for memory). *)
Theorem constrained_exact_unconstrained_within_jitter
    random toString36 dt who specs now i base :
  initialConfig dt = Some base ->
  exists resolved k fp j,
    applyDeviceSpecs random dt specs base (S i) = (resolved, k)
    /\ widthOutcome random specs base resolved
    /\ heightOutcome random specs base resolved
    /\ coresOutcome random specs base resolved
    /\ memoryOutcome random specs base resolved
    /\ generateFingerprint random toString36 dt who specs now i = Normal (fp, j)
    /\ match widthSpecOf specs with
       | Some _ => width (fp_screen fp) = W resolved
       | None => W base - 2 <= width (fp_screen fp)
                 /\ width (fp_screen fp) <= W base + 2
       end
    /\ match heightSpecOf specs with
       | Some _ => height (fp_screen fp) = H resolved
       | None => H base - 2 <= height (fp_screen fp)
                 /\ height (fp_screen fp) <= H base + 2
       end
    /\ match coresSpecOf specs with
       | Some _ => hardwareConcurrency (fp_navigator fp) = HC resolved
       | None => HC base - coresJitter dt <= hardwareConcurrency (fp_navigator fp)
                 /\ hardwareConcurrency (fp_navigator fp) <= HC base + coresJitter dt
       end
    /\ match memorySpecOf specs with
       | Some _ => deviceMemory (fp_navigator fp) = DM resolved
       | None => DM base - 1 <= deviceMemory (fp_navigator fp)
                 /\ deviceMemory (fp_navigator fp) <= DM base + 1
       end.
Proof.
  intros Hi.
  destruct (generateFingerprint_run random toString36 dt who specs now i base Hi)
    as (resolved & k & final & k' & fp & j & E1 & E2 & G
        & Hw & Hh & _ & _ & _ & Hc & Hm & _ & _).
  exists resolved, k, fp, j. split; [exact E1|].
  apply applyDeviceSpecs_spec in E1 as (Mo & Co & Wo & Ho & _).
  split; [exact Wo|]. split; [exact Ho|]. split; [exact Co|]. split; [exact Mo|].
  split; [exact G|].
  rewrite Hw, Hh, Hc, Hm.
  destruct (base_defaults dt base Hi) as (_ & _ & B3 & B4 & B5 & B6).
  apply applyVariations_spec in E2 as (Sv & Cv & Mv).
  destruct screenVariations_bound as (VW & VH & VM).
  destruct (coresVariations_bound dt) as (VC & VC0 & VC2).
  unfold widthOutcome, heightOutcome, coresOutcome, memoryOutcome in *.
  repeat split.
  - destruct (widthSpecOf specs) as [r|] eqn:Ew.
    + rewrite (resolutionGiven_of_width specs r Ew) in Sv. now rewrite Sv.
    + destruct Wo as [Wo _]. destruct (resolutionGiven specs).
      * rewrite Sv, Wo. split; lra.
      * destruct Sv as (Jw & _). rewrite Wo in Jw.
        apply (jittered_bound random (W base) screenWidthVariations 2); auto; lra.
  - destruct (heightSpecOf specs) as [r|] eqn:Eh.
    + rewrite (resolutionGiven_of_height specs r Eh) in Sv. now rewrite Sv.
    + destruct Ho as [Ho _]. destruct (resolutionGiven specs).
      * rewrite Sv, Ho. split; lra.
      * destruct Sv as (_ & Jh & _). rewrite Ho in Jh.
        apply (jittered_bound random (H base) screenHeightVariations 2); auto; lra.
  - destruct (coresSpecOf specs) as [r|] eqn:Ec.
    + rewrite (cpuGiven_of_cores specs r Ec) in Cv. exact Cv.
    + destruct (cpuGiven specs).
      * rewrite Cv, Co. split; lra.
      * rewrite Co in Cv.
        apply (jittered_bound random (HC base) (hardwareConcurrencyVariations dt)
                 (coresJitter dt)); auto.
  - destruct (memorySpecOf specs) as [m|] eqn:Em.
    + rewrite (memoryGiven_of_memory specs m Em) in Mv. exact Mv.
    + rewrite (memoryGiven_none specs Em) in Mv. rewrite Mo in Mv.
      apply (jittered_bound random (DM base) deviceMemoryVariations 1); auto; lra.
Qed.

Lemma constrained_exact_unconstrained_within_jitter_witness :
  exists resolved k fp j,
    applyDeviceSpecs halves "mac" (Some invertedMemory) macConfig 1%nat = (resolved, k)
    /\ widthOutcome halves (Some invertedMemory) macConfig resolved
    /\ heightOutcome halves (Some invertedMemory) macConfig resolved
    /\ coresOutcome halves (Some invertedMemory) macConfig resolved
    /\ memoryOutcome halves (Some invertedMemory) macConfig resolved
    /\ generateFingerprint halves renderHalf "mac" "u1" (Some invertedMemory) 0 0
       = Normal (fp, j)
    /\ (W macConfig - 2 <= width (fp_screen fp)
        /\ width (fp_screen fp) <= W macConfig + 2)
    /\ (H macConfig - 2 <= height (fp_screen fp)
        /\ height (fp_screen fp) <= H macConfig + 2)
    /\ (HC macConfig - coresJitter "mac" <= hardwareConcurrency (fp_navigator fp)
        /\ hardwareConcurrency (fp_navigator fp) <= HC macConfig + coresJitter "mac")
    /\ deviceMemory (fp_navigator fp) = DM resolved.
Proof.
  apply (constrained_exact_unconstrained_within_jitter halves renderHalf "mac" "u1"
           (Some invertedMemory) 0 0 macConfig).
  reflexivity.
Defined.

(** C1, as stated, fails: a specification whose memory range is inverted
    (min 16, max 4) is accepted, and the memory is drawn from that range. *)
Lemma inverted_memory_range_accepted :
  memorySpecOf (Some invertedMemory) = Some (mkMemorySpec (Some 16) (Some 4) None)
  /\ 4 < 16
  /\ exists fp j,
       generateFingerprint halves renderHalf "android" "u1" (Some invertedMemory) 0 0
       = Normal (fp, j)
       /\ deviceMemory (fp_navigator fp) == 10.
Proof.
  split; [reflexivity|]. split; [reflexivity|].
  do 2 eexists. split; [vm_compute; reflexivity|]. vm_compute. reflexivity.
Qed.

(** C1, amended.  [generateFingerprint] validates no range: for every
    specification and every device type with a configuration it returns a
    fingerprint, and where the effective range of a field is inverted
    (the code's [min || default] above its [max || default]) the value is
    still drawn by the range formula and lies above the maximum and at most
    at the minimum.  Memory is drawn from its range when no preferred
    value is listed. *)
Theorem inverted_ranges_are_drawn_not_rejected random toString36 dt who specs now i :
  unitStream random ->
  isPrototypeKey dt = false ->
  exists fp j,
    generateFingerprint random toString36 dt who (Some specs) now i = Normal (fp, j)
    /\ (forall m, memorySpecOf (Some specs) = Some m ->
          orNil (mem_preferred m) = [] ->
          orNum (mem_max m) 16 < orNum (mem_min m) 4 ->
          orNum (mem_max m) 16 < deviceMemory (fp_navigator fp)
          /\ deviceMemory (fp_navigator fp) <= orNum (mem_min m) 4)
    /\ (forall r, coresSpecOf (Some specs) = Some r ->
          orNum (r_max r) 8 < orNum (r_min r) 2 ->
          orNum (r_max r) 8 < hardwareConcurrency (fp_navigator fp)
          /\ hardwareConcurrency (fp_navigator fp) <= orNum (r_min r) 2)
    /\ (forall r, widthSpecOf (Some specs) = Some r ->
          orNum (r_max r) 1920 < orNum (r_min r) 1280 ->
          orNum (r_max r) 1920 < width (fp_screen fp)
          /\ width (fp_screen fp) <= orNum (r_min r) 1280)
    /\ (forall r, heightSpecOf (Some specs) = Some r ->
          orNum (r_max r) 1080 < orNum (r_min r) 720 ->
          orNum (r_max r) 1080 < height (fp_screen fp)
          /\ height (fp_screen fp) <= orNum (r_min r) 720)
    /\ (forall r, pixelRatioSpecOf (Some specs) = Some r ->
          orNum (r_max r) 2 < orNum (r_min r) 1 ->
          orNum (r_max r) 2 < devicePixelRatio (fp_screen fp)
          /\ devicePixelRatio (fp_screen fp) <= orNum (r_min r) 1).
Proof.
  intros Hu Hk. destruct (initialConfig_Some dt Hk) as [base Hi].
  destruct (generateFingerprint_run random toString36 dt who (Some specs) now i base Hi)
    as (resolved & k & final & k' & fp & j & E1 & E2 & G
        & Hw & Hh & _ & _ & Hp & Hc & Hm & _ & _).
  exists fp, j. split; [exact G|].
  rewrite Hw, Hh, Hp, Hc, Hm.
  apply applyDeviceSpecs_spec in E1 as (Mo & Co & Wo & Ho & Po).
  apply applyVariations_spec in E2 as (Sv & Cv & Mv).
  unfold widthOutcome, heightOutcome, coresOutcome, memoryOutcome,
    pixelRatioOutcome in *.
  repeat apply conj.
  - intros m Em Hpref Hinv. rewrite Em in Mo. destruct Mo as [n Mo].
    rewrite (memoryGiven_of_memory _ m Em) in Mv. rewrite Mv, Mo.
    unfold resolvedMemory. rewrite Hpref. simpl.
    apply randomInt_inverted; try apply Hu; exact Hinv.
  - intros r Er Hinv. rewrite Er in Co. destruct Co as [n Co].
    rewrite (cpuGiven_of_cores _ r Er) in Cv. rewrite Cv, Co.
    apply randomInt_inverted; try apply Hu; exact Hinv.
  - intros r Er Hinv. rewrite Er in Wo. destruct Wo as [[n Wo] _].
    rewrite (resolutionGiven_of_width _ r Er) in Sv. rewrite Sv, Wo.
    apply randomInt_inverted; try apply Hu; exact Hinv.
  - intros r Er Hinv. rewrite Er in Ho. destruct Ho as [[n Ho] _].
    rewrite (resolutionGiven_of_height _ r Er) in Sv. rewrite Sv, Ho.
    apply randomInt_inverted; try apply Hu; exact Hinv.
  - intros r Er Hinv. rewrite Er in Po. destruct Po as [n Po].
    assert (Hd : DPR final = DPR resolved).
    { destruct (resolutionGiven (Some specs)); [now rewrite Sv|].
      now destruct Sv as (_ & _ & _ & _ & ->). }
    rewrite Hd, Po. apply ratio_inverted; try apply Hu; exact Hinv.
Qed.

Lemma inverted_ranges_are_drawn_not_rejected_witness :
  unitStream halves
  /\ isPrototypeKey "android" = false
  /\ exists fp j,
       generateFingerprint halves renderHalf "android" "u1" (Some invertedMemory) 0 0
       = Normal (fp, j)
       /\ 4 < deviceMemory (fp_navigator fp)
       /\ deviceMemory (fp_navigator fp) <= 16.
Proof.
  assert (Hu : unitStream halves) by (intros n; unfold halves; split; lra).
  assert (Hk : isPrototypeKey "android" = false) by reflexivity.
  split; [exact Hu|]. split; [exact Hk|].
  destruct (inverted_ranges_are_drawn_not_rejected halves renderHalf "android" "u1"
              invertedMemory 0 0 Hu Hk) as (fp & j & G & Hm & _).
  exists fp, j. split; [exact G|].
  apply (Hm (mkMemorySpec (Some 16) (Some 4) None)); [reflexivity|reflexivity|].
  vm_compute. reflexivity.
Defined.

(** *** The fields the specification blocks leave alone *)

Section Frames.
Variable random : nat -> Q.

Ltac run := unfold bind, ret, Math_random in *; simpl in *.

Lemma applyHardware_others specs c i c' j :
  applyHardware random specs c i = (c', j) ->
  mobile c' = mobile c /\ browser c' = browser c
  /\ nav_platform (navigator c') = nav_platform (navigator c)
  /\ MTP c' = MTP c.
Proof.
  unfold applyHardware. destruct (hardware specs) as [hw|]; [|intros [= <- <-]; auto].
  unfold applyMemory, applyCpu.
  destruct (hw_memory hw) as [m|]; destruct (hw_cpu hw) as [cpu|]; simpl;
    try destruct (cpu_cores cpu) as [cr|]; simpl;
    try destruct (0 <? length (orNil (mem_preferred m)))%nat; run;
    intros [= <- <-]; auto.
Qed.

Lemma applyDisplay_others specs c i c' j :
  applyDisplay random specs c i = (c', j) ->
  mobile c' = mobile c /\ browser c' = browser c
  /\ match colorDepthSpecOf (Some specs) with
     | Some (d :: ds) =>
         exists k, CD c' = Some (pick 0 (d :: ds) (random k)) /\ PD c' = CD c'
     | _ => CD c' = CD c /\ PD c' = PD c
     end.
Proof.
  unfold applyDisplay, colorDepthSpecOf. simpl.
  destruct (display specs) as [dp|]; simpl; [|intros [= <- <-]; auto].
  unfold applyWidth, applyHeight, applyPixelRatio, applyColorDepth.
  destruct (dp_resolution dp) as [res|]; simpl;
    try destruct (res_width res) as [rw|]; try destruct (res_height res) as [rh|];
    destruct (dp_pixelRatio dp) as [pr|];
    destruct (dp_colorDepth dp) as [[|d ds]|]; run;
    intros [= <- <-]; simpl; eauto 10.
Qed.

Lemma applyBrowser_others dt specs c i c' j :
  applyBrowser random dt specs c i = (c', j) ->
  mobile c' = mobile c
  /\ nav_platform (navigator c') = nav_platform (navigator c)
  /\ MTP c' = MTP c
  /\ match browserTypesOf (Some specs) with
     | Some (t :: ts) =>
         exists k, br_name (browser c') = pick "" (t :: ts) (random k)
                   /\ nav_userAgent (navigator c')
                      = generateUserAgent dt (br_name (browser c'))
                          (br_version (browser c')) specs
     | _ => browser c' = browser c
            /\ nav_userAgent (navigator c') = nav_userAgent (navigator c)
     end.
Proof.
  unfold applyBrowser, browserTypesOf. simpl.
  destruct (browserSpec specs) as [bs|]; simpl; [|intros [= <- <-]; auto].
  destruct (bs_types bs) as [[|t ts]|]; simpl; try (intros [= <- <-]; auto; fail).
  run. destruct (bs_versions bs ≫= _); intros [= <- <-]; simpl; eauto 10.
Qed.

Lemma applyOperatingSystem_others dt specs c i c' j :
  applyOperatingSystem random dt specs c i = (c', j) ->
  mobile c' = mobile c /\ browser c' = browser c
  /\ nav_platform (navigator c') = nav_platform (navigator c)
  /\ MTP c' = MTP c.
Proof.
  unfold applyOperatingSystem.
  destruct (operatingSystem specs ≫= _) as [os|]; [|intros [= <- <-]; auto].
  destruct (os_versions os) as [vs|]; destruct (os_manufacturers os) as [ms|];
    try destruct (0 <? length vs)%nat;
    try destruct (String.eqb dt "android" && (0 <? length ms)%nat);
    run; intros [= <- <-]; auto.
Qed.

Lemma applyCharacteristics_others specs c :
  mobile (applyCharacteristics specs c) = mobile c
  /\ browser (applyCharacteristics specs c) = browser c
  /\ nav_platform (navigator (applyCharacteristics specs c))
     = nav_platform (navigator c)
  /\ nav_userAgent (navigator (applyCharacteristics specs c))
     = nav_userAgent (navigator c).
Proof.
  unfold applyCharacteristics.
  destruct (characteristics specs) as [ch|]; auto.
  destruct (touchSupport ch) as [ts|]; auto.
  destruct (String.eqb ts "required"); auto.
  destruct (String.eqb ts "disabled"); auto.
Qed.

Lemma applyCharacteristics_touch specs c :
  MTP (applyCharacteristics specs c)
  = match touchSupportOf (Some specs) with
    | Some ts =>
        if String.eqb ts "required" then Math_max 1 (MTP c)
        else if String.eqb ts "disabled" then 0
        else MTP c
    | None => MTP c
    end.
Proof.
  unfold applyCharacteristics, touchSupportOf. simpl.
  destruct (characteristics specs) as [ch|]; simpl; auto.
  destruct (touchSupport ch) as [ts|]; auto.
  destruct (String.eqb ts "required"); auto.
  destruct (String.eqb ts "disabled"); auto.
Qed.

(** What the resolution block does to the fields outside the numeric
    constraints. *)
Lemma applyDeviceSpecs_others dt specs c i c' j :
  applyDeviceSpecs random dt (Some specs) c i = (c', j) ->
  mobile c' = mobile c
  /\ nav_platform (navigator c') = nav_platform (navigator c)
  /\ MTP c' = MTP (applyCharacteristics specs c)
  /\ match colorDepthSpecOf (Some specs) with
     | Some (d :: ds) =>
         exists k, CD c' = Some (pick 0 (d :: ds) (random k)) /\ PD c' = CD c'
     | _ => CD c' = CD c /\ PD c' = PD c
     end
  /\ match browserTypesOf (Some specs) with
     | Some (t :: ts) =>
         exists k, br_name (browser c') = pick "" (t :: ts) (random k)
     | _ => browser c' = browser c
     end.
Proof.
  simpl. unfold bind, ret.
  destruct (applyHardware random specs c i) as [c1 i1] eqn:E1.
  destruct (applyDisplay random specs c1 i1) as [c2 i2] eqn:E2.
  destruct (applyBrowser random dt specs c2 i2) as [c3 i3] eqn:E3.
  destruct (applyOperatingSystem random dt specs c3 i3) as [c4 i4] eqn:E4.
  intros [= <- <-].
  pose proof (applyHardware_spec random specs c i c1 i1 E1) as (S1 & _).
  apply applyHardware_others in E1 as (M1 & B1 & P1 & T1).
  pose proof (applyDisplay_spec random specs c1 i1 c2 i2 E2) as (N2 & _).
  apply applyDisplay_others in E2 as (M2 & B2 & C2).
  pose proof (applyBrowser_frame random dt specs c2 i2 c3 i3 E3) as (S3 & _).
  apply applyBrowser_others in E3 as (M3 & P3 & T3 & B3).
  pose proof (applyOperatingSystem_frame random dt specs c3 i3 c4 i4 E4) as (S4 & _).
  apply applyOperatingSystem_others in E4 as (M4 & B4 & P4 & T4).
  destruct (applyCharacteristics_others specs c4) as (M5 & B5 & P5 & _).
  destruct (applyCharacteristics_frame specs c4) as (S5 & _).
  split; [congruence|]. split; [rewrite P5, P4, P3, N2; exact P1|].
  split.
  { rewrite !applyCharacteristics_touch.
    assert (HT : MTP c4 = MTP c) by (rewrite T4, T3, N2; exact T1).
    now rewrite HT. }
  split.
  { rewrite S5, S4, S3. rewrite <- S1. exact C2. }
  rewrite B5, B4.
  destruct (browserTypesOf (Some specs)) as [[|t ts]|].
  - destruct B3 as [-> _]. congruence.
  - destruct B3 as (k & Hn & _). eauto.
  - destruct B3 as [-> _]. congruence.
Qed.

Lemma applyVariations_others dt specs c i c' j :
  applyVariations random dt specs c i = (c', j) ->
  mobile c' = mobile c /\ browser c' = browser c
  /\ nav_platform (navigator c') = nav_platform (navigator c)
  /\ nav_userAgent (navigator c') = nav_userAgent (navigator c)
  /\ MTP c' = MTP c /\ CD c' = CD c /\ PD c' = PD c.
Proof.
  unfold applyVariations, randomVariation.
  destruct (resolutionGiven specs), (cpuGiven specs), (memoryGiven specs);
    run; intros [= <- <-]; simpl; auto 10.
Qed.

End Frames.

(** A run that returns: the document is built from the final
    configuration. *)
Lemma generateFingerprint_build random toString36 dt who specs now i base :
  initialConfig dt = Some base ->
  exists resolved k final k' id,
    applyDeviceSpecs random dt specs base (S i) = (resolved, k)
    /\ applyVariations random dt specs resolved k = (final, k')
    /\ generateFingerprint random toString36 dt who specs now i
       = Normal (buildFingerprint random toString36 id dt who now final k').
Proof.
  intros Hbase.
  destruct (applyDeviceSpecs random dt specs base (S i)) as [resolved k] eqn:E1.
  destruct (applyVariations random dt specs resolved k) as [final k'] eqn:E2.
  exists resolved, k, final, k'. eexists.
  split; [first [exact E1 | reflexivity]|].
  split; [first [exact E2 | reflexivity]|].
  unfold generateFingerprint. rewrite Hbase.
  unfold Math_random at 1. cbv beta iota zeta.
  unfold bind at 1. rewrite E1. unfold bind at 1. rewrite E2. reflexivity.
Qed.

Lemma resolved_others random dt specs base i resolved k :
  applyDeviceSpecs random dt specs base i = (resolved, k) ->
  mobile resolved = mobile base
  /\ nav_platform (navigator resolved) = nav_platform (navigator base)
  /\ MTP resolved
     = match specs with
       | Some s => MTP (applyCharacteristics s base)
       | None => MTP base
       end
  /\ match colorDepthSpecOf specs with
     | Some (d :: ds) =>
         exists n, CD resolved = Some (pick 0 (d :: ds) (random n))
                   /\ PD resolved = CD resolved
     | _ => CD resolved = CD base /\ PD resolved = PD base
     end
  /\ match browserTypesOf specs with
     | Some (t :: ts) =>
         exists n, br_name (browser resolved) = pick "" (t :: ts) (random n)
     | _ => browser resolved = browser base
     end.
Proof.
  destruct specs as [s|].
  - apply applyDeviceSpecs_others.
  - intros [= <- <-]. repeat split.
Qed.

(** C3, as stated, fails for [generateFingerprint] itself: a device type
    outside the enum is not rejected, it gets the windows profile. *)
Lemma unknown_category_gets_windows_profile :
  includes "linux" validDeviceTypes = false
  /\ exists fp j,
       generateFingerprint halves renderHalf "linux" "u1" None 0 0 = Normal (fp, j)
       /\ deviceType fp = "linux"
       /\ platform (fp_navigator fp) = "Win32".
Proof.
  split; [reflexivity|]. do 2 eexists.
  split; [vm_compute; reflexivity|]. split; reflexivity.
Qed.

(** A device type outside the enum that is no name inherited from
    [Object.prototype] starts from the windows configuration. *)
Lemma unsupported_initialConfig dt :
  includes dt validDeviceTypes = false ->
  initialConfig dt = if isPrototypeKey dt then None else Some windowsConfig.
Proof.
  unfold includes, validDeviceTypes, initialConfig, deviceConfigs. simpl.
  destruct (String.eqb dt "windows"); [discriminate|].
  destruct (String.eqb dt "android"); [discriminate|].
  destruct (String.eqb dt "ios"); [discriminate|].
  destruct (String.eqb dt "mac"); [discriminate|].
  intros _. destruct (isPrototypeKey dt); reflexivity.
Qed.

(** C3, amended.  [createForLead] rejects every device type outside
    windows, android, ios and mac: it throws, creates and stores nothing,
    and when the three required arguments are present the error is the
    invalid-device-type one.  [generateFingerprint] has no such check: for
    a device type outside the four it starts from the windows
    configuration and returns a fingerprint that carries the given device
    type with the windows platform, not mobile; only for the names
    inherited from [Object.prototype] it throws, a [TypeError]. *)
Theorem createForLead_rejects_unsupported
    random toString36 lead dt who specs now i db :
  includes dt validDeviceTypes = false ->
  (exists message,
     createForLead random toString36 lead dt who specs now i db
     = (Throw (Error message), db)
     /\ (lead <> "" -> dt <> "" -> who <> "" ->
         message = "Invalid deviceType: " +:+ dt
                   +:+ ". Must be one of: windows, android, ios, mac"))
  /\ match generateFingerprint random toString36 dt who specs now i with
     | Normal (fp, _) =>
         isPrototypeKey dt = false
         /\ initialConfig dt = Some windowsConfig
         /\ deviceType fp = dt
         /\ platform (fp_navigator fp) = "Win32"
         /\ isMobile (fp_mobile fp) = false
         /\ isTablet (fp_mobile fp) = false
     | Throw e => isPrototypeKey dt = true /\ e = TypeError
     end.
Proof.
  intros Hinv. split.
  - unfold createForLead. rewrite Hinv. simpl negb. cbv iota.
    destruct (String.eqb lead "") eqn:El.
    { apply String.eqb_eq in El. eexists. split; [reflexivity|]. congruence. }
    destruct (String.eqb dt "") eqn:Ed.
    { apply String.eqb_eq in Ed. eexists. split; [reflexivity|]. congruence. }
    destruct (String.eqb who "") eqn:Ew.
    { apply String.eqb_eq in Ew. eexists. split; [reflexivity|]. congruence. }
    eexists. split; [reflexivity|]. intros _ _ _. reflexivity.
  - pose proof (unsupported_initialConfig dt Hinv) as Hi.
    destruct (isPrototypeKey dt) eqn:Hk.
    + unfold generateFingerprint. rewrite Hi. simpl. split; reflexivity.
    + destruct (generateFingerprint_build random toString36 dt who specs now i
                  windowsConfig Hi)
        as (resolved & k & final & k' & id & E1 & E2 & G).
      rewrite G. unfold buildFingerprint, bind, ret, Math_random. simpl.
      apply resolved_others in E1 as (Hm & Hp & _).
      apply applyVariations_others in E2 as (Mv & _ & Pv & _).
      rewrite Mv, Pv, Hm, Hp. split; [reflexivity|]. split; [exact Hi|].
      repeat split; reflexivity.
Qed.

Lemma createForLead_rejects_unsupported_witness :
  includes "linux" validDeviceTypes = false
  /\ (exists message,
        createForLead halves renderHalf "L1" "linux" "u1" None 0 0 emptyCollection
        = (Throw (Error message), emptyCollection)
        /\ message = "Invalid deviceType: linux. Must be one of: windows, android, ios, mac")
  /\ (exists fp j,
        generateFingerprint halves renderHalf "linux" "u1" None 0 0 = Normal (fp, j)
        /\ platform (fp_navigator fp) = "Win32").
Proof.
  split; [reflexivity|].
  destruct (createForLead_rejects_unsupported halves renderHalf "L1" "linux" "u1"
              None 0 0 emptyCollection eq_refl) as ((message & E & Hm) & Hg).
  split.
  - exists message. split; [exact E|].
    rewrite Hm by discriminate. reflexivity.
  - destruct (generateFingerprint halves renderHalf "linux" "u1" None 0 0)
      as [[fp j]|e].
    + exists fp, j. split; [reflexivity|]. apply Hg.
    + destruct Hg as [Hk _]. discriminate Hk.
Defined.

End FingerprintProperties.

(** ** Properties of the session service *)

Module SessionProperties.
Import Js SessionManagementService SessionSpec StringFacts.
Local Open Scope string_scope.
Local Open Scope Z_scope.

Lemma stripPrefix_app p s : stripPrefix p (p +:+ s) = Some s.
Proof.
  induction p as [|a p IH]; simpl; [reflexivity|].
  rewrite Ascii.eqb_refl. exact IH.
Qed.

Lemma stripPrefix_Some p s t : stripPrefix p s = Some t -> s = p +:+ t.
Proof.
  revert s. induction p as [|a p IH]; simpl; intros s.
  - now intros [= ->].
  - destruct s as [|b s]; [discriminate|].
    destruct (Ascii.eqb a b) eqn:E; [|discriminate].
    apply Ascii.eqb_eq in E. subst b. intros Hs. now rewrite (IH _ Hs).
Qed.

Lemma fileName_path_join name : fileName (path_join sessionsDir name) = Some name.
Proof.
  unfold fileName, path_join.
  change (sessionsDir +:+ "/" +:+ name) with ((sessionsDir +:+ "/") +:+ name).
  apply stripPrefix_app.
Qed.

Lemma fileName_nonempty path name : fileName path = Some name -> String.eqb path "" = false.
Proof.
  unfold fileName. intros Hp. apply stripPrefix_Some in Hp. subst path. reflexivity.
Qed.

(** Writing over an entry of the directory, and creating one. *)
Lemma writeFile_entry path name t w t0 :
  fileName path = Some name ->
  files w !! name = Some (Readable t0) ->
  writeFile (Some path) t w
  = (Normal tt,
     mkWorld (leads w) (dbFault w) (<[name := Readable t]> (files w)) (spawned w)).
Proof.
  intros En Hf. unfold writeFile.
  change (Some path ≫= fileName) with (fileName path). rewrite En.
  cbv zeta. rewrite Hf. reflexivity.
Qed.

Lemma writeFile_create path name t w :
  fileName path = Some name ->
  isFileName name = true ->
  files w !! name <> Some Unreadable ->
  writeFile (Some path) t w
  = (Normal tt,
     mkWorld (leads w) (dbFault w) (<[name := Readable t]> (files w)) (spawned w)).
Proof.
  intros En Hn Hu. unfold writeFile.
  change (Some path ≫= fileName) with (fileName path). rewrite En.
  cbv zeta. destruct (files w !! name) as [[t0|]|]; [reflexivity|contradiction|].
  now rewrite Hn.
Qed.

(** Ids and a random suffix without [/] and NUL give a session file name
    the directory can hold when it is short enough. *)
Lemma plainIds_of_ids lead order now hex :
  lacks "/" lead = true -> lacks "/" order = true -> lacks "/" hex = true ->
  lacks "000" lead = true -> lacks "000" order = true -> lacks "000" hex = true ->
  (String.length (generateSessionId lead order now hex +:+ ".json") <= 255)%nat ->
  plainIds lead order now hex.
Proof.
  intros L1 L2 L3 N1 N2 N3 Hlen. unfold plainIds, isFileName.
  apply Nat.leb_le in Hlen. rewrite Hlen.
  unfold generateSessionId.
  rewrite !lacks_append, L1, L2, L3, N1, N2, N3.
  rewrite !lacks_showZ by (vm_compute; first [lia | discriminate]). reflexivity.
Qed.

Lemma sessionReference_Some lead sd :
  sessionReference lead = Some sd <->
  exists l sid, lead = Some l /\ lead_sessionData l = Some sd
                /\ ls_sessionId sd = Some sid /\ sid <> "".
Proof.
  unfold sessionReference. split.
  - destruct lead as [l|]; [|discriminate].
    destruct (lead_sessionData l) as [sd'|] eqn:Esd; [|discriminate].
    destruct (ls_sessionId sd') as [sid|] eqn:Es; [|discriminate].
    destruct (String.eqb sid "") eqn:E; [discriminate|].
    intros [= <-]. exists l, sid.
    split; [reflexivity|]. split; [exact Esd|]. split; [exact Es|].
    intros ->. discriminate.
  - intros (l & sid & -> & -> & -> & Hne).
    destruct (String.eqb sid "") eqn:E; [|reflexivity].
    apply String.eqb_eq in E. contradiction.
Qed.

(** C10.  [hasActiveSession] always returns a boolean and changes nothing;
    the boolean is [true] exactly when the store answers, the lead exists
    and carries a session reference with a non-empty session id, the
    referenced file is accessible, and the reference's status is
    ['active']. *)
Theorem hasActiveSession_total w lead :
  exists b,
    hasActiveSession lead w = (Normal b, w)
    /\ (b = true <->
        dbFault w = None
        /\ exists l sd sid,
             leads w !! lead = Some l
             /\ lead_sessionData l = Some sd
             /\ ls_sessionId sd = Some sid /\ sid <> ""
             /\ is_Some (lookupFile (ls_sessionPath sd) w)
             /\ ls_status sd = Some "active").
Proof.
  unfold hasActiveSession, tryCatch, bind, findById, ret.
  destruct (dbFault w) as [msg|] eqn:Ef.
  { exists false. split; [reflexivity|]. split; [discriminate|]. intros [[=] _]. }
  destruct (sessionReference (leads w !! lead)) as [sd|] eqn:Er.
  - apply sessionReference_Some in Er as (l & sid & El & Esd & Esid & Hne).
    unfold access. destruct (lookupFile (ls_sessionPath sd) w) as [f|] eqn:Ea.
    + eexists. split; [reflexivity|]. rewrite bool_decide_eq_true. split.
      * intros Hs. split; [reflexivity|]. exists l, sd, sid.
        rewrite Ea. repeat split; eauto.
      * intros (_ & l' & sd' & sid' & El' & Esd' & _ & _ & _ & Hs).
        rewrite El in El'. injection El' as <-. rewrite Esd in Esd'.
        injection Esd' as <-. exact Hs.
    + exists false. split; [reflexivity|]. split; [discriminate|].
      intros (_ & l' & sd' & sid' & El' & Esd' & _ & _ & [f Hf] & _).
      rewrite El in El'. injection El' as <-. rewrite Esd in Esd'.
      injection Esd' as <-. rewrite Ea in Hf. discriminate.
  - exists false. split; [reflexivity|]. split; [discriminate|].
    intros (_ & l & sd & sid & El & Esd & Esid & Hne & _).
    assert (Hs : sessionReference (leads w !! lead) = Some sd).
    { apply sessionReference_Some. exists l, sid. auto. }
    congruence.
Qed.

(** C9.  With the store answering, [retrieveSession] throws the no-session
    error when the lead is missing or carries no session reference.  When
    the reference exists it throws, leaving the state as it was, the
    file-not-found error for a missing file, the open error for a file that
    can not be read, and the parse error for a file that can not be parsed;
    when the file holds a record it returns.  Whatever it throws, the
    message is the no-session one only if the reference is absent. *)
Theorem retrieve_absence_distinct_from_corruption w lead now :
  dbFault w = None ->
  match sessionReference (leads w !! lead) with
  | None => retrieveSession lead now w = (Throw noSessionError, w)
  | Some sd =>
      match lookupFile (ls_sessionPath sd) w with
      | Some (Readable (RecordJson r)) =>
          exists res w', retrieveSession lead now w = (Normal res, w')
      | Some (Readable (Garbage detail)) =>
          retrieveSession lead now w
          = (Throw ("Failed to retrieve session: Unexpected " +:+ detail), w)
      | Some Unreadable =>
          retrieveSession lead now w
          = (Throw ("Failed to retrieve session: EACCES: permission denied, open '"
                    +:+ showPath (ls_sessionPath sd) +:+ "'"), w)
      | None => retrieveSession lead now w = (Throw sessionUnavailableError, w)
      end
  end
  /\ (forall message w',
        retrieveSession lead now w = (Throw message, w') ->
        (message = noSessionError <-> sessionReference (leads w !! lead) = None)).
Proof.
  intros Ef. unfold retrieveSession, tryCatch, bind, findById. rewrite Ef.
  destruct (sessionReference (leads w !! lead)) as [sd|] eqn:Er.
  2:{ split; [reflexivity|]. intros message w' [= <- <-]. split; reflexivity. }
  unfold access, readFile.
  destruct (lookupFile (ls_sessionPath sd) w) as [[[r|detail]|]|] eqn:Ea;
    cbn beta iota; rewrite ?Ea; cbn beta iota.
  - unfold JSON_parse, ret, writeFile.
    unfold lookupFile in Ea.
    destruct (ls_sessionPath sd ≫= fileName) as [n|]; [|discriminate].
    simpl in Ea. cbv zeta. rewrite Ea.
    split; [do 2 eexists; reflexivity|]. intros message w'. discriminate.
  - split; [reflexivity|]. intros message w' [= <- <-].
    unfold noSessionError. simpl. split; discriminate.
  - split; [reflexivity|]. intros message w' [= <- <-].
    unfold noSessionError. simpl. split; discriminate.
  - split; [reflexivity|]. intros message w' [= <- <-].
    unfold noSessionError. simpl. split; discriminate.
Qed.

Lemma retrieve_absence_distinct_from_corruption_witness :
  dbFault sampleWorld = None
  /\ exists res w', retrieveSession "L1" 2000 sampleWorld = (Normal res, w').
Proof.
  split; [reflexivity|].
  exact (proj1 (retrieve_absence_distinct_from_corruption sampleWorld "L1" 2000 eq_refl)).
Defined.

(** What a successful [retrieveSession] returns and writes. *)
Lemma retrieveSession_ok w lead name r now :
  dbFault w = None ->
  hasSessionAt w lead name r ->
  retrieveSession lead now w
  = (Normal (mkRetrieveResult true (sessionData r) (sessionId r) (createdAt r) now),
     mkWorld (leads w) (dbFault w)
             (<[name := Readable (RecordJson (withLastUsed now r))]> (files w))
             (spawned w)).
Proof.
  intros Ef (l & sd & path & El & Er & Ep & En & Hf).
  unfold retrieveSession, tryCatch, bind, findById. rewrite Ef, El, Er.
  assert (Ea : lookupFile (ls_sessionPath sd) w = Some (Readable (RecordJson r))).
  { unfold lookupFile. rewrite Ep. simpl. rewrite En. simpl. exact Hf. }
  unfold access, readFile. rewrite Ea. cbn beta iota. rewrite Ea. cbn beta iota.
  unfold JSON_parse, ret. rewrite Ep.
  rewrite (writeFile_entry path name _ w _ En Hf).
  rewrite ?Ef. reflexivity.
Qed.

Lemma hasSessionAt_after_write w lead name r r' :
  hasSessionAt w lead name r ->
  hasSessionAt (mkWorld (leads w) (dbFault w)
                        (<[name := Readable (RecordJson r')]> (files w)) (spawned w))
               lead name r'.
Proof.
  intros (l & sd & path & El & Er & Ep & En & Hf).
  exists l, sd, path. repeat split; try assumption.
  simpl. apply lookup_insert_eq.
Qed.

(** C8.  For a lead whose session reference points at a stored record, two
    successive [retrieveSession] calls both return, with the same session
    payload, the record's own; each rewrites the record's file with a
    record that differs from the stored one in [lastUsed] only, and
    nothing else changes. *)
Theorem retrieve_twice_same_payload w lead name r t1 t2 :
  dbFault w = None ->
  hasSessionAt w lead name r ->
  exists res1 w1 res2 w2 r1 r2,
    retrieveSession lead t1 w = (Normal res1, w1)
    /\ retrieveSession lead t2 w1 = (Normal res2, w2)
    /\ rr_sessionData res1 = sessionData r
    /\ rr_sessionData res2 = rr_sessionData res1
    /\ files w1 = <[name := Readable (RecordJson r1)]> (files w)
    /\ files w2 = <[name := Readable (RecordJson r2)]> (files w)
    /\ sameExceptLastUsed r r1 /\ lastUsed r1 = t1
    /\ sameExceptLastUsed r r2 /\ lastUsed r2 = t2
    /\ leads w1 = leads w /\ leads w2 = leads w
    /\ spawned w1 = spawned w /\ spawned w2 = spawned w.
Proof.
  intros Ef Hs.
  pose proof (retrieveSession_ok w lead name r t1 Ef Hs) as E1.
  set (w1 := mkWorld (leads w) (dbFault w)
               (<[name := Readable (RecordJson (withLastUsed t1 r))]> (files w))
               (spawned w)) in *.
  assert (Hs1 : hasSessionAt w1 lead name (withLastUsed t1 r))
    by (apply (hasSessionAt_after_write w lead name r); exact Hs).
  pose proof (retrieveSession_ok w1 lead name (withLastUsed t1 r) t2 Ef Hs1) as E2.
  do 4 eexists. exists (withLastUsed t1 r), (withLastUsed t2 r).
  split; [exact E1|]. split; [exact E2|].
  split; [reflexivity|]. split; [reflexivity|].
  split; [reflexivity|]. split; [simpl; apply insert_insert_eq|].
  unfold sameExceptLastUsed. simpl. repeat split; reflexivity.
Qed.

Lemma sampleWorld_hasSession :
  hasSessionAt sampleWorld "L1" "session_L1_O1_1000_00ff00ff00ff00ff.json" sampleRecord.
Proof.
  exists sampleLead. eexists. exists samplePath.
  repeat split; reflexivity.
Qed.

Lemma retrieve_twice_same_payload_witness :
  dbFault sampleWorld = None
  /\ hasSessionAt sampleWorld "L1" "session_L1_O1_1000_00ff00ff00ff00ff.json" sampleRecord
  /\ exists res1 w1 res2 w2,
       retrieveSession "L1" 2000 sampleWorld = (Normal res1, w1)
       /\ retrieveSession "L1" 3000 w1 = (Normal res2, w2)
       /\ rr_sessionData res1 = samplePayload
       /\ rr_sessionData res2 = rr_sessionData res1.
Proof.
  split; [reflexivity|]. split; [exact sampleWorld_hasSession|].
  destruct (retrieve_twice_same_payload sampleWorld "L1"
              "session_L1_O1_1000_00ff00ff00ff00ff.json" sampleRecord 2000 3000
              eq_refl sampleWorld_hasSession)
    as (res1 & w1 & res2 & w2 & r1 & r2 & E1 & E2 & P1 & P2 & _).
  exists res1, w1, res2, w2. repeat split; assumption.
Defined.

(** *** Capture *)



Lemma sample_capture_storable :
  storable sampleWorld "L1" "O2" 5000 "ab12cd34ef56ab78".
Proof. split; [reflexivity|]. vm_compute. discriminate. Qed.


(** *** Assignment and replay *)

Lemma setAssignment_reference agent t l sd :
  sessionReference (Some l) = Some sd ->
  exists sd',
    sessionReference (Some (setAssignment agent t l)) = Some sd'
    /\ ls_sessionPath sd' = ls_sessionPath sd.
Proof.
  intros Hr. apply sessionReference_Some in Hr as (l0 & sid & [= <-] & Esd & Es & Hne).
  eexists. split.
  - apply sessionReference_Some. eexists. exists sid.
    split; [reflexivity|]. split; [reflexivity|].
    simpl. rewrite Esd. simpl. auto.
  - simpl. rewrite Esd. reflexivity.
Qed.

(** [assignSessionToAgent] on a stored lead returns normally, records the
    assignment on the lead, and keeps a stored session retrievable. *)
Lemma assignSessionToAgent_ok w lead agent t l :
  dbFault w = None ->
  leads w !! lead = Some l ->
  exists res w1,
    assignSessionToAgent lead agent t w = (Normal res, w1)
    /\ dbFault w1 = None
    /\ leads w1 = <[lead := setAssignment agent t l]> (leads w)
    /\ spawned w1 = spawned w
    /\ (forall name r, hasSessionAt w lead name r ->
        hasSessionAt w1 lead name (withAssignment agent t r)).
Proof.
  intros Ef El.
  unfold assignSessionToAgent, tryCatch, bind, findByIdAndUpdate.
  rewrite Ef, El. cbn beta iota.
  set (l' := setAssignment agent t l).
  assert (Hkeep : forall name r f,
    hasSessionAt w lead name r ->
    ((lead_sessionData l' ≫= ls_sessionPath) ≫= fileName = Some name ->
     f = <[name := Readable (RecordJson (withAssignment agent t r))]> (files w) ->
     hasSessionAt (mkWorld (<[lead := l']> (leads w)) None f (spawned w))
       lead name (withAssignment agent t r))).
  { intros name r f (l0 & sd & path & El0 & Er & Ep & En & Hf) _ ->.
    rewrite El in El0. injection El0 as <-.
    destruct (setAssignment_reference agent t l sd Er) as (sd' & Er' & Ep').
    exists l', sd', path. simpl.
    split; [apply lookup_insert_eq|]. split; [exact Er'|].
    split; [congruence|]. split; [exact En|]. apply lookup_insert_eq. }
  assert (Hpath : forall name r, hasSessionAt w lead name r ->
    exists path, lead_sessionData l' ≫= ls_sessionPath = Some path
                 /\ fileName path = Some name
                 /\ files w !! name = Some (Readable (RecordJson r))).
  { intros name r (l0 & sd & path & El0 & Er & Ep & En & Hf).
    rewrite El in El0. injection El0 as <-.
    apply sessionReference_Some in Er as (l0 & sid & [= <-] & Esd & _).
    exists path. subst l'. simpl. rewrite Esd. simpl. auto. }
  destruct (lead_sessionData l' ≫= ls_sessionPath) as [p|] eqn:Ep.
  - destruct (String.eqb p "") eqn:Ee.
    + do 2 eexists. split; [reflexivity|]. repeat split.
      intros name r Hs. destruct (Hpath name r Hs) as (path & [= <-] & En & _).
      apply fileName_nonempty in En. congruence.
    + unfold readFile, lookupFile.
      change (Some p ≫= fileName) with (fileName p).
      destruct (fileName p) as [n|] eqn:En.
      * cbn [mbind option_bind files].
        destruct (files w !! n) as [[[r0|d]|]|] eqn:Hf; cbn beta iota.
        -- unfold JSON_parse, ret, writeFile. cbn beta iota.
           change (Some p ≫= fileName) with (fileName p). rewrite En.
           cbv zeta. cbn [files]. rewrite Hf.
           do 2 eexists. split; [reflexivity|]. repeat split.
           intros name r Hs. destruct (Hpath name r Hs) as (path & [= <-] & En' & Hf').
           assert (name = n) by congruence. subst name.
           assert (r0 = r) by congruence. subst r0.
           apply (Hkeep n r); auto.
        -- do 2 eexists. split; [reflexivity|]. repeat split.
           intros name r Hs. destruct (Hpath name r Hs) as (path & [= <-] & En' & Hf').
           congruence.
        -- do 2 eexists. split; [reflexivity|]. repeat split.
           intros name r Hs. destruct (Hpath name r Hs) as (path & [= <-] & En' & Hf').
           congruence.
        -- do 2 eexists. split; [reflexivity|]. repeat split.
           intros name r Hs. destruct (Hpath name r Hs) as (path & [= <-] & En' & Hf').
           congruence.
      * cbn beta iota. do 2 eexists. split; [reflexivity|]. repeat split.
        intros name r Hs. destruct (Hpath name r Hs) as (path & [= <-] & En' & _).
        congruence.
  - do 2 eexists. split; [reflexivity|]. repeat split.
    intros name r Hs. destruct (Hpath name r Hs) as (path & [=] & _).
Qed.

Lemma notAssignedTo_other agent other t l :
  agent <> other -> notAssignedTo (setAssignment agent t l) other = true.
Proof.
  intros Hne. unfold notAssignedTo. simpl.
  destruct (String.eqb agent other) eqn:E.
  - apply String.eqb_eq in E. contradiction.
  - apply orb_true_r.
Qed.

Lemma notAssignedTo_self agent t l :
  agent <> "" -> notAssignedTo (setAssignment agent t l) agent = false.
Proof.
  intros Hne. unfold notAssignedTo. simpl.
  rewrite String.eqb_refl.
  destruct (String.eqb agent "") eqn:E; [|reflexivity].
  apply String.eqb_eq in E. contradiction.
Qed.

(** C6.  With the store answering, for a stored lead and distinct agent
    ids [a1] (non-empty) and [a2]: assigning the lead to [a1] returns; a
    launch requested for [a2] then throws the not-assigned error and leaves
    the state untouched, so nothing is spawned; and, when the lead has a
    stored session, a launch requested for [a1] returns after spawning the
    launcher once with this lead, this agent and the session's payload. *)
Theorem replay_only_for_assigned_agent w lead a1 a2 t1 t2 l :
  dbFault w = None ->
  leads w !! lead = Some l ->
  a1 <> "" ->
  a1 <> a2 ->
  exists res1 w1,
    assignSessionToAgent lead a1 t1 w = (Normal res1, w1)
    /\ launchAgentBrowser lead a2 t2 w1 = (Throw accessDeniedError, w1)
    /\ (forall name r, hasSessionAt w lead name r ->
        exists res w2,
          launchAgentBrowser lead a1 t2 w1 = (Normal res, w2)
          /\ spawned w2 = (spawned w1 ++ [lr_browserLaunchData res])%list
          /\ bl_leadId (lr_browserLaunchData res) = lead
          /\ bl_agentId (lr_browserLaunchData res) = a1
          /\ bl_sessionData (lr_browserLaunchData res) = sessionData r).
Proof.
  intros Ef El Ha Hne.
  destruct (assignSessionToAgent_ok w lead a1 t1 l Ef El)
    as (res1 & w1 & E1 & Ef1 & Hl1 & Hsp & Hkeep).
  exists res1, w1. split; [exact E1|].
  assert (El1 : leads w1 !! lead = Some (setAssignment a1 t1 l))
    by (rewrite Hl1; apply lookup_insert_eq).
  split.
  - unfold launchAgentBrowser, tryCatch, bind, findById.
    rewrite Ef1, El1. cbn beta iota.
    rewrite (notAssignedTo_other a1 a2 t1 l Hne). reflexivity.
  - intros name r Hs. apply Hkeep in Hs.
    unfold launchAgentBrowser, tryCatch, bind, findById.
    rewrite Ef1, El1. cbn beta iota.
    rewrite (notAssignedTo_self a1 t1 l Ha).
    rewrite (retrieveSession_ok w1 lead name _ t2 Ef1 Hs).
    cbn beta iota. do 2 eexists. split; [reflexivity|].
    repeat split; reflexivity.
Qed.

Lemma replay_only_for_assigned_agent_witness :
  dbFault sampleWorld = None
  /\ leads sampleWorld !! "L1" = Some sampleLead
  /\ "A1" <> "" /\ "A1" <> "A2"
  /\ exists res1 w1,
       assignSessionToAgent "L1" "A1" 2000 sampleWorld = (Normal res1, w1)
       /\ launchAgentBrowser "L1" "A2" 3000 w1 = (Throw accessDeniedError, w1)
       /\ exists res w2,
            launchAgentBrowser "L1" "A1" 3000 w1 = (Normal res, w2)
            /\ bl_sessionData (lr_browserLaunchData res) = samplePayload.
Proof.
  assert (H1 : "A1" <> "") by discriminate.
  assert (H2 : "A1" <> "A2") by discriminate.
  split; [reflexivity|]. split; [reflexivity|]. split; [exact H1|]. split; [exact H2|].
  destruct (replay_only_for_assigned_agent sampleWorld "L1" "A1" "A2" 2000 3000
              sampleLead eq_refl eq_refl H1 H2)
    as (res1 & w1 & E1 & E2 & E3).
  exists res1, w1. split; [exact E1|]. split; [exact E2|].
  destruct (E3 _ _ sampleWorld_hasSession) as (res & w2 & L & _ & _ & _ & P).
  exists res, w2. split; [exact L|exact P].
Defined.

(** *** Expiry sweep *)





















(** *** The cutoff *)

(** The day of the month lies from 1 to 31; it is 1 at the epoch, 29 on
    the leap day of 2000 and 1 on the day after, 31 on the last day
    before the epoch. *)
Lemma DateFromTime_range t : 1 <= DateFromTime t <= 31.
Proof.
  unfold DateFromTime. cbv zeta. generalize (Day t + 719468). intros z.
  Z.to_euclidean_division_equations. lia.
Qed.

Example DateFromTime_samples :
  DateFromTime 0 = 1
  /\ DateFromTime 951782400000 = 29
  /\ DateFromTime 951868800000 = 1
  /\ DateFromTime (-1) = 31
  /\ DateFromTime 1709251199999 = 29.
Proof. repeat split; reflexivity. Qed.










End SessionProperties.

(** ** Further properties of [Fingerprint.js] *)

Module FingerprintExtras.
Import Js Fingerprint FingerprintSpec FingerprintMoreSpec StringFacts
       FingerprintProperties.
Local Open Scope string_scope.

(** *** Draws *)

Lemma randomInt_in_range r lo hi :
  0 <= r -> r < 1 -> lo <= hi ->
  lo <= randomInt r lo hi /\ randomInt r lo hi < hi + 1.
Proof.
  intros H0 H1 Hle. unfold randomInt, floorMul.
  set (x := r * (hi - lo + 1)).
  assert (Hx0 : inject_Z 0 <= x) by (change (inject_Z 0) with 0; unfold x; nra).
  assert (Hx1 : x < hi - lo + 1) by (unfold x; nra).
  apply Qfloor_above in Hx0.
  assert (Hq : inject_Z 0 <= inject_Z (Qfloor x)) by (rewrite <- Zle_Qle; exact Hx0).
  change (inject_Z 0) with 0 in Hq.
  pose proof (Qfloor_le x) as Hf. split; lra.
Qed.

Lemma ratio_in_range r lo hi :
  0 <= r -> r < 1 -> lo <= hi ->
  lo <= r * (hi - lo) + lo /\ r * (hi - lo) + lo <= hi.
Proof. intros H0 H1 Hle. split; nra. Qed.

Lemma pick_index_in_range r (n : nat) :
  0 <= r -> r < 1 -> (0 < n)%nat ->
  (Z.to_nat (floorMul r (inject_Z (Z.of_nat n))) < n)%nat.
Proof.
  intros H0 H1 Hn. unfold floorMul.
  set (x := r * inject_Z (Z.of_nat n)).
  assert (Hn' : 0 < inject_Z (Z.of_nat n)).
  { change 0 with (inject_Z 0). rewrite <- Zlt_Qlt. lia. }
  assert (Hx1 : x < inject_Z (Z.of_nat n)) by (unfold x; nra).
  pose proof (Qfloor_le x) as Hf.
  assert (Hlt : inject_Z (Qfloor x) < inject_Z (Z.of_nat n)) by lra.
  rewrite <- Zlt_Qlt in Hlt. lia.
Qed.

Lemma pick_In {A} (d : A) l r :
  0 <= r -> r < 1 -> l <> [] -> In (pick d l r) l.
Proof.
  intros H0 H1 Hl. unfold pick. apply nth_In.
  apply pick_index_in_range; try assumption.
  destruct l; [contradiction|simpl; lia].
Qed.

(** *** Constrained fields *)

(** X1.  With draws in [0, 1), a field whose effective range is well formed
    (minimum at most maximum) is synthesized inside it: memory (when no
    preferred value is listed), cores, width and height are the minimum plus
    a whole number and lie from the minimum to below the maximum plus one;
    the pixel ratio lies from the minimum to the maximum. *)
Theorem well_formed_ranges_respected random toString36 dt who specs now i :
  unitStream random ->
  isPrototypeKey dt = false ->
  exists fp j,
    generateFingerprint random toString36 dt who (Some specs) now i = Normal (fp, j)
    /\ (forall m, memorySpecOf (Some specs) = Some m ->
          orNil (mem_preferred m) = [] ->
          orNum (mem_min m) 4 <= orNum (mem_max m) 16 ->
          orNum (mem_min m) 4 <= deviceMemory (fp_navigator fp)
          /\ deviceMemory (fp_navigator fp) < orNum (mem_max m) 16 + 1
          /\ exists z, deviceMemory (fp_navigator fp) = inject_Z z + orNum (mem_min m) 4)
    /\ (forall r, coresSpecOf (Some specs) = Some r ->
          orNum (r_min r) 2 <= orNum (r_max r) 8 ->
          orNum (r_min r) 2 <= hardwareConcurrency (fp_navigator fp)
          /\ hardwareConcurrency (fp_navigator fp) < orNum (r_max r) 8 + 1
          /\ exists z, hardwareConcurrency (fp_navigator fp)
                       = inject_Z z + orNum (r_min r) 2)
    /\ (forall r, widthSpecOf (Some specs) = Some r ->
          orNum (r_min r) 1280 <= orNum (r_max r) 1920 ->
          orNum (r_min r) 1280 <= width (fp_screen fp)
          /\ width (fp_screen fp) < orNum (r_max r) 1920 + 1
          /\ exists z, width (fp_screen fp) = inject_Z z + orNum (r_min r) 1280)
    /\ (forall r, heightSpecOf (Some specs) = Some r ->
          orNum (r_min r) 720 <= orNum (r_max r) 1080 ->
          orNum (r_min r) 720 <= height (fp_screen fp)
          /\ height (fp_screen fp) < orNum (r_max r) 1080 + 1
          /\ exists z, height (fp_screen fp) = inject_Z z + orNum (r_min r) 720)
    /\ (forall r, pixelRatioSpecOf (Some specs) = Some r ->
          orNum (r_min r) 1 <= orNum (r_max r) 2 ->
          orNum (r_min r) 1 <= devicePixelRatio (fp_screen fp)
          /\ devicePixelRatio (fp_screen fp) <= orNum (r_max r) 2).
Proof.
  intros Hu Hk. destruct (initialConfig_Some dt Hk) as [base Hi].
  destruct (generateFingerprint_run random toString36 dt who (Some specs) now i base Hi)
    as (resolved & k & final & k' & fp & j & E1 & E2 & G
        & Hw & Hh & _ & _ & Hp & Hc & Hm & _ & _).
  exists fp, j. split; [exact G|].
  rewrite Hw, Hh, Hp, Hc, Hm.
  apply applyDeviceSpecs_spec in E1 as (Mo & Co & Wo & Ho & Po).
  apply applyVariations_spec in E2 as (Sv & Cv & Mv).
  unfold widthOutcome, heightOutcome, coresOutcome, memoryOutcome,
    pixelRatioOutcome in *.
  repeat apply conj.
  - intros m Em Hpref Hle. rewrite Em in Mo. destruct Mo as [n Mo].
    rewrite (memoryGiven_of_memory _ m Em) in Mv. rewrite Mv, Mo.
    unfold resolvedMemory. rewrite Hpref. simpl.
    destruct (randomInt_in_range (random n) _ _ (proj1 (Hu n)) (proj2 (Hu n)) Hle).
    repeat split; try assumption. eexists. reflexivity.
  - intros r Er Hle. rewrite Er in Co. destruct Co as [n Co].
    rewrite (cpuGiven_of_cores _ r Er) in Cv. rewrite Cv, Co.
    destruct (randomInt_in_range (random n) _ _ (proj1 (Hu n)) (proj2 (Hu n)) Hle).
    repeat split; try assumption. eexists. reflexivity.
  - intros r Er Hle. rewrite Er in Wo. destruct Wo as [[n Wo] _].
    rewrite (resolutionGiven_of_width _ r Er) in Sv. rewrite Sv, Wo.
    destruct (randomInt_in_range (random n) _ _ (proj1 (Hu n)) (proj2 (Hu n)) Hle).
    repeat split; try assumption. eexists. reflexivity.
  - intros r Er Hle. rewrite Er in Ho. destruct Ho as [[n Ho] _].
    rewrite (resolutionGiven_of_height _ r Er) in Sv. rewrite Sv, Ho.
    destruct (randomInt_in_range (random n) _ _ (proj1 (Hu n)) (proj2 (Hu n)) Hle).
    repeat split; try assumption. eexists. reflexivity.
  - intros r Er Hle. rewrite Er in Po. destruct Po as [n Po].
    assert (Hd : DPR final = DPR resolved).
    { destruct (resolutionGiven (Some specs)); [now rewrite Sv|].
      now destruct Sv as (_ & _ & _ & _ & ->). }
    rewrite Hd, Po.
    apply ratio_in_range; try apply Hu; exact Hle.
Qed.

Lemma halves_unit : unitStream halves.
Proof. intros n. unfold halves. split; lra. Qed.

Lemma well_formed_ranges_respected_witness :
  unitStream halves
  /\ isPrototypeKey "android" = false
  /\ exists fp j,
       generateFingerprint halves renderHalf "android" "u1" (Some rangedMemory) 0 0
       = Normal (fp, j)
       /\ 4 <= deviceMemory (fp_navigator fp)
       /\ deviceMemory (fp_navigator fp) < 16 + 1.
Proof.
  split; [exact halves_unit|]. split; [reflexivity|].
  destruct (well_formed_ranges_respected halves renderHalf "android" "u1"
              rangedMemory 0 0 halves_unit eq_refl) as (fp & j & G & Hm & _).
  exists fp, j. split; [exact G|].
  destruct (Hm (mkMemorySpec (Some 4) (Some 16) None)) as (H1 & H2 & _);
    [reflexivity|reflexivity|vm_compute; discriminate|].
  split; assumption.
Defined.

(** X2.  With draws in [0, 1), a non-empty list of preferred memory sizes
    wins over the memory range: the synthesized memory is one of the
    preferred values. *)
Theorem preferred_memory_is_chosen random toString36 dt who specs now i m :
  unitStream random ->
  isPrototypeKey dt = false ->
  memorySpecOf (Some specs) = Some m ->
  orNil (mem_preferred m) <> [] ->
  exists fp j,
    generateFingerprint random toString36 dt who (Some specs) now i = Normal (fp, j)
    /\ In (deviceMemory (fp_navigator fp)) (orNil (mem_preferred m)).
Proof.
  intros Hu Hk Em Hpref. destruct (initialConfig_Some dt Hk) as [base Hi].
  destruct (generateFingerprint_run random toString36 dt who (Some specs) now i base Hi)
    as (resolved & k & final & k' & fp & j & E1 & E2 & G
        & _ & _ & _ & _ & _ & _ & Hm & _ & _).
  exists fp, j. split; [exact G|]. rewrite Hm.
  apply applyDeviceSpecs_spec in E1 as (Mo & _).
  apply applyVariations_spec in E2 as (_ & _ & Mv).
  unfold memoryOutcome in Mo. rewrite Em in Mo. destruct Mo as [n Mo].
  rewrite (memoryGiven_of_memory _ m Em) in Mv. rewrite Mv, Mo.
  unfold resolvedMemory.
  destruct (orNil (mem_preferred m)) as [|x l] eqn:El; [contradiction|].
  simpl Nat.ltb. cbv iota.
  apply pick_In; try apply Hu. discriminate.
Qed.

Lemma preferred_memory_is_chosen_witness :
  unitStream halves
  /\ isPrototypeKey "mac" = false
  /\ memorySpecOf (Some preferredMemory)
     = Some (mkMemorySpec (Some 4) (Some 16) (Some [8; 32]))
  /\ [8; 32] <> ([] : list Q)
  /\ exists fp j,
       generateFingerprint halves renderHalf "mac" "u1" (Some preferredMemory) 0 0
       = Normal (fp, j)
       /\ In (deviceMemory (fp_navigator fp)) [8; 32].
Proof.
  assert (Hne : [8; 32] <> ([] : list Q)) by discriminate.
  split; [exact halves_unit|]. split; [reflexivity|]. split; [reflexivity|].
  split; [exact Hne|].
  exact (preferred_memory_is_chosen halves renderHalf "mac" "u1" preferredMemory 0 0
           (mkMemorySpec (Some 4) (Some 16) (Some [8; 32]))
           halves_unit eq_refl eq_refl Hne).
Defined.

(** *** Fields outside the numeric constraints *)

Lemma base_no_colorDepth dt base :
  initialConfig dt = Some base -> CD base = None /\ PD base = None.
Proof.
  intros Hb. apply initialConfig_cases in Hb as [-> | [-> | [-> | ->]]]; auto.
Qed.

(** X3.  Every synthesized fingerprint has [pixelDepth] equal to
    [colorDepth].  Without a (non-empty) colour-depth list both are 24; with
    one, and draws in [0, 1), the colour depth is an entry of the list, or
    24 when the entry is 0. *)
Theorem color_depth_and_pixel_depth_agree random toString36 dt who specs now i :
  match generateFingerprint random toString36 dt who specs now i with
  | Normal (fp, _) =>
      pixelDepth (fp_screen fp) = colorDepth (fp_screen fp)
      /\ match colorDepthSpecOf specs with
         | Some (d :: ds) =>
             unitStream random ->
             exists x, In x (d :: ds)
                       /\ colorDepth (fp_screen fp) = orNum (Some x) 24
         | _ => colorDepth (fp_screen fp) = 24
         end
  | Throw _ => isPrototypeKey dt = true
  end.
Proof.
  destruct (initialConfig dt) as [base|] eqn:Hi.
  - destruct (generateFingerprint_build random toString36 dt who specs now i base Hi)
      as (resolved & k & final & k' & id & E1 & E2 & G).
    rewrite G. unfold buildFingerprint, bind, ret, Math_random. simpl.
    destruct (base_no_colorDepth dt base Hi) as [Hc Hp].
    apply resolved_others in E1 as (_ & _ & _ & Cd & _).
    apply applyVariations_others in E2 as (_ & _ & _ & _ & _ & Cv & Pv).
    rewrite Cv, Pv.
    destruct (colorDepthSpecOf specs) as [[|d ds]|].
    + destruct Cd as [-> ->]. rewrite Hc, Hp. split; reflexivity.
    + destruct Cd as (n & Hcd & ->). split; [reflexivity|].
      intros Hu. exists (pick 0 (d :: ds) (random n)). split.
      * apply (pick_In 0 (d :: ds) (random n)); try apply Hu. discriminate.
      * now rewrite Hcd.
    + destruct Cd as [-> ->]. rewrite Hc, Hp. split; reflexivity.
  - unfold generateFingerprint. rewrite Hi. simpl.
    apply initialConfig_None. exact Hi.
Qed.

(** X4.  Touch support: with ['required'] the synthesized
    [maxTouchPoints] is at least 1 (the device default when that is
    larger), with ['disabled'] it is 0, and with any other value or none it
    is the default of the device type. *)
Theorem touch_support_is_applied random toString36 dt who specs now i base :
  initialConfig dt = Some base ->
  exists fp j,
    generateFingerprint random toString36 dt who specs now i = Normal (fp, j)
    /\ (touchSupportOf specs = Some "required" ->
        maxTouchPoints (fp_navigator fp) = Math_max 1 (MTP base)
        /\ 1 <= maxTouchPoints (fp_navigator fp))
    /\ (touchSupportOf specs = Some "disabled" ->
        maxTouchPoints (fp_navigator fp) = 0)
    /\ (touchSupportOf specs <> Some "required" ->
        touchSupportOf specs <> Some "disabled" ->
        maxTouchPoints (fp_navigator fp) = MTP base).
Proof.
  intros Hi.
  destruct (generateFingerprint_build random toString36 dt who specs now i base Hi)
    as (resolved & k & final & k' & id & E1 & E2 & G).
  rewrite G. unfold buildFingerprint, bind, ret, Math_random. simpl.
  do 2 eexists. split; [reflexivity|]. simpl.
  apply resolved_others in E1 as (_ & _ & Ht & _).
  apply applyVariations_others in E2 as (_ & _ & _ & _ & Tv & _).
  rewrite Tv, Ht.
  assert (Hmax : 1 <= Math_max 1 (MTP base)).
  { unfold Math_max. destruct (Qle_bool 1 (MTP base)) eqn:E.
    - now apply Qle_bool_iff.
    - lra. }
  destruct specs as [s|].
  - rewrite applyCharacteristics_touch.
    destruct (touchSupportOf (Some s)) as [ts|].
    + destruct (String.eqb ts "required") eqn:Er.
      { apply String.eqb_eq in Er. subst ts.
        split; [auto|]. split; [discriminate|]. congruence. }
      destruct (String.eqb ts "disabled") eqn:Ed.
      { apply String.eqb_eq in Ed. subst ts.
        split; [discriminate|]. split; [reflexivity|]. congruence. }
      split; [intros [= ->]; discriminate|].
      split; [intros [= ->]; discriminate|]. reflexivity.
    + split; [discriminate|]. split; [discriminate|]. reflexivity.
  - simpl. split; [discriminate|]. split; [discriminate|]. reflexivity.
Qed.

Lemma touch_support_is_applied_witness :
  initialConfig "windows" = Some windowsConfig
  /\ exists fp j,
       generateFingerprint halves renderHalf "windows" "u1" (Some touchRequired) 0 0
       = Normal (fp, j)
       /\ 1 <= maxTouchPoints (fp_navigator fp).
Proof.
  split; [reflexivity|].
  destruct (touch_support_is_applied halves renderHalf "windows" "u1"
              (Some touchRequired) 0 0 windowsConfig eq_refl)
    as (fp & j & G & Hr & _).
  exists fp, j. split; [exact G|]. apply Hr. reflexivity.
Defined.

(** X5.  Browser: without a (non-empty) list of browser types the
    fingerprint keeps the default browser of the device type; with one, and
    draws in [0, 1), its browser name is an entry of the list.  The vendor
    is ["Google Inc."] exactly for chrome. *)
Theorem browser_is_taken_from_types random toString36 dt who specs now i base :
  unitStream random ->
  initialConfig dt = Some base ->
  exists fp j,
    generateFingerprint random toString36 dt who specs now i = Normal (fp, j)
    /\ match browserTypesOf specs with
       | Some (t :: ts) => In (br_name (fp_browser fp)) (t :: ts)
       | _ => fp_browser fp = browser base
       end
    /\ (vendor (fp_navigator fp) = "Google Inc."
        <-> br_name (fp_browser fp) = "chrome").
Proof.
  intros Hu Hi.
  destruct (generateFingerprint_build random toString36 dt who specs now i base Hi)
    as (resolved & k & final & k' & id & E1 & E2 & G).
  rewrite G. unfold buildFingerprint, bind, ret, Math_random. simpl.
  do 2 eexists. split; [reflexivity|]. simpl.
  apply resolved_others in E1 as (_ & _ & _ & _ & Hb).
  apply applyVariations_others in E2 as (_ & Bv & _).
  rewrite Bv. split.
  - destruct (browserTypesOf specs) as [[|t ts]|]; try exact Hb.
    destruct Hb as [n ->].
    apply (pick_In "" (t :: ts) (random n)); try apply Hu. discriminate.
  - destruct (String.eqb (br_name (browser resolved)) "chrome") eqn:E.
    + apply String.eqb_eq in E. split; auto.
    + split; [discriminate|]. intros Hc. rewrite Hc in E. discriminate.
Qed.

Lemma browser_is_taken_from_types_witness :
  unitStream halves
  /\ initialConfig "mac" = Some macConfig
  /\ exists fp j,
       generateFingerprint halves renderHalf "mac" "u1" (Some firefoxOnly) 0 0
       = Normal (fp, j)
       /\ In (br_name (fp_browser fp)) ["firefox"].
Proof.
  split; [exact halves_unit|]. split; [reflexivity|].
  destruct (browser_is_taken_from_types halves renderHalf "mac" "u1"
              (Some firefoxOnly) 0 0 macConfig halves_unit eq_refl)
    as (fp & j & G & Hb & _).
  exists fp, j. split; [exact G|exact Hb].
Defined.

(** X6.  Neither the specification nor the random variations touch the
    platform and the mobile flags: every synthesized fingerprint is mobile
    exactly for android and ios, is never a tablet, and has the platform
    string of its device type, windows included for an unknown one. *)
Theorem platform_and_mobile_follow_device_type random toString36 dt who specs now i :
  match generateFingerprint random toString36 dt who specs now i with
  | Normal (fp, _) =>
      isMobile (fp_mobile fp) = (String.eqb dt "android" || String.eqb dt "ios")
      /\ isTablet (fp_mobile fp) = false
      /\ platform (fp_navigator fp) = platformOf dt
  | Throw _ => isPrototypeKey dt = true
  end.
Proof.
  destruct (initialConfig dt) as [base|] eqn:Hi.
  - destruct (generateFingerprint_build random toString36 dt who specs now i base Hi)
      as (resolved & k & final & k' & id & E1 & E2 & G).
    rewrite G. unfold buildFingerprint, bind, ret, Math_random. simpl.
    apply resolved_others in E1 as (Hm & Hp & _).
    apply applyVariations_others in E2 as (Mv & _ & Pv & _).
    rewrite Mv, Pv, Hm, Hp. clear - Hi.
    unfold initialConfig, deviceConfigs, platformOf in *.
    destruct (String.eqb dt "windows") eqn:Ew.
    { apply String.eqb_eq in Ew. subst dt. injection Hi as <-. auto. }
    destruct (String.eqb dt "android"); [injection Hi as <-; auto|].
    destruct (String.eqb dt "ios"); [injection Hi as <-; auto|].
    destruct (String.eqb dt "mac"); [injection Hi as <-; auto|].
    destruct (isPrototypeKey dt); [discriminate|]. injection Hi as <-. auto.
  - unfold generateFingerprint. rewrite Hi. simpl.
    apply initialConfig_None. exact Hi.
Qed.

(** *** User-agent helpers *)

Lemma not_In_eqb (x y : string) l : ~ In x l -> In y l -> String.eqb x y = false.
Proof.
  intros Hn Hy. destruct (String.eqb x y) eqn:E; [|reflexivity].
  apply String.eqb_eq in E. subst. contradiction.
Qed.

(** X7.  [generateUserAgent] falls back to a template: with a device type
    and a browser type that are no names inherited from
    [Object.prototype], for a browser type that has no template of the
    device type it yields the device type's chrome template, and for a
    device type outside windows, android, ios and mac it yields the
    windows chrome template whatever the browser. *)
Theorem generateUserAgent_falls_back dt bt v specs :
  isPrototypeKey dt = false ->
  isPrototypeKey bt = false ->
  ~ In bt (templateBrowsers dt) ->
  generateUserAgent dt bt v specs = generateUserAgent dt "chrome" v specs
  /\ (includes dt validDeviceTypes = false ->
      generateUserAgent dt bt v specs = generateUserAgent "windows" "chrome" v specs).
Proof.
  unfold templateBrowsers, includes, validDeviceTypes, generateUserAgent.
  simpl existsb. simpl getProp.
  destruct (String.eqb dt "windows");
    [|destruct (String.eqb dt "android");
      [|destruct (String.eqb dt "ios"); [|destruct (String.eqb dt "mac")]]];
    intros _ _ Hn; (split; [|try discriminate; reflexivity]); simpl;
    repeat match goal with
    | |- context [String.eqb bt ?k] =>
        rewrite (not_In_eqb bt k _ Hn) by (simpl; tauto)
    end; simpl; reflexivity.
Qed.

Lemma generateUserAgent_falls_back_witness :
  isPrototypeKey "ios" = false
  /\ isPrototypeKey "edge" = false
  /\ ~ In "edge" (templateBrowsers "ios")
  /\ generateUserAgent "ios" "edge" "17.0" firefoxOnly
     = "Mozilla/5.0 (iPhone; CPU iPhone OS 17_0 like Mac OS X) AppleWebKit/605.1.15 (KHTML, like Gecko) CriOS/17.0 Mobile/15E148 Safari/604.1".
Proof.
  assert (Hn : ~ In "edge" (templateBrowsers "ios")).
  { simpl. intros [H|[H|[]]]; discriminate. }
  split; [reflexivity|]. split; [reflexivity|]. split; [exact Hn|].
  rewrite (proj1 (generateUserAgent_falls_back "ios" "edge" "17.0" firefoxOnly
                    eq_refl eq_refl Hn)).
  reflexivity.
Defined.

Lemma substring_full s : substring 0 (String.length s) s = s.
Proof. induction s as [|c s IH]; simpl; [reflexivity|now rewrite IH]. Qed.

Lemma prefix_split pat s :
  String.prefix pat s = true ->
  pat +:+ substring (String.length pat) (String.length s - String.length pat) s = s.
Proof.
  revert s. induction pat as [|a pat IH]; intros s.
  - intros _. simpl. rewrite Nat.sub_0_r. apply substring_full.
  - destruct s as [|b s]; simpl; [discriminate|].
    destruct (ascii_dec a b) as [->|]; [|discriminate].
    intros Hp. rewrite append_cons. f_equal. apply IH. exact Hp.
Qed.

Lemma indexOf_cons pat c s :
  indexOf pat (String c s)
  = if String.prefix pat (String c s) then Some 0%nat else S <$> indexOf pat s.
Proof. reflexivity. Qed.

(** The three pieces [replace] cuts a string into. *)
Lemma indexOf_split pat s i :
  indexOf pat s = Some i ->
  substring 0 i s +:+ pat
    +:+ substring (i + String.length pat)
          (String.length s - (i + String.length pat)) s = s.
Proof.
  revert i. induction s as [|c s IH]; intros i.
  - destruct pat; simpl; [|discriminate]. intros [= <-]. reflexivity.
  - rewrite indexOf_cons.
    destruct (String.prefix pat (String c s)) eqn:Ep.
    + intros [= <-]. apply (prefix_split pat (String c s) Ep).
    + destruct (indexOf pat s) as [i'|] eqn:Ei; [|discriminate].
      intros [= <-].
      change (String c (substring 0 i' s) +:+ pat
                +:+ substring (i' + String.length pat)
                      (String.length s - (i' + String.length pat)) s
              = String c s).
      rewrite append_cons. f_equal. apply IH. reflexivity.
Qed.

Lemma expandReplacement_plain matched before after repl :
  lacks "$" repl = true -> expandReplacement matched before after repl = repl.
Proof.
  induction repl as [|c repl IH]; [reflexivity|].
  simpl lacks. intros Hl. apply andb_true_iff in Hl as [Hc Hr].
  assert (Hne : c <> "$"%char).
  { intros ->. discriminate. }
  assert (Hstep : expandReplacement matched before after (String c repl)
                  = String c (expandReplacement matched before after repl)).
  { destruct c as [[] [] [] [] [] [] [] []]; try reflexivity.
    contradiction Hne. reflexivity. }
  rewrite Hstep. now rewrite (IH Hr).
Qed.

Lemma replace_same pat s :
  lacks "$" pat = true -> replace pat pat s = s.
Proof.
  intros Hl. unfold replace.
  destruct (indexOf pat s) as [i|] eqn:Ei; [|reflexivity].
  rewrite (expandReplacement_plain _ _ _ _ Hl).
  apply indexOf_split. exact Ei.
Qed.

(** X8.  For every device type other than android and ios (windows and mac
    included) [updateUserAgentWithOS] returns the user agent unchanged,
    whatever OS version is selected. *)
Theorem os_version_ignored_outside_android_ios ua dt osVersion :
  dt <> "android" ->
  dt <> "ios" ->
  updateUserAgentWithOS ua dt osVersion = ua.
Proof.
  intros Ha Hi. unfold updateUserAgentWithOS.
  destruct (String.eqb dt "windows").
  { destruct (String.eqb osVersion "Windows 11"); [|reflexivity].
    apply replace_same. reflexivity. }
  destruct (String.eqb dt "android") eqn:Ea.
  { apply String.eqb_eq in Ea. contradiction. }
  destruct (String.eqb dt "ios") eqn:Ei.
  { apply String.eqb_eq in Ei. contradiction. }
  destruct (String.eqb dt "mac"); [|reflexivity].
  apply replace_same. reflexivity.
Qed.

Lemma os_version_ignored_outside_android_ios_witness :
  "windows" <> "android"
  /\ "windows" <> "ios"
  /\ updateUserAgentWithOS (nav_userAgent (navigator windowsConfig)) "windows"
       "Windows 11"
     = nav_userAgent (navigator windowsConfig).
Proof.
  assert (H1 : "windows" <> "android") by discriminate.
  assert (H2 : "windows" <> "ios") by discriminate.
  split; [exact H1|]. split; [exact H2|].
  exact (os_version_ignored_outside_android_ios _ "windows" "Windows 11" H1 H2).
Defined.

Lemma substring_prefix before rest :
  substring 0 (String.length before) (before +:+ rest) = before.
Proof.
  induction before as [|c before IH].
  - destruct rest; reflexivity.
  - rewrite append_cons. simpl. now rewrite IH.
Qed.

Lemma substring_skip before rest :
  substring (String.length before)
            (String.length (before +:+ rest) - String.length before)
            (before +:+ rest)
  = rest.
Proof.
  induction before as [|c before IH].
  - change (("" : string) +:+ rest) with rest. simpl String.length.
    rewrite Nat.sub_0_r. apply substring_full.
  - rewrite append_cons. simpl. exact IH.
Qed.

Lemma append_assoc a b c : (a +:+ b) +:+ c = a +:+ (b +:+ c).
Proof.
  induction a as [|x a IH]; [reflexivity|].
  rewrite !append_cons. now rewrite IH.
Qed.

(** [replace] on a string whose first occurrence of the pattern is known,
    with a replacement free of [$]. *)
Lemma replace_first before pat after repl :
  indexOf pat (before +:+ pat +:+ after) = Some (String.length before) ->
  lacks "$" repl = true ->
  replace pat repl (before +:+ pat +:+ after) = before +:+ repl +:+ after.
Proof.
  intros Hi Hl. unfold replace. rewrite Hi.
  rewrite (expandReplacement_plain _ _ _ _ Hl).
  rewrite substring_prefix. f_equal. f_equal.
  rewrite <- append_assoc.
  rewrite <- (length_append before pat).
  apply substring_skip.
Qed.

Lemma lacks_dotsToUnderscores s :
  lacks "$" s = true -> lacks "$" (dotsToUnderscores s) = true.
Proof.
  induction s as [|c s IH]; [reflexivity|].
  simpl. intros Hl. apply andb_true_iff in Hl as [Hc Hs].
  rewrite (IH Hs), andb_true_r.
  destruct (Ascii.eqb c ".") eqn:E; [reflexivity|exact Hc].
Qed.

(** X9.  An OS version free of [$] is written into the generated android
    chrome template in place of [14], and into the generated ios safari
    template in place of [17_0] with its dots turned into underscores; the
    rest of the user agent, the browser version included, stays. *)
Theorem os_version_written_into_template bv osVersion specs :
  lacks "$" osVersion = true ->
  updateUserAgentWithOS (generateUserAgent "android" "chrome" bv specs)
    "android" osVersion
  = "Mozilla/5.0 (Linux; Android " +:+ osVersion
    +:+ "; SM-G998B) AppleWebKit/537.36 (KHTML, like Gecko) Chrome/" +:+ bv
    +:+ " Mobile Safari/537.36"
  /\ updateUserAgentWithOS (generateUserAgent "ios" "safari" bv specs)
       "ios" osVersion
     = "Mozilla/5.0 (iPhone; CPU iPhone OS " +:+ dotsToUnderscores osVersion
       +:+ " like Mac OS X) AppleWebKit/605.1.15 (KHTML, like Gecko) Version/"
       +:+ bv +:+ " Mobile/15E148 Safari/604.1".
Proof.
  intros Hl. split.
  - change (updateUserAgentWithOS (generateUserAgent "android" "chrome" bv specs)
              "android" osVersion)
      with (replace "Android 14" ("Android " +:+ osVersion)
              ("Mozilla/5.0 (Linux; " +:+ "Android 14"
               +:+ ("; SM-G998B) AppleWebKit/537.36 (KHTML, like Gecko) Chrome/"
                    +:+ bv +:+ " Mobile Safari/537.36"))).
    rewrite replace_first; [reflexivity|vm_compute; reflexivity|exact Hl].
  - change (updateUserAgentWithOS (generateUserAgent "ios" "safari" bv specs)
              "ios" osVersion)
      with (replace "17_0" (dotsToUnderscores osVersion)
              ("Mozilla/5.0 (iPhone; CPU iPhone OS " +:+ "17_0"
               +:+ (" like Mac OS X) AppleWebKit/605.1.15 (KHTML, like Gecko) Version/"
                    +:+ bv +:+ " Mobile/15E148 Safari/604.1"))).
    rewrite replace_first;
      [reflexivity|vm_compute; reflexivity|now apply lacks_dotsToUnderscores].
Qed.

Lemma os_version_written_into_template_witness :
  lacks "$" "16.0" = true
  /\ updateUserAgentWithOS (generateUserAgent "ios" "safari" "17.0" firefoxOnly)
       "ios" "16.0"
     = "Mozilla/5.0 (iPhone; CPU iPhone OS 16_0 like Mac OS X) AppleWebKit/605.1.15 (KHTML, like Gecko) Version/17.0 Mobile/15E148 Safari/604.1".
Proof.
  split; [reflexivity|].
  exact (proj2 (os_version_written_into_template "17.0" "16.0" firefoxOnly eq_refl)).
Defined.

Lemma matchModelAt_nonupper c rest :
  isUpper c = false -> matchModelAt (String c rest) = None.
Proof.
  intros Hc. destruct rest as [|b [|d rest]]; try reflexivity.
  unfold matchModelAt. rewrite Hc.
  destruct d as [[] [] [] [] [] [] [] []]; reflexivity.
Qed.

Lemma matchModelAt_no_hyphen s : lacks "-" s = true -> matchModelAt s = None.
Proof.
  destruct s as [|a [|b [|d rest]]]; try reflexivity.
  simpl lacks. intros Hl.
  apply andb_true_iff in Hl as [_ Hl]. apply andb_true_iff in Hl as [_ Hl].
  apply andb_true_iff in Hl as [Hd _].
  destruct d as [[] [] [] [] [] [] [] []]; try reflexivity. discriminate.
Qed.

Lemma replaceModels_cons_nomatch model c rest :
  matchModelAt (String c rest) = None ->
  replaceModels model (String c rest) 0 = String c (replaceModels model rest 0).
Proof.
  intros Hm. change (replaceModels model (String c rest) 0)
    with (match matchModelAt (String c rest) with
          | Some n => model +:+ replaceModels model rest (n - 1)
          | None => String c (replaceModels model rest 0)
          end).
  now rewrite Hm.
Qed.

Lemma replaceModels_no_hyphen model s :
  lacks "-" s = true -> replaceModels model s 0 = s.
Proof.
  induction s as [|c s IH]; [reflexivity|].
  intros Hl. rewrite replaceModels_cons_nomatch by now apply matchModelAt_no_hyphen.
  simpl in Hl. apply andb_true_iff in Hl as [_ Hl]. now rewrite (IH Hl).
Qed.

(** X10.  [updateUserAgentWithManufacturer] leaves a user agent without a
    hyphen as it is.  In the generated android chrome template (browser
    version without a hyphen) it replaces exactly the model token by the
    model of the manufacturer, Samsung's for a manufacturer that is not in
    its table; this for every manufacturer that is no name inherited from
    [Object.prototype]. *)
Theorem manufacturer_replaces_model_token bv manufacturer specs :
  lacks "-" bv = true ->
  isPrototypeKey manufacturer = false ->
  updateUserAgentWithManufacturer
    (generateUserAgent "android" "chrome" bv specs) manufacturer
  = "Mozilla/5.0 (Linux; Android 14; " +:+ modelOf manufacturer
    +:+ ") AppleWebKit/537.36 (KHTML, like Gecko) Chrome/" +:+ bv
    +:+ " Mobile Safari/537.36"
  /\ (forall ua, lacks "-" ua = true ->
      updateUserAgentWithManufacturer ua manufacturer = ua).
Proof.
  intros Hl _. split.
  - unfold updateUserAgentWithManufacturer.
    assert (Hmodel : orStr (getProp manufacturer
                       [("Samsung", "SM-G998B"); ("Google", "Pixel 6");
                        ("Xiaomi", "Mi 11"); ("OnePlus", "OnePlus 9");
                        ("Huawei", "P50 Pro"); ("LG", "LG-H870");
                        ("Sony", "SO-01M")]) "SM-G998B"
                     = modelOf manufacturer).
    { unfold modelOf. simpl getProp.
      destruct (String.eqb manufacturer "Samsung") eqn:Es.
      { apply String.eqb_eq in Es. subst manufacturer. reflexivity. }
      repeat match goal with
             | |- context [String.eqb manufacturer ?k] =>
                 destruct (String.eqb manufacturer k)
             end; reflexivity. }
    cbv zeta. rewrite Hmodel. generalize (modelOf manufacturer) as model.
    intros model.
    change (replaceModels model (generateUserAgent "android" "chrome" bv specs) 0)
      with ("Mozilla/5.0 (Linux; Android 14; " +:+ model
            +:+ ") AppleWebKit/537.36 (KHTML, like Gecko) Chrom"
            +:+ replaceModels model
                  (String "e" (String "/" (bv +:+ " Mobile Safari/537.36"))) 0).
    rewrite replaceModels_cons_nomatch by (apply matchModelAt_nonupper; reflexivity).
    rewrite replaceModels_cons_nomatch by (apply matchModelAt_nonupper; reflexivity).
    rewrite replaceModels_no_hyphen; [reflexivity|].
    rewrite lacks_append, Hl. reflexivity.
  - intros ua Hua. unfold updateUserAgentWithManufacturer.
    now apply replaceModels_no_hyphen.
Qed.

Lemma manufacturer_replaces_model_token_witness :
  lacks "-" "120.0.0.0" = true
  /\ isPrototypeKey "Google" = false
  /\ updateUserAgentWithManufacturer
       (generateUserAgent "android" "chrome" "120.0.0.0" firefoxOnly) "Google"
     = "Mozilla/5.0 (Linux; Android 14; Pixel 6) AppleWebKit/537.36 (KHTML, like Gecko) Chrome/120.0.0.0 Mobile Safari/537.36".
Proof.
  split; [reflexivity|]. split; [reflexivity|].
  exact (proj1 (manufacturer_replaces_model_token "120.0.0.0" "Google" firefoxOnly
                  eq_refl eq_refl)).
Defined.

(** *** [createForLead] *)

Lemma valid_has_config dt :
  includes dt validDeviceTypes = true -> exists base, initialConfig dt = Some base.
Proof.
  unfold includes, validDeviceTypes, initialConfig, deviceConfigs. simpl.
  repeat (destruct (String.eqb dt _)); simpl; try discriminate; eauto.
Qed.

(** Every way [createForLead] ends. *)
Lemma createForLead_outcome random toString36 lead dt who specs now i db :
  match createForLead random toString36 lead dt who specs now i db with
  | (Throw _, db') => db' = db
  | (Normal doc, db') =>
      db' = mkCollection (docs db ++ [doc]) (fault db)
      /\ fault db = None
      /\ leadId doc = Some lead /\ deviceType doc = dt /\ createdBy doc = who
      /\ lead <> "" /\ includes dt validDeviceTypes = true
      /\ (forall d, In d (docs db) ->
          leadId d <> Some lead /\ deviceId d <> deviceId doc)
  end.
Proof.
  unfold createForLead.
  destruct (String.eqb lead "") eqn:El; [reflexivity|].
  destruct (String.eqb dt ""); [reflexivity|].
  destruct (String.eqb who ""); [reflexivity|].
  destruct (includes dt validDeviceTypes) eqn:Ev; [|reflexivity].
  cbn [negb]. cbv iota.
  unfold findOne. destruct (fault db) as [msg|] eqn:Ef; [reflexivity|].
  destruct (find _ (docs db)) as [existing|] eqn:Efind; [reflexivity|].
  destruct (valid_has_config dt Ev) as [base Hi].
  destruct (generateFingerprint_build random toString36 dt who specs now i base Hi)
    as (resolved & k & final & k' & id & E1 & E2 & G).
  rewrite G. unfold buildFingerprint, bind, ret, Math_random. cbv beta iota.
  set (fp := withLeadId lead _).
  unfold create. rewrite Ef.
  destruct (existsb (fun d => String.eqb (deviceId d) (deviceId fp)) (docs db)) eqn:Ed;
    [reflexivity|].
  destruct (existsb (fun d => bool_decide (is_Some (leadId fp)) && _) (docs db))
    eqn:Ee; [reflexivity|].
  split; [reflexivity|]. split; [reflexivity|]. split; [reflexivity|].
  split; [reflexivity|]. split; [reflexivity|].
  split. { intros ->. discriminate. }
  split; [reflexivity|].
  intros d Hd. split.
  - intros Hl. pose proof (find_none _ _ Efind d Hd) as Hn.
    cbv beta in Hn. apply bool_decide_eq_false in Hn. contradiction.
  - intros Hid.
    assert (Hex : existsb (fun d0 => String.eqb (deviceId d0) (deviceId fp)) (docs db)
                  = true).
    { apply existsb_exists. exists d. split; [exact Hd|]. now apply String.eqb_eq. }
    congruence.
Qed.

(** X11.  [createForLead] changes the collection only when it returns: a
    throw leaves it as it was; a return has appended exactly the returned
    document, which carries the lead, the (valid) device type and the
    creator, and whose lead and device id no earlier document has. *)
Theorem createForLead_stores_only_on_return
    random toString36 lead dt who specs now i db :
  match createForLead random toString36 lead dt who specs now i db with
  | (Throw _, db') => db' = db
  | (Normal doc, db') =>
      db' = mkCollection (docs db ++ [doc]) (fault db)
      /\ leadId doc = Some lead /\ deviceType doc = dt /\ createdBy doc = who
      /\ includes dt validDeviceTypes = true
      /\ (forall d, In d (docs db) ->
          leadId d <> Some lead /\ deviceId d <> deviceId doc)
  end.
Proof.
  pose proof (createForLead_outcome random toString36 lead dt who specs now i db) as H.
  destruct (createForLead random toString36 lead dt who specs now i db)
    as [[doc|e] db']; [|exact H].
  destruct H as (H1 & _ & H3 & H4 & H5 & _ & H7 & H8). auto 10.
Qed.

(** X12.  [createForLead] keeps the collection free of duplicates: if no two
    documents share a device id or a lead before the call, none do after
    it. *)
Theorem createForLead_keeps_keys_unique
    random toString36 lead dt who specs now i db :
  uniqueKeys db ->
  uniqueKeys (createForLead random toString36 lead dt who specs now i db).2.
Proof.
  intros [Hd Hl].
  pose proof (createForLead_outcome random toString36 lead dt who specs now i db) as H.
  destruct (createForLead random toString36 lead dt who specs now i db)
    as [[doc|e] db']; simpl; [|subst db'; split; assumption].
  destruct H as (-> & _ & Hlead & _ & _ & _ & _ & Hnew).
  unfold uniqueKeys. simpl. rewrite map_app, omap_app. simpl.
  rewrite Hlead. simpl. split.
  - apply NoDup_app. split; [exact Hd|]. split; [|apply NoDup_singleton].
    intros x Hx Hx'. apply list_elem_of_singleton in Hx'. subst x.
    apply list_elem_of_In, in_map_iff in Hx as (d & Hid & Hin).
    destruct (Hnew d Hin) as [_ Hne]. contradiction.
  - apply NoDup_app. split; [exact Hl|]. split; [|apply NoDup_singleton].
    intros x Hx Hx'. apply list_elem_of_singleton in Hx'. subst x.
    apply list_elem_of_omap in Hx as (d & Hin & Hdl).
    apply list_elem_of_In in Hin.
    destruct (Hnew d Hin) as [Hne _]. contradiction.
Qed.

Lemma createForLead_keeps_keys_unique_witness :
  uniqueKeys emptyCollection
  /\ uniqueKeys (createForLead halves renderHalf "L1" "windows" "u1" None 0 0
                   emptyCollection).2.
Proof.
  assert (H : uniqueKeys emptyCollection) by (split; simpl; constructor).
  split; [exact H|].
  exact (createForLead_keeps_keys_unique halves renderHalf "L1" "windows" "u1"
           None 0 0 emptyCollection H).
Defined.

(** A lead that already has a fingerprint is refused. *)
Lemma createForLead_existing random toString36 lead dt who specs now i db d :
  fault db = None ->
  lead <> "" -> who <> "" ->
  includes dt validDeviceTypes = true ->
  In d (docs db) -> leadId d = Some lead ->
  createForLead random toString36 lead dt who specs now i db
  = (Throw (Error "Fingerprint already exists for this lead"), db).
Proof.
  intros Ef Hl Hw Hv Hin Hd. unfold createForLead.
  destruct (String.eqb lead "") eqn:El; [apply String.eqb_eq in El; contradiction|].
  destruct (String.eqb dt "") eqn:Ed.
  { apply String.eqb_eq in Ed. subst dt. discriminate. }
  destruct (String.eqb who "") eqn:Ew; [apply String.eqb_eq in Ew; contradiction|].
  rewrite Hv. cbn [negb]. cbv iota. unfold findOne. rewrite Ef.
  destruct (find _ (docs db)) as [existing|] eqn:Efind; [reflexivity|].
  pose proof (find_none _ _ Efind d Hin) as Hn. cbv beta in Hn.
  apply bool_decide_eq_false in Hn. contradiction.
Qed.

(** X13.  One fingerprint per lead: once [createForLead] has returned a
    document for a lead, [findOne] finds that document for the lead, and
    every further [createForLead] for the lead (valid device type, creator
    given) throws the already-exists error and leaves the collection as it
    is. *)
Theorem second_fingerprint_for_lead_is_refused
    random toString36 lead dt who specs now i db doc db'
    random' toString36' dt' who' specs' now' i' :
  createForLead random toString36 lead dt who specs now i db = (Normal doc, db') ->
  who' <> "" ->
  includes dt' validDeviceTypes = true ->
  findOne lead db' = Normal (Some doc)
  /\ createForLead random' toString36' lead dt' who' specs' now' i' db'
     = (Throw (Error "Fingerprint already exists for this lead"), db').
Proof.
  intros Hc Hw Hv.
  pose proof (createForLead_outcome random toString36 lead dt who specs now i db) as H.
  rewrite Hc in H. destruct H as (-> & Ef & Hlead & _ & _ & Hne & _ & Hnew).
  split.
  - unfold findOne. simpl. rewrite Ef. f_equal.
    clear Hc. revert Hnew. generalize (docs db) as l.
    induction l as [|d l IH]; intros Hnew; simpl.
    + rewrite bool_decide_eq_true_2 by exact Hlead. reflexivity.
    + rewrite bool_decide_eq_false_2 by (apply Hnew; now left).
      apply IH. intros d' Hd'. apply Hnew. now right.
  - apply (createForLead_existing _ _ _ _ _ _ _ _ _ doc); try assumption.
    simpl. apply in_or_app. right. now left.
Qed.

Lemma second_fingerprint_for_lead_is_refused_witness :
  exists doc db',
    createForLead halves renderHalf "L1" "windows" "u1" None 0 0 emptyCollection
    = (Normal doc, db')
    /\ "u2" <> ""
    /\ includes "mac" validDeviceTypes = true
    /\ createForLead halves renderHalf "L1" "mac" "u2" None 5 0 db'
       = (Throw (Error "Fingerprint already exists for this lead"), db').
Proof.
  assert (Hw : "u2" <> "") by discriminate.
  do 2 eexists. split; [vm_compute; reflexivity|].
  split; [exact Hw|]. split; [reflexivity|].
  refine (proj2 (second_fingerprint_for_lead_is_refused halves renderHalf "L1"
                   "windows" "u1" None 0 0 emptyCollection _ _
                   halves renderHalf "mac" "u2" None 5 0 _ Hw eq_refl)).
  vm_compute. reflexivity.
Defined.

End FingerprintExtras.

(** ** Further properties of the session service *)

Module SessionExtras.
Import Js SessionManagementService SessionStatistics SessionSpec SessionMoreSpec
       SessionProperties.
Local Open Scope string_scope.
Local Open Scope Z_scope.

(** *** Running the operations *)

Lemma generateSessionId_nonempty lead order now hex :
  String.eqb (generateSessionId lead order now hex) "" = false.
Proof. reflexivity. Qed.

(** [storeSession] on any state in which the session file can be
    written. *)
Lemma storeSession_run w lead order input now hex :
  storable w lead order now hex ->
  let sid := generateSessionId lead order now hex in
  let path := path_join sessionsDir (sid +:+ ".json") in
  let written :=
    <[sid +:+ ".json" := Readable (RecordJson (capturedRecord lead order input now hex))]>
      (files w) in
  storeSession lead order input now hex w
  = match dbFault w with
    | Some msg =>
        (Throw (storeFailed msg), mkWorld (leads w) (dbFault w) written (spawned w))
    | None =>
        (Normal (mkStoreResult true sid path "Session stored successfully"),
         match leads w !! lead with
         | Some l =>
             mkWorld (<[lead := setSessionReference sid path now l]> (leads w))
                     (dbFault w) written (spawned w)
         | None => mkWorld (leads w) (dbFault w) written (spawned w)
         end)
    end.
Proof.
  intros [Hplain Hopen] sid path written.
  unfold storeSession, tryCatch, bind.
  fold sid. fold path.
  rewrite (writeFile_create path (sid +:+ ".json") _ w
             (fileName_path_join _) Hplain Hopen).
  unfold findByIdAndUpdate. cbn beta iota.
  cbn [dbFault leads].
  destruct (dbFault w) as [msg|]; [reflexivity|].
  destruct (leads w !! lead); reflexivity.
Qed.

(** [hasActiveSession] on any state. *)
Lemma hasActiveSession_run w lead :
  hasActiveSession lead w
  = (Normal
       match dbFault w with
       | Some _ => false
       | None =>
           match sessionReference (leads w !! lead) with
           | None => false
           | Some sd =>
               match lookupFile (ls_sessionPath sd) w with
               | Some _ => bool_decide (ls_status sd = Some "active")
               | None => false
               end
           end
       end, w).
Proof.
  unfold hasActiveSession, tryCatch, bind, findById.
  destruct (dbFault w); [reflexivity|].
  destruct (sessionReference (leads w !! lead)) as [sd|]; [|reflexivity].
  unfold access. destruct (lookupFile (ls_sessionPath sd) w); reflexivity.
Qed.

Lemma retrieveSession_none w lead now :
  dbFault w = None ->
  sessionReference (leads w !! lead) = None ->
  retrieveSession lead now w = (Throw noSessionError, w).
Proof.
  intros Ef Er. unfold retrieveSession, tryCatch, bind, findById.
  rewrite Ef, Er. reflexivity.
Qed.

(** Every way [retrieveSession] ends. *)
Lemma retrieveSession_outcome w lead now :
  match retrieveSession lead now w with
  | (Throw _, w') => w' = w
  | (Normal res, w') =>
      dbFault w = None
      /\ exists name r,
           hasSessionAt w lead name r
           /\ res = mkRetrieveResult true (sessionData r) (sessionId r) (createdAt r) now
           /\ w' = mkWorld (leads w) (dbFault w)
                     (<[name := Readable (RecordJson (withLastUsed now r))]> (files w))
                     (spawned w)
  end.
Proof.
  destruct (dbFault w) as [msg|] eqn:Ef.
  { unfold retrieveSession, tryCatch, bind, findById. rewrite Ef. reflexivity. }
  destruct (sessionReference (leads w !! lead)) as [sd|] eqn:Er.
  2:{ now rewrite (retrieveSession_none w lead now Ef Er). }
  destruct (lookupFile (ls_sessionPath sd) w) as [[[r|detail]|]|] eqn:Ea.
  - assert (Hs : exists name, hasSessionAt w lead name r).
    { apply sessionReference_Some in Er as (l & sid & El & Esd & Es & Hne).
      unfold lookupFile in Ea.
      destruct (ls_sessionPath sd) as [path|] eqn:Ep; [|discriminate].
      simpl in Ea. destruct (fileName path) as [name|] eqn:En; [|discriminate].
      simpl in Ea. exists name, l, sd, path.
      split; [exact El|]. split; [|auto].
      apply sessionReference_Some. exists l, sid. auto. }
    destruct Hs as [name Hs].
    rewrite (retrieveSession_ok w lead name r now Ef Hs). rewrite ?Ef.
    split; [reflexivity|]. exists name, r. auto.
  - unfold retrieveSession, tryCatch, bind, findById. rewrite Ef, Er.
    unfold access, readFile. rewrite Ea. cbn beta iota. rewrite Ea. reflexivity.
  - unfold retrieveSession, tryCatch, bind, findById. rewrite Ef, Er.
    unfold access, readFile. rewrite Ea. cbn beta iota. rewrite Ea. reflexivity.
  - unfold retrieveSession, tryCatch, bind, findById. rewrite Ef, Er.
    unfold access. rewrite Ea. reflexivity.
Qed.

Lemma setSessionReference_reference sid path now l :
  String.eqb sid "" = false ->
  exists sd,
    sessionReference (Some (setSessionReference sid path now l)) = Some sd
    /\ ls_sessionPath sd = Some path
    /\ ls_status sd = Some "active".
Proof.
  intros E. eexists. split.
  { unfold sessionReference. simpl. rewrite E. reflexivity. }
  split; reflexivity.
Qed.

Lemma captured_hasSession w lead order input now hex l :
  leads w !! lead = Some l ->
  let sid := generateSessionId lead order now hex in
  let path := path_join sessionsDir (sid +:+ ".json") in
  hasSessionAt
    (mkWorld (<[lead := setSessionReference sid path now l]> (leads w)) (dbFault w)
             (<[sid +:+ ".json" := Readable (RecordJson (capturedRecord lead order input now hex))]>
                (files w)) (spawned w))
    lead (sid +:+ ".json") (capturedRecord lead order input now hex).
Proof.
  intros El sid path.
  exists (setSessionReference sid path now l).
  eexists. exists path. simpl.
  split; [apply lookup_insert_eq|].
  split; [reflexivity|].
  split; [reflexivity|].
  split; [apply fileName_path_join|].
  apply lookup_insert_eq.
Qed.

(** *** [storeSession] *)

(** X14.  What is stored can be replayed: with the store answering, the
    lead present and a session file that can be written (ids that give a
    file name the directory can hold, no entry of that name that cannot
    be opened), [storeSession] returns, the lead then has an active
    session, and a following [retrieveSession] returns the session id that
    [storeSession] returned, the captured payload (absent or falsy parts
    replaced by their defaults), the capture time as creation time and the
    retrieval time as last use. *)
Theorem stored_session_is_retrieved w lead order input now hex l t :
  dbFault w = None ->
  leads w !! lead = Some l ->
  storable w lead order now hex ->
  exists res w1 res' w2,
    storeSession lead order input now hex w = (Normal res, w1)
    /\ hasActiveSession lead w1 = (Normal true, w1)
    /\ retrieveSession lead t w1 = (Normal res', w2)
    /\ rr_sessionId res' = st_sessionId res
    /\ rr_sessionData res' = capturedPayload input
    /\ rr_createdAt res' = now
    /\ rr_lastUsed res' = t.
Proof.
  intros Ef El Hplain.
  pose proof (storeSession_run w lead order input now hex Hplain) as Hrun.
  cbv zeta in Hrun. rewrite Ef, El in Hrun.
  pose proof (captured_hasSession w lead order input now hex l El) as Hs.
  cbv zeta in Hs. rewrite Ef in Hs.
  do 4 eexists. split; [exact Hrun|].
  split.
  { rewrite hasActiveSession_run. cbn [dbFault leads].
    rewrite lookup_insert_eq.
    destruct (setSessionReference_reference
                (generateSessionId lead order now hex)
                (path_join sessionsDir (generateSessionId lead order now hex +:+ ".json"))
                now l (generateSessionId_nonempty lead order now hex))
      as (sd & Er & Ep & Est).
    rewrite Er. unfold lookupFile. rewrite Ep. cbn [mbind option_bind].
    rewrite fileName_path_join. cbn [mbind option_bind files].
    rewrite lookup_insert_eq, Est. reflexivity. }
  split; [refine (retrieveSession_ok _ _ _ _ t _ Hs); reflexivity|].
  repeat split; reflexivity.
Qed.

Lemma stored_session_is_retrieved_witness :
  dbFault sampleWorld = None
  /\ leads sampleWorld !! "L1" = Some sampleLead
  /\ storable sampleWorld "L1" "O2" 5000 "ab12cd34ef56ab78"
  /\ exists res w1 res' w2,
       storeSession "L1" "O2" sampleInput 5000 "ab12cd34ef56ab78" sampleWorld
       = (Normal res, w1)
       /\ retrieveSession "L1" 6000 w1 = (Normal res', w2)
       /\ rr_sessionId res' = "session_L1_O2_5000_ab12cd34ef56ab78"
       /\ cookies (rr_sessionData res') = JArr []
       /\ localStorage (rr_sessionData res') = JObj []
       /\ userAgent (rr_sessionData res') = JStr "Mozilla/5.0".
Proof.
  pose proof sample_capture_storable as Hst.
  split; [reflexivity|]. split; [reflexivity|]. split; [exact Hst|].
  destruct (stored_session_is_retrieved sampleWorld "L1" "O2" sampleInput 5000
              "ab12cd34ef56ab78" sampleLead 6000 eq_refl eq_refl Hst)
    as (res & w1 & res' & w2 & E1 & _ & E2 & Hid & Hp & _ & _).
  exists res, w1, res', w2. split; [exact E1|]. split; [exact E2|].
  rewrite Hp, Hid.
  rewrite storeSession_run in E1 by exact Hst. injection E1 as <- _.
  repeat split; reflexivity.
Defined.

(** X15.  A capture is kept on disk even when the store does not answer:
    when the session file can be written (ids that give a file name the
    directory can hold, no entry of that name that cannot be opened),
    [storeSession] then throws the wrapped store error, after the session
    file has been written; no lead refers to the file. *)
Theorem failed_store_leaves_file_behind w lead order input now hex msg :
  dbFault w = Some msg ->
  storable w lead order now hex ->
  exists w1,
    storeSession lead order input now hex w = (Throw (storeFailed msg), w1)
    /\ files w1 !! capturedName lead order now hex
       = Some (Readable (RecordJson (capturedRecord lead order input now hex)))
    /\ (forall name, name <> capturedName lead order now hex ->
                     files w1 !! name = files w !! name)
    /\ leads w1 = leads w.
Proof.
  intros Ef Hplain.
  pose proof (storeSession_run w lead order input now hex Hplain) as Hrun.
  cbv zeta in Hrun. rewrite Ef in Hrun.
  eexists. split; [exact Hrun|]. simpl. unfold capturedName.
  split; [apply lookup_insert_eq|].
  split; [|reflexivity].
  intros name Hn. apply lookup_insert_ne. congruence.
Qed.

Lemma failed_store_leaves_file_behind_witness :
  dbFault faultyWorld = Some "connection refused"
  /\ storable faultyWorld "L1" "O2" 5000 "ab12cd34ef56ab78"
  /\ exists w1,
       storeSession "L1" "O2" sampleInput 5000 "ab12cd34ef56ab78" faultyWorld
       = (Throw "Failed to store session: connection refused", w1)
       /\ is_Some (files w1 !! "session_L1_O2_5000_ab12cd34ef56ab78.json")
       /\ leads w1 = leads faultyWorld.
Proof.
  assert (Hst : storable faultyWorld "L1" "O2" 5000 "ab12cd34ef56ab78")
    by (split; [reflexivity|vm_compute; discriminate]).
  split; [reflexivity|]. split; [exact Hst|].
  destruct (failed_store_leaves_file_behind faultyWorld "L1" "O2" sampleInput 5000
              "ab12cd34ef56ab78" "connection refused" eq_refl Hst)
    as (w1 & E1 & Hf & _ & Hl).
  exists w1. split; [exact E1|]. split; [|exact Hl].
  eexists. exact Hf.
Defined.

(** X16.  A capture for a lead the store does not hold is reported as a
    success: when the session file can be written (ids that give a file
    name the directory can hold, no entry of that name that cannot be
    opened), [storeSession] returns [success], writes the session file and
    changes no lead, so the lead has no active session afterwards and
    [retrieveSession] throws the no-session error. *)
Theorem store_for_unknown_lead_reports_success w lead order input now hex t :
  dbFault w = None ->
  leads w !! lead = None ->
  storable w lead order now hex ->
  exists res w1,
    storeSession lead order input now hex w = (Normal res, w1)
    /\ st_success res = true
    /\ files w1 !! capturedName lead order now hex
       = Some (Readable (RecordJson (capturedRecord lead order input now hex)))
    /\ leads w1 = leads w
    /\ hasActiveSession lead w1 = (Normal false, w1)
    /\ retrieveSession lead t w1 = (Throw noSessionError, w1).
Proof.
  intros Ef El Hplain.
  pose proof (storeSession_run w lead order input now hex Hplain) as Hrun.
  cbv zeta in Hrun. rewrite Ef, El in Hrun.
  do 2 eexists. split; [exact Hrun|].
  split; [reflexivity|].
  split; [apply lookup_insert_eq|].
  split; [reflexivity|].
  split.
  - rewrite hasActiveSession_run. cbn [dbFault leads]. rewrite El. reflexivity.
  - apply retrieveSession_none; [reflexivity|]. cbn [leads]. now rewrite El.
Qed.

Lemma store_for_unknown_lead_reports_success_witness :
  dbFault sampleWorld = None
  /\ leads sampleWorld !! "L7" = None
  /\ storable sampleWorld "L7" "O2" 5000 "ab12cd34ef56ab78"
  /\ exists res w1,
       storeSession "L7" "O2" sampleInput 5000 "ab12cd34ef56ab78" sampleWorld
       = (Normal res, w1)
       /\ st_success res = true
       /\ hasActiveSession "L7" w1 = (Normal false, w1).
Proof.
  assert (Hst : storable sampleWorld "L7" "O2" 5000 "ab12cd34ef56ab78")
    by (split; [reflexivity|vm_compute; discriminate]).
  split; [reflexivity|]. split; [reflexivity|]. split; [exact Hst|].
  destruct (store_for_unknown_lead_reports_success sampleWorld "L7" "O2" sampleInput
              5000 "ab12cd34ef56ab78" 6000 eq_refl eq_refl Hst)
    as (res & w1 & E1 & Hs & _ & _ & Ha & _).
  exists res, w1. auto.
Defined.

(** *** [assignSessionToAgent] and [launchAgentBrowser] *)

(** X17.  Assigning a lead the store does not hold throws the wrapped
    error, of the store when it does not answer and [Lead not found]
    otherwise, and changes nothing. *)
Theorem assign_unknown_lead_changes_nothing w lead agent t :
  leads w !! lead = None ->
  assignSessionToAgent lead agent t w
  = (Throw (assignFailed (default "Lead not found" (dbFault w))), w).
Proof.
  intros El. unfold assignSessionToAgent, tryCatch, bind, findByIdAndUpdate.
  destruct (dbFault w); [reflexivity|]. rewrite El. reflexivity.
Qed.

Lemma assign_unknown_lead_changes_nothing_witness :
  leads sampleWorld !! "L7" = None
  /\ assignSessionToAgent "L7" "A1" 2000 sampleWorld
     = (Throw "Failed to assign session to agent: Lead not found", sampleWorld).
Proof.
  split; [reflexivity|].
  exact (assign_unknown_lead_changes_nothing sampleWorld "L7" "A1" 2000 eq_refl).
Defined.

Lemma launchAgentBrowser_assigned w lead agent now l :
  dbFault w = None ->
  leads w !! lead = Some l ->
  notAssignedTo l agent = false ->
  launchAgentBrowser lead agent now w
  = match retrieveSession lead now w with
    | (Throw e, w') => (Throw (launchFailed e), w')
    | (Normal sessionResult, w') =>
        if negb (rr_success sessionResult) then
          (Throw (launchFailed "Failed to retrieve session data"), w')
        else
          let data :=
            {| bl_leadId := lead;
               bl_agentId := agent;
               bl_sessionData := rr_sessionData sessionResult;
               bl_leadInfo :=
                 {| li_firstName := firstName l;
                    li_lastName := lastName l;
                    li_email := newEmail l;
                    li_phone := orOpt (newPhone l) (phone l);
                    li_country := country l |} |} in
          (Normal (mkLaunchResult true
                     "Agent browser launched successfully. Browser should open shortly."
                     data),
           mkWorld (leads w') (dbFault w') (files w') (spawned w' ++ [data])%list)
    end.
Proof.
  intros Ef El Ha. unfold launchAgentBrowser, tryCatch, bind, findById.
  rewrite Ef, El. cbn beta iota. rewrite Ha.
  destruct (retrieveSession lead now w) as [[res|e] w']; [|reflexivity].
  destruct (rr_success res); reflexivity.
Qed.

Lemma notAssignedTo_false l agent :
  notAssignedTo l agent = false -> assignedTo l = Some agent /\ agent <> "".
Proof.
  unfold notAssignedTo. destruct (assignedTo l) as [a|]; [|discriminate].
  intros H. apply orb_false_elim in H as [H1 H2].
  apply negb_false_iff, String.eqb_eq in H2. subst a.
  split; [reflexivity|]. intros ->. discriminate.
Qed.

(** X18.  An assignment does not need a session: for a stored lead without
    session data [assignSessionToAgent] returns, with no session id, and
    the lead is assigned; the agent's launch then throws the no-session
    error, wrapped twice, and spawns nothing. *)
Theorem assignment_without_session_cannot_launch w lead agent t1 t2 l :
  dbFault w = None ->
  leads w !! lead = Some l ->
  lead_sessionData l = None ->
  agent <> "" ->
  exists res w1,
    assignSessionToAgent lead agent t1 w = (Normal res, w1)
    /\ as_success res = true
    /\ as_sessionId res = None
    /\ (leads w1 !! lead) ≫= assignedTo = Some agent
    /\ launchAgentBrowser lead agent t2 w1 = (Throw (launchFailed noSessionError), w1).
Proof.
  intros Ef El Es Ha.
  assert (E1 : assignSessionToAgent lead agent t1 w
               = (Normal (mkAssignResult true "Session assigned to agent successfully"
                            lead agent None),
                  mkWorld (<[lead := setAssignment agent t1 l]> (leads w)) None
                          (files w) (spawned w))).
  { unfold assignSessionToAgent, tryCatch, bind, findByIdAndUpdate.
    rewrite Ef, El. cbn beta iota. unfold setAssignment, updateLeadSession.
    simpl. rewrite Es. reflexivity. }
  do 2 eexists. split; [exact E1|].
  split; [reflexivity|]. split; [reflexivity|].
  split; [simpl; rewrite lookup_insert_eq; reflexivity|].
  rewrite (launchAgentBrowser_assigned _ lead agent t2 (setAssignment agent t1 l));
    [|reflexivity|apply lookup_insert_eq|apply notAssignedTo_self, Ha].
  rewrite retrieveSession_none; [reflexivity|reflexivity|].
  simpl. rewrite lookup_insert_eq.
  unfold sessionReference, setAssignment, updateLeadSession. simpl.
  rewrite Es. reflexivity.
Qed.

Lemma assignment_without_session_cannot_launch_witness :
  dbFault bareWorld = None
  /\ leads bareWorld !! "L9" = Some bareLead
  /\ lead_sessionData bareLead = None
  /\ "A1" <> ""
  /\ exists res w1,
       assignSessionToAgent "L9" "A1" 2000 bareWorld = (Normal res, w1)
       /\ launchAgentBrowser "L9" "A1" 3000 w1
          = (Throw ("Failed to launch agent browser: Failed to retrieve session: "
                    +:+ "No session data found for this lead"), w1).
Proof.
  assert (Ha : "A1" <> "") by discriminate.
  split; [reflexivity|]. split; [reflexivity|]. split; [reflexivity|].
  split; [exact Ha|].
  destruct (assignment_without_session_cannot_launch bareWorld "L9" "A1" 2000 3000
              bareLead eq_refl eq_refl eq_refl Ha)
    as (res & w1 & E1 & _ & _ & _ & E2).
  exists res, w1. split; [exact E1|exact E2].
Defined.

Lemma launchAgentBrowser_ok w lead agent now l name r :
  dbFault w = None ->
  leads w !! lead = Some l ->
  notAssignedTo l agent = false ->
  hasSessionAt w lead name r ->
  exists res w',
    launchAgentBrowser lead agent now w = (Normal res, w')
    /\ spawned w' = (spawned w ++ [lr_browserLaunchData res])%list
    /\ bl_leadId (lr_browserLaunchData res) = lead
    /\ bl_agentId (lr_browserLaunchData res) = agent
    /\ bl_sessionData (lr_browserLaunchData res) = sessionData r.
Proof.
  intros Ef El Ha Hs.
  rewrite (launchAgentBrowser_assigned w lead agent now l Ef El Ha).
  rewrite (retrieveSession_ok w lead name r now Ef Hs). cbn beta iota zeta.
  do 2 eexists. split; [reflexivity|]. repeat split; reflexivity.
Qed.

(** X19.  The last assignment decides: after a lead with a stored session
    is assigned to [a1] and then to [a2], a launch for [a1] throws the
    not-assigned error and changes nothing, and a launch for [a2] spawns
    the launcher with the session's payload. *)
Theorem reassignment_moves_access w lead a1 a2 t1 t2 t3 l name r :
  dbFault w = None ->
  leads w !! lead = Some l ->
  hasSessionAt w lead name r ->
  a2 <> "" ->
  a1 <> a2 ->
  exists res1 w1 res2 w2,
    assignSessionToAgent lead a1 t1 w = (Normal res1, w1)
    /\ assignSessionToAgent lead a2 t2 w1 = (Normal res2, w2)
    /\ launchAgentBrowser lead a1 t3 w2 = (Throw accessDeniedError, w2)
    /\ exists res w3,
         launchAgentBrowser lead a2 t3 w2 = (Normal res, w3)
         /\ spawned w3 = (spawned w ++ [lr_browserLaunchData res])%list
         /\ bl_agentId (lr_browserLaunchData res) = a2
         /\ bl_sessionData (lr_browserLaunchData res) = sessionData r.
Proof.
  intros Ef El Hs Ha Hne.
  destruct (assignSessionToAgent_ok w lead a1 t1 l Ef El)
    as (res1 & w1 & E1 & Ef1 & Hl1 & Hsp1 & Hkeep1).
  assert (El1 : leads w1 !! lead = Some (setAssignment a1 t1 l))
    by (rewrite Hl1; apply lookup_insert_eq).
  destruct (assignSessionToAgent_ok w1 lead a2 t2 _ Ef1 El1)
    as (res2 & w2 & E2 & Ef2 & Hl2 & Hsp2 & Hkeep2).
  assert (El2 : leads w2 !! lead = Some (setAssignment a2 t2 (setAssignment a1 t1 l)))
    by (rewrite Hl2; apply lookup_insert_eq).
  exists res1, w1, res2, w2. split; [exact E1|]. split; [exact E2|].
  split.
  - unfold launchAgentBrowser, tryCatch, bind, findById.
    rewrite Ef2, El2. cbn beta iota.
    rewrite (notAssignedTo_other a2 a1 t2 _ (not_eq_sym Hne)). reflexivity.
  - apply Hkeep1, Hkeep2 in Hs.
    destruct (launchAgentBrowser_ok w2 lead a2 t3 _ name _ Ef2 El2
                (notAssignedTo_self a2 t2 _ Ha) Hs)
      as (res & w3 & E3 & Hsp3 & _ & Hag & Hd).
    exists res, w3. split; [exact E3|].
    split; [now rewrite Hsp3, Hsp2, Hsp1|]. split; [exact Hag|exact Hd].
Qed.

Lemma reassignment_moves_access_witness :
  dbFault sampleWorld = None
  /\ leads sampleWorld !! "L1" = Some sampleLead
  /\ hasSessionAt sampleWorld "L1" "session_L1_O1_1000_00ff00ff00ff00ff.json" sampleRecord
  /\ "A2" <> "" /\ "A1" <> "A2"
  /\ exists res1 w1 res2 w2,
       assignSessionToAgent "L1" "A1" 2000 sampleWorld = (Normal res1, w1)
       /\ assignSessionToAgent "L1" "A2" 2500 w1 = (Normal res2, w2)
       /\ launchAgentBrowser "L1" "A1" 3000 w2 = (Throw accessDeniedError, w2)
       /\ exists res w3,
            launchAgentBrowser "L1" "A2" 3000 w2 = (Normal res, w3)
            /\ bl_sessionData (lr_browserLaunchData res) = samplePayload.
Proof.
  assert (H1 : "A2" <> "") by discriminate.
  assert (H2 : "A1" <> "A2") by discriminate.
  split; [reflexivity|]. split; [reflexivity|].
  split; [exact sampleWorld_hasSession|]. split; [exact H1|]. split; [exact H2|].
  destruct (reassignment_moves_access sampleWorld "L1" "A1" "A2" 2000 2500 3000
              sampleLead _ sampleRecord eq_refl eq_refl sampleWorld_hasSession H1 H2)
    as (res1 & w1 & res2 & w2 & E1 & E2 & E3 & res & w3 & E4 & _ & _ & Hd).
  exists res1, w1, res2, w2. split; [exact E1|]. split; [exact E2|].
  split; [exact E3|]. exists res, w3. split; [exact E4|exact Hd].
Defined.

(** X20.  Whatever the state, a launch that returns was requested by the
    agent the lead is assigned to, for a lead with a stored session: it
    spawns the launcher exactly once, with this lead, this agent and that
    session's payload, changes no lead, and rewrites only the session's
    file, with its [lastUsed] set.  A launch that throws spawns nothing
    and changes no lead; the only file it can have touched is the lead's
    session file, in [lastUsed]. *)
Theorem launch_only_for_assignee_with_session w lead agent now :
  match launchAgentBrowser lead agent now w with
  | (Throw _, w') =>
      spawned w' = spawned w
      /\ leads w' = leads w
      /\ (files w' = files w
          \/ exists name r,
               hasSessionAt w lead name r
               /\ files w'
                  = <[name := Readable (RecordJson (withLastUsed now r))]> (files w))
  | (Normal res, w') =>
      exists l name r,
        leads w !! lead = Some l
        /\ assignedTo l = Some agent /\ agent <> ""
        /\ hasSessionAt w lead name r
        /\ bl_leadId (lr_browserLaunchData res) = lead
        /\ bl_agentId (lr_browserLaunchData res) = agent
        /\ bl_sessionData (lr_browserLaunchData res) = sessionData r
        /\ spawned w' = (spawned w ++ [lr_browserLaunchData res])%list
        /\ leads w' = leads w
        /\ files w' = <[name := Readable (RecordJson (withLastUsed now r))]> (files w)
  end.
Proof.
  destruct (dbFault w) as [msg|] eqn:Ef.
  { unfold launchAgentBrowser, tryCatch, bind, findById, throw. rewrite Ef.
    cbv beta iota. auto. }
  destruct (leads w !! lead) as [l|] eqn:El.
  2:{ unfold launchAgentBrowser, tryCatch, bind, findById, throw. rewrite Ef, El.
      cbv beta iota. auto. }
  destruct (notAssignedTo l agent) eqn:Ha.
  { unfold launchAgentBrowser, tryCatch, bind, findById, throw. rewrite Ef, El.
    cbn beta iota. rewrite Ha. cbv beta iota. auto. }
  rewrite (launchAgentBrowser_assigned w lead agent now l Ef El Ha).
  pose proof (retrieveSession_outcome w lead now) as Hr.
  destruct (retrieveSession lead now w) as [[res|e] w']; [|subst w'; auto].
  destruct Hr as (_ & name & r & Hs & -> & ->). cbn beta iota zeta.
  destruct (notAssignedTo_false l agent Ha) as [Hat Hne].
  exists l, name, r. repeat split; try assumption; reflexivity.
Qed.

(** X21.  Whatever the state, a retrieval that throws changes nothing, and
    one that returns found the lead's stored session: it returns that
    record's payload, id and creation time, and rewrites only that
    record's file, with [lastUsed] set to the time of the call. *)
Theorem retrieve_touches_only_last_used w lead now :
  match retrieveSession lead now w with
  | (Throw _, w') => w' = w
  | (Normal res, w') =>
      exists name r,
        hasSessionAt w lead name r
        /\ rr_sessionData res = sessionData r
        /\ rr_sessionId res = sessionId r
        /\ rr_createdAt res = createdAt r
        /\ rr_lastUsed res = now
        /\ files w' = <[name := Readable (RecordJson (withLastUsed now r))]> (files w)
        /\ leads w' = leads w /\ dbFault w' = dbFault w /\ spawned w' = spawned w
  end.
Proof.
  pose proof (retrieveSession_outcome w lead now) as Hr.
  destruct (retrieveSession lead now w) as [[res|e] w']; [|exact Hr].
  destruct Hr as (_ & name & r & Hs & -> & ->).
  exists name, r. repeat split; try assumption; reflexivity.
Qed.

(** *** [cleanupOldSessions] *)













(** *** [getSessionStats] *)








(** *** [storeSession] followed by [cleanupOldSessions] *)




End SessionExtras.

(** ** Properties of the Order model *)

Module OrderExtras.
Import Order OrderSpec.
Local Open Scope string_scope.
Local Open Scope Q_scope.

Lemma Math_round_le x y : x <= y -> (Math_round x <= Math_round y)%Z.
Proof.
  intros H. unfold Math_round. apply Qfloor_resp_le.
  apply Qplus_le_l. exact H.
Qed.

Lemma Math_round_Z z : Math_round (inject_Z z) = z.
Proof.
  unfold Math_round.
  assert (Hl : (z <= Qfloor (inject_Z z + (1 # 2)))%Z).
  { rewrite <- (Qfloor_Z z) at 1. apply Qfloor_resp_le.
    rewrite <- (Qplus_0_r (inject_Z z)) at 1. apply Qplus_le_r. discriminate. }
  assert (Hu : (Qfloor (inject_Z z + (1 # 2)) < z + 1)%Z).
  { rewrite Zlt_Qlt. eapply Qle_lt_trans; [apply Qfloor_le|].
    rewrite inject_Z_plus. apply Qplus_lt_r. reflexivity. }
  lia.
Qed.

Lemma completionPercentage_nonzero o :
  ~ totalRequested o == 0 ->
  completionPercentage o
  = inject_Z (Math_round ((totalFulfilled o / totalRequested o) * 100)).
Proof.
  intros H. unfold completionPercentage.
  destruct (Qeq_bool (totalRequested o) 0) eqn:E; [|reflexivity].
  apply Qeq_bool_iff in E. contradiction.
Qed.

Lemma ratio_le a b t : 0 < t -> a <= b -> (a / t) * 100 <= (b / t) * 100.
Proof.
  intros Ht Hab. apply Qmult_le_compat_r; [|discriminate].
  unfold Qdiv. apply Qmult_le_compat_r; [exact Hab|].
  apply Qlt_le_weak, Qinv_lt_0_compat, Ht.
Qed.

(** X27.  For an order whose fulfilled total lies between zero and the
    requested total, [completionPercentage] lies between 0 and 100. *)
Theorem completion_percentage_within_0_100 o :
  0 <= totalFulfilled o ->
  totalFulfilled o <= totalRequested o ->
  0 <= completionPercentage o <= 100.
Proof.
  intros H0 Hle.
  destruct (Qeq_dec (totalRequested o) 0) as [Hz|Hnz].
  { unfold completionPercentage. apply Qeq_bool_iff in Hz. rewrite Hz.
    split; discriminate. }
  rewrite (completionPercentage_nonzero o Hnz).
  assert (Ht : 0 < totalRequested o).
  { apply Qle_lt_or_eq in H0 as [H0|H0].
    - eapply Qlt_le_trans; eauto.
    - apply Qle_lteq in Hle as [Hle|Hle].
      + now rewrite <- H0 in Hle.
      + exfalso. apply Hnz. now rewrite <- Hle, <- H0. }
  assert (H1 : (0 / totalRequested o) * 100 <= (totalFulfilled o / totalRequested o) * 100)
    by (apply ratio_le; assumption).
  assert (H2 : (totalFulfilled o / totalRequested o) * 100
               <= (totalRequested o / totalRequested o) * 100)
    by (apply ratio_le; assumption).
  assert (E0 : (0 / totalRequested o) * 100 == inject_Z 0) by (now field).
  assert (E1 : (totalRequested o / totalRequested o) * 100 == inject_Z 100)
    by (now field).
  rewrite E0 in H1. rewrite E1 in H2.
  apply Math_round_le in H1, H2. rewrite Math_round_Z in H1, H2.
  split.
  - change 0 with (inject_Z 0). rewrite <- Zle_Qle. exact H1.
  - change 100 with (inject_Z 100). rewrite <- Zle_Qle. exact H2.
Qed.

Lemma completion_percentage_within_0_100_witness :
  0 <= totalFulfilled halfDone
  /\ totalFulfilled halfDone <= totalRequested halfDone
  /\ 0 <= completionPercentage halfDone <= 100.
Proof.
  assert (H0 : 0 <= totalFulfilled halfDone) by discriminate.
  assert (H1 : totalFulfilled halfDone <= totalRequested halfDone) by discriminate.
  split; [exact H0|]. split; [exact H1|].
  exact (completion_percentage_within_0_100 halfDone H0 H1).
Defined.

(** X28.  An order with a non-zero requested total that is fulfilled in
    full has [completionPercentage] 100. *)
Theorem completion_percentage_of_full_order o :
  ~ totalRequested o == 0 ->
  totalFulfilled o == totalRequested o ->
  completionPercentage o = 100.
Proof.
  intros Hnz He. rewrite (completionPercentage_nonzero o Hnz).
  assert (E : (totalFulfilled o / totalRequested o) * 100 == inject_Z 100).
  { rewrite He. now field. }
  unfold Math_round. rewrite E. fold (Math_round (inject_Z 100)).
  rewrite Math_round_Z. reflexivity.
Qed.

Lemma completion_percentage_of_full_order_witness :
  ~ totalRequested allDone == 0
  /\ totalFulfilled allDone == totalRequested allDone
  /\ completionPercentage allDone = 100.
Proof.
  assert (H0 : ~ totalRequested allDone == 0) by discriminate.
  assert (H1 : totalFulfilled allDone == totalRequested allDone) by reflexivity.
  split; [exact H0|]. split; [exact H1|].
  exact (completion_percentage_of_full_order allDone H0 H1).
Defined.

(** X29.  [completionPercentage] grows with the fulfilled total and is not
    capped: of two orders with the same positive requested total, the one
    with the larger fulfilled total has the larger percentage; so an order
    fulfilled beyond its request shows 100 or more. *)
Theorem completion_percentage_monotone o1 o2 :
  0 < totalRequested o1 ->
  totalRequested o2 == totalRequested o1 ->
  totalFulfilled o1 <= totalFulfilled o2 ->
  completionPercentage o1 <= completionPercentage o2.
Proof.
  intros Ht Hr Hf.
  assert (Hn1 : ~ totalRequested o1 == 0).
  { intros E. rewrite E in Ht. discriminate. }
  assert (Hn2 : ~ totalRequested o2 == 0) by now rewrite Hr.
  rewrite (completionPercentage_nonzero o1 Hn1), (completionPercentage_nonzero o2 Hn2).
  rewrite <- Zle_Qle. apply Math_round_le. rewrite Hr. now apply ratio_le.
Qed.

Lemma completion_percentage_monotone_witness :
  0 < totalRequested allDone
  /\ totalRequested overDone == totalRequested allDone
  /\ totalFulfilled allDone <= totalFulfilled overDone
  /\ completionPercentage allDone <= completionPercentage overDone
  /\ completionPercentage overDone = 150.
Proof.
  assert (H0 : 0 < totalRequested allDone) by reflexivity.
  assert (H1 : totalRequested overDone == totalRequested allDone) by reflexivity.
  assert (H2 : totalFulfilled allDone <= totalFulfilled overDone) by discriminate.
  split; [exact H0|]. split; [exact H1|]. split; [exact H2|].
  split; [exact (completion_percentage_monotone allDone overDone H0 H1 H2)|].
  reflexivity.
Defined.

Lemma preSave_again m' now' now o :
  preSave m' now' (preSave true now o) = preSave true now o.
Proof.
  unfold preSave. destruct m'; [|reflexivity].
  destruct (String.eqb (status o) "fulfilled") eqn:Ef;
    destruct (String.eqb (status o) "cancelled") eqn:Ec;
    try (apply String.eqb_eq in Ef; apply String.eqb_eq in Ec; congruence);
    destruct (completedAt o) as [c|] eqn:E1;
    destruct (cancelledAt o) as [c'|] eqn:E2; simpl;
    rewrite ?Ef, ?Ec, ?E1, ?E2; simpl; rewrite ?Ef, ?Ec, ?E1, ?E2; reflexivity.
Qed.

(** X30.  The save hook only ever stamps a date that is missing: it leaves
    the status and the counts alone, keeps a [completedAt] or
    [cancelledAt] that is set, changes [completedAt] only by setting it to
    the time of a save that modified the status of a fulfilled order, and
    [cancelledAt] only likewise for a cancelled order; once the hook has
    run on a modified status, running it again changes nothing. *)
Theorem preSave_stamps_only_missing_dates m now o :
  status (preSave m now o) = status o
  /\ requests (preSave m now o) = requests o
  /\ fulfilled (preSave m now o) = fulfilled o
  /\ (is_Some (completedAt o) -> completedAt (preSave m now o) = completedAt o)
  /\ (is_Some (cancelledAt o) -> cancelledAt (preSave m now o) = cancelledAt o)
  /\ (completedAt (preSave m now o) <> completedAt o ->
      m = true /\ status o = "fulfilled" /\ completedAt (preSave m now o) = Some now)
  /\ (cancelledAt (preSave m now o) <> cancelledAt o ->
      m = true /\ status o = "cancelled" /\ cancelledAt (preSave m now o) = Some now)
  /\ (forall m' now', preSave m' now' (preSave true now o) = preSave true now o).
Proof.
  split; [|split; [|split; [|split; [|split; [|split; [|split]]]]]];
    try (intros m' now'; apply preSave_again);
    unfold preSave;
    destruct m; simpl; try reflexivity; try congruence;
    destruct (String.eqb (status o) "fulfilled") eqn:Ef;
    destruct (String.eqb (status o) "cancelled") eqn:Ec;
    try (apply String.eqb_eq in Ef); try (apply String.eqb_eq in Ec);
    destruct (completedAt o) as [c|] eqn:E1;
    destruct (cancelledAt o) as [c'|] eqn:E2; simpl;
    rewrite ?E1, ?E2; try reflexivity; try congruence;
    try (intros [? [=]]); auto.
Qed.

End OrderExtras.
